(** * Bobgo shipping connector: a shallow embedding and its properties

    The development follows [delivery_bobgo/models/delivery_bobgo.py]
    (class [DeliveryCarrier]) and [delivery_bobgo/wizard/choose_bobgo_rate.py]
    (class [ChooseBobgoRateLine]).

    Conventions of the embedding.
    - A Python [str] is a [string]; every [ascii] stands for one code point
      below 256, so [String.length] is Python's [len].
    - A Python [float] is a binary64 number, written as a [spec_float] in
      canonical form; arithmetic is [SFadd]/[SFmul] at precision 53 and
      exponent bound 1024, comparisons are [SFltb]/[SFleb].
    - A Python [int] is a [Z].
    - A [Char] field of the ORM is an [option string]: [None] is the ORM's
      [False] of an unset field.
    - A [Float] field of the ORM is a [float]; an [Integer] field is a [Z].
    - A recordset of pickings is the list of its ids; the table of the
      records is a [gmap]; reading a record that is not in the table raises
      [MissingError].
    - A method that can raise returns a [result]; a method that changes
      records or talks to the network threads the state explicitly
      ([ST]); what was changed before an exception stays changed.
    - The network is the list of the outcomes of the coming requests and
      the log of the requests sent.
    - Logging has no effect and is left out, except where evaluating the
      arguments of a logging call can raise.
    - The translation function [_] is the identity (no catalogue is loaded).
    - [create] and [write] of the ORM, and the assignment of a field,
      store the values they are given and then run the constraints that the
      repository declares on the fields written ([@api.constrains]); what
      was stored stays stored when a constraint raises.
    - The generic cache helper [self.env.cache] is not part of the
      sources: its [get] and [set] are parameters of [rate_shipment]. *)

From Stdlib Require Import ZArith String Ascii List Bool Lia.
From Stdlib Require Import Floats.SpecFloat DecimalString DecimalZ DecimalPos.
From stdpp Require Import gmap strings.

Open Scope string_scope.
Open Scope Z_scope.

(** ** Python values *)

Abbreviation float := spec_float.

Set Warnings "-register-all".

(** JSON-shaped Python values: what [response.json()] returns and what the
    payload dictionaries are made of.  A [dict] keeps its insertion order. *)
Inductive pyvalue :=
| PNone
| PBool (b : bool)
| PInt (z : Z)
| PFloat (f : float)
| PStr (s : string)
| PList (l : list pyvalue)
| PDict (d : list (string * pyvalue)).

(** Truth value of a Python object, as [if v:] and [not v] see it. *)
Definition truthy (v : pyvalue) : bool :=
  match v with
  | PNone => false
  | PBool b => b
  | PInt z => negb (z =? 0)
  | PFloat f => match f with S754_zero _ => false | _ => true end
  | PStr s => negb (String.eqb s "")
  | PList l => match l with [] => false | _ => true end
  | PDict d => match d with [] => false | _ => true end
  end.

(** [a or b] on Python values. *)
Definition py_or (a b : pyvalue) : pyvalue := if truthy a then a else b.

(** A [Char] field read as a Python value. *)
Definition of_char (c : option string) : pyvalue :=
  match c with Some s => PStr s | None => PBool false end.

(** [c or d] for a [Char] field [c] and a string literal [d]. *)
Definition char_or (c : option string) (d : string) : string :=
  match c with
  | Some s => if String.eqb s "" then d else s
  | None => d
  end.

(** [d.get(k, dflt)] on the items of a [dict]. *)
Fixpoint dict_get (d : list (string * pyvalue)) (k : string) (dflt : pyvalue) : pyvalue :=
  match d with
  | [] => dflt
  | (k', v) :: rest => if String.eqb k' k then v else dict_get rest k dflt
  end.

(** [k in d] on the items of a [dict]. *)
Fixpoint dict_mem (d : list (string * pyvalue)) (k : string) : bool :=
  match d with
  | [] => false
  | (k', _) :: rest => String.eqb k' k || dict_mem rest k
  end.

(** ** HTTP responses, exceptions, results *)

(** What the code reads of a [requests.Response]: [json_body] is [None]
    when the body is not a JSON document. *)
Record response := {
  status_code : Z;
  reason : string;
  text : string;
  json_body : option pyvalue
}.

(** The exceptions the code raises or meets, each with the text of
    [str(e)].  [JSONDecodeError] is the one of [requests]: it derives from
    both [RequestException] and [ValueError]. *)
Inductive exn :=
| UserError (msg : string)
| ValidationError (msg : string)
| MissingError (msg : string)
| TypeError (msg : string)
| ValueError (msg : string)
| OverflowError (msg : string)
| AttributeError (msg : string)
| KeyError (msg : string)
| IndexError (msg : string)
| Timeout (msg : string)
| ConnectionError (msg : string)
| HTTPError (msg : string) (resp : response)
| JSONDecodeError (msg : string)
| RequestException (msg : string).

(** [str(e)] *)
Definition exn_str (e : exn) : string :=
  match e with
  | UserError m | ValidationError m | MissingError m | TypeError m
  | ValueError m | OverflowError m | AttributeError m | KeyError m | IndexError m
  | Timeout m | ConnectionError m | HTTPError m _ | JSONDecodeError m
  | RequestException m => m
  end.

(** [isinstance(e, UserError)]: [ValidationError] and [MissingError] derive
    from [UserError]. *)
Definition is_UserError (e : exn) : bool :=
  match e with
  | UserError _ | ValidationError _ | MissingError _ => true
  | _ => false
  end.

Inductive result (A : Type) :=
| Ok (a : A)
| Raise (e : exn).
Arguments Ok {A} a.
Arguments Raise {A} e.

Definition bind {A B} (r : result A) (k : A -> result B) : result B :=
  match r with Ok a => k a | Raise e => Raise e end.

Declare Scope result_scope.
Delimit Scope result_scope with result.
Notation "'let*' x ':=' r 'in' k" := (bind r (fun x => k))
  (at level 10, x pattern, r at level 100, k at level 200) : result_scope.
Open Scope result_scope.

(** The call raised a framework-level user error. *)
Definition raises_UserError {A} (r : result A) : Prop :=
  exists e, r = Raise e /\ is_UserError e = true.

(** ** Strings *)

(** [c.isspace()] for a code point below 256. *)
Definition isspace (c : ascii) : bool :=
  let n := N_of_ascii c in
  (((9 <=? n) && (n <=? 13)) || ((28 <=? n) && (n <=? 32)) || (n =? 133) || (n =? 160))%N.

Fixpoint lstrip (s : string) : string :=
  match s with
  | EmptyString => EmptyString
  | String c r => if isspace c then lstrip r else s
  end.

Fixpoint rstrip (s : string) : string :=
  match s with
  | EmptyString => EmptyString
  | String c r =>
      match rstrip r with
      | EmptyString => if isspace c then EmptyString else String c EmptyString
      | r' => String c r'
      end
  end.

(** [s.strip()] *)
Definition strip (s : string) : string := rstrip (lstrip s).

(** [s.startswith(p)] *)
Definition startswith (s p : string) : bool := String.prefix p s.

(** [s[:n]] for [n >= 0] *)
Definition str_take (n : nat) (s : string) : string := String.substring 0 n s.

(** [s.split(sep)] for a one-character separator *)
Fixpoint split_on (sep : ascii) (s : string) : list string :=
  match s with
  | EmptyString => [EmptyString]
  | String c r =>
      if Ascii.eqb c sep then EmptyString :: split_on sep r
      else match split_on sep r with
           | hd :: tl => String c hd :: tl
           | [] => [String c EmptyString]
           end
  end.

(** [sub in s] for strings *)
Definition str_contains (s sub : string) : bool :=
  match sub with
  | EmptyString => true
  | _ => match String.index 0 sub s with Some _ => true | None => false end
  end.

(** [s.partition(c)]: the text before the first character satisfying [p]
    and the text from that character on; [None] when there is none. *)
Fixpoint break_at (p : ascii -> bool) (s : string) : option (string * string) :=
  match s with
  | EmptyString => None
  | String c r =>
      if p c then Some (EmptyString, s)
      else match break_at p r with
           | Some (a, b) => Some (String c a, b)
           | None => None
           end
  end.

Definition str_forall (p : ascii -> bool) (s : string) : bool :=
  forallb p (list_ascii_of_string s).

Definition is_alpha (c : ascii) : bool :=
  let n := N_of_ascii c in
  (((65 <=? n) && (n <=? 90)) || ((97 <=? n) && (n <=? 122)))%N.

Definition is_digit (c : ascii) : bool :=
  let n := N_of_ascii c in ((48 <=? n) && (n <=? 57))%N.

Definition lower_char (c : ascii) : ascii :=
  let n := N_of_ascii c in
  if ((65 <=? n) && (n <=? 90))%N then ascii_of_N (n + 32) else c.

Fixpoint lower (s : string) : string :=
  match s with
  | EmptyString => EmptyString
  | String c r => String (lower_char c) (lower r)
  end.

(** ** [urllib.parse.urljoin]

    Scheme, network location, path, query and fragment are split as
    [urlsplit] does; path parameters (after [;]) are left in the path, and
    no character is stripped or rejected: the URLs joined in the source are
    plain [https] literals. *)

Record url_parts := {
  u_scheme : string; u_netloc : string; u_path : string;
  u_query : string; u_fragment : string
}.

Definition scheme_char (c : ascii) : bool :=
  is_alpha c || is_digit c || Ascii.eqb c "+" || Ascii.eqb c "-" || Ascii.eqb c ".".

Definition uses_relative : list string :=
  [""; "ftp"; "http"; "gopher"; "nntp"; "imap"; "wais"; "file"; "https"; "shttp";
   "mms"; "prospero"; "rtsp"; "rtspu"; "sftp"; "svn"; "svn+ssh"; "ws"; "wss"].

Definition uses_netloc : list string :=
  [""; "ftp"; "http"; "gopher"; "nntp"; "telnet"; "imap"; "wais"; "file"; "mms";
   "https"; "shttp"; "snews"; "prospero"; "rtsp"; "rtspu"; "rsync"; "svn";
   "svn+ssh"; "sftp"; "nfs"; "git"; "git+ssh"; "ws"; "wss"; "itms-services"].

Definition str_in (s : string) (l : list string) : bool := existsb (String.eqb s) l.

Definition str_nonempty (s : string) : bool := negb (String.eqb s "").

(** [urlsplit(url, scheme)] *)
Definition urlsplit (url default_scheme : string) : url_parts :=
  let '(scheme, rest) :=
    match break_at (Ascii.eqb ":") url with
    | Some (String c0 s0, String _ after) =>
        if is_alpha c0 && str_forall scheme_char (String c0 s0)
        then (lower (String c0 s0), after)
        else (default_scheme, url)
    | _ => (default_scheme, url)
    end in
  let '(netloc, rest) :=
    if String.prefix "//" rest then
      let r2 := String.substring 2 (String.length rest - 2) rest in
      match break_at (fun c => Ascii.eqb c "/" || Ascii.eqb c "?" || Ascii.eqb c "#") r2 with
      | Some (n, r) => (n, r)
      | None => (r2, EmptyString)
      end
    else (EmptyString, rest) in
  let '(rest, fragment) :=
    match break_at (Ascii.eqb "#") rest with
    | Some (a, String _ b) => (a, b)
    | _ => (rest, EmptyString)
    end in
  let '(path, query) :=
    match break_at (Ascii.eqb "?") rest with
    | Some (a, String _ b) => (a, b)
    | _ => (rest, EmptyString)
    end in
  {| u_scheme := scheme; u_netloc := netloc; u_path := path;
     u_query := query; u_fragment := fragment |}.

(** [urlunsplit] *)
Definition urlunsplit (u : url_parts) : string :=
  let url := u_path u in
  let url :=
    if str_nonempty (u_netloc u)
       || (str_nonempty (u_scheme u) && str_in (u_scheme u) uses_netloc
           && negb (String.prefix "//" url))
    then
      let url := if str_nonempty url && negb (String.prefix "/" url)
                 then "/" ++ url else url in
      "//" ++ u_netloc u ++ url
    else url in
  let url := if str_nonempty (u_scheme u) then u_scheme u ++ ":" ++ url else url in
  let url := if str_nonempty (u_query u) then url ++ "?" ++ u_query u else url in
  if str_nonempty (u_fragment u) then url ++ "#" ++ u_fragment u else url.

(** The loop of [urljoin] over the path segments. *)
Fixpoint resolve_segments (segments resolved : list string) : list string :=
  match segments with
  | [] => resolved
  | seg :: rest =>
      if String.eqb seg ".." then resolve_segments rest (removelast resolved)
      else if String.eqb seg "." then resolve_segments rest resolved
      else resolve_segments rest (resolved ++ [seg])%list
  end.

(** [segments[1:-1] = filter(None, segments[1:-1])] *)
Definition drop_empty_inner (segments : list string) : list string :=
  match segments with
  | [] => []
  | first :: rest =>
      match rest with
      | [] => [first]
      | _ => (first :: List.filter str_nonempty (removelast rest) ++ [List.last rest EmptyString])%list
      end
  end.

(** [urljoin(base, url)] *)
Definition urljoin (base url : string) : string :=
  if String.eqb base "" then url
  else if String.eqb url "" then base
  else
    let b := urlsplit base "" in
    let r := urlsplit url (u_scheme b) in
    if negb (String.eqb (u_scheme r) (u_scheme b)) || negb (str_in (u_scheme r) uses_relative)
    then url
    else if str_in (u_scheme r) uses_netloc && str_nonempty (u_netloc r)
    then urlunsplit r
    else
      let netloc := if str_in (u_scheme r) uses_netloc then u_netloc b else u_netloc r in
      if String.eqb (u_path r) "" then
        urlunsplit {| u_scheme := u_scheme r; u_netloc := netloc; u_path := u_path b;
                      u_query := if String.eqb (u_query r) "" then u_query b else u_query r;
                      u_fragment := u_fragment r |}
      else
        let base_parts := split_on "/" (u_path b) in
        let base_parts :=
          if String.eqb (List.last base_parts EmptyString) "" then base_parts
          else removelast base_parts in
        let segments :=
          if String.prefix "/" (u_path r) then split_on "/" (u_path r)
          else drop_empty_inner (base_parts ++ split_on "/" (u_path r))%list in
        let resolved := resolve_segments segments [] in
        let resolved :=
          let l := List.last segments EmptyString in
          if String.eqb l "." || String.eqb l ".." then (resolved ++ [EmptyString])%list else resolved in
        let path := String.concat "/" resolved in
        urlunsplit {| u_scheme := u_scheme r; u_netloc := netloc;
                      u_path := if String.eqb path "" then "/" else path;
                      u_query := u_query r; u_fragment := u_fragment r |}.

(** ** The carrier record *)

Record carrier := {
  carrier_id : Z;
  carrier_name : option string;
  delivery_type : string;
  bobgo_api_key : option string;
  bobgo_test_mode : bool;
  bobgo_handling_time : Z;
  bobgo_connection_status : bool
}.

Definition set_api_key (c : carrier) (k : option string) : carrier :=
  {| carrier_id := carrier_id c;
     carrier_name := carrier_name c;
     delivery_type := delivery_type c;
     bobgo_api_key := k;
     bobgo_test_mode := bobgo_test_mode c;
     bobgo_handling_time := bobgo_handling_time c;
     bobgo_connection_status := bobgo_connection_status c |}.

Definition BOBGO_API_TIMEOUT : Z := 30.
Definition BOBGO_CACHE_DURATION : Z := 300.

(** [bobgo_get_api_base_url] *)
Definition bobgo_get_api_base_url (self : carrier) : string :=
  if bobgo_test_mode self
  then "https://api.sandbox.bobgo.co.za/v2"
  else "https://api.bobgo.co.za/v2".

(** *** Constraints on the fields *)

(** [for carrier in self: body(carrier)], up to the first exception *)
Fixpoint for_each {A} (body : A -> result unit) (self : list A) : result unit :=
  match self with
  | [] => Ok tt
  | a :: rest => let* _ := body a in for_each body rest
  end.

(** The body of the loop of [_check_bobgo_api_key]. *)
Definition api_key_constraint (carrier : carrier) : result unit :=
  if String.eqb (delivery_type carrier) "bobgo" && truthy (of_char (bobgo_api_key carrier))
  then
    if Z.of_nat (String.length (strip (char_or (bobgo_api_key carrier) ""))) <? 20
    then Raise (ValidationError "API Key seems too short. Please check your Bobgo API key.")
    else Ok tt
  else Ok tt.

(** [_check_bobgo_api_key] on a recordset of carriers *)
Definition _check_bobgo_api_key (self : list carrier) : result unit :=
  for_each api_key_constraint self.

(** The body of the loop of [_check_handling_time]. *)
Definition handling_time_constraint (carrier : carrier) : result unit :=
  if String.eqb (delivery_type carrier) "bobgo" && (bobgo_handling_time carrier <? 0)
  then Raise (ValidationError "Handling time cannot be negative.")
  else Ok tt.

(** [_check_handling_time] on a recordset of carriers *)
Definition _check_handling_time (self : list carrier) : result unit :=
  for_each handling_time_constraint self.

(** [self.bobgo_api_key = key]: the key is stored, and the constraint on
    the field runs on the carrier as it is then. *)
Definition assign_api_key (self : carrier) (key : string) : result unit * carrier :=
  let self' := set_api_key self (Some key) in
  (_check_bobgo_api_key [self'], self').

(** [bobgo_validate_configuration]: the result and the carrier afterwards. *)
Definition bobgo_validate_configuration (self : carrier) : result bool * carrier :=
  match bobgo_api_key self with
  | None => (Raise (UserError "Bobgo API Key is not configured. Please set it in the delivery method configuration."), self)
  | Some key =>
      if String.eqb key "" then
        (Raise (UserError "Bobgo API Key is not configured. Please set it in the delivery method configuration."), self)
      else if negb (startswith key "Bearer ") && (10 <? Z.of_nat (String.length (strip key)))
      then
        match assign_api_key self ("Bearer " ++ strip key) with
        | (Raise x, self') => (Raise x, self')
        | (Ok _, self') => (Ok true, self')
        end
      else (Ok true, self)
  end.

(** ** Numbers *)

Definition PREC : Z := 53.
Definition EMAX : Z := 1024.

Definition f_zero : float := S754_zero false.                         (* 0.0 *)
Definition f_one : float := S754_finite false 4503599627370496 (-52).  (* 1.0 *)
Definition f_ten : float := S754_finite false 5629499534213120 (-49).  (* 10.0 *)
Definition f_0_2 : float := S754_finite false 7205759403792794 (-55).  (* 0.2 *)
Definition f_0_1 : float := S754_finite false 7205759403792794 (-56).  (* 0.1 *)
Definition f_0_01 : float := S754_finite false 5764607523034235 (-59). (* 0.01 *)

Definition is_nan (f : float) : bool :=
  match f with S754_nan => true | _ => false end.

Definition is_finite (f : float) : bool :=
  match f with S754_zero _ | S754_finite _ _ _ => true | _ => false end.

(** [x >= 0] on floats *)
Definition f_nonneg (f : float) : bool := SFleb f_zero f.

(** [str(n)] for an [int] *)
Definition str_of_int (n : Z) : string := NilZero.string_of_int (Z.to_int n).

(** [float(n)] for an [int]: the nearest binary64 number, ties to even;
    [OverflowError] when that is out of range. *)
Definition float_of_int (n : Z) : result float :=
  match binary_normalize PREC EMAX n 0 false with
  | S754_infinity _ => Raise (OverflowError "int too large to convert to float")
  | f => Ok f
  end.

(** [int(x)] for a [float]: truncation towards zero. *)
Definition int_of_float (x : float) : result Z :=
  match x with
  | S754_zero _ => Ok 0
  | S754_infinity _ => Raise (OverflowError "cannot convert float infinity to integer")
  | S754_nan => Raise (ValueError "cannot convert float NaN to integer")
  | S754_finite s m e =>
      Ok (cond_Zopp s (if 0 <=? e then Z.pos m * 2 ^ e else Z.shiftr (Z.pos m) (- e)))
  end.

(** [max(a, b)] on floats: [b] when [b > a], else [a]. *)
Definition max_float (a b : float) : float := if SFltb a b then b else a.

(** [max(a, b)] on ints. *)
Definition max_int (a b : Z) : Z := if a <? b then b else a.

(** The parts of the Python runtime that are taken as given: parsing a
    [str] as a float ([None] where [float(s)] raises [ValueError]), [repr]
    of floats and containers, and [sum] over floats. *)
Record builtins := {
  float_of_str : string -> option float;
  py_repr : pyvalue -> string;
  float_sum : list float -> float
}.

(** ** Records of the framework *)

(** [res.partner], with [state_id.code] and [country_id.code] read through. *)
Record partner := {
  partner_name : option string;
  partner_street : option string;
  partner_street2 : option string;
  partner_city : option string;
  partner_state_code : option string;
  partner_country_code : option string;
  partner_zip : option string;
  partner_mobile : option string;
  partner_phone : option string;
  partner_email : option string
}.

(** [product.product] *)
Record product := {
  display_name : option string;
  length_cm : float;
  width_cm : float;
  height_cm : float;
  weight : float
}.

(** [sale.order.line] *)
Record sale_order_line := {
  line_id : Z;
  line_name : pyvalue;
  is_delivery : bool;
  product_id : option product;
  price_unit : float;
  product_uom_qty : float
}.

(** [sale.order]; [warehouse_partner] is [warehouse_id.partner_id]. *)
Record sale_order := {
  order_id : Z;
  order_name : option string;
  order_line : list sale_order_line;
  warehouse_partner : option partner;
  partner_shipping_id : option partner
}.

(** [stock.move]; [sale_line_price_total] is [sale_line_id.price_total]
    when the move has a sale line. *)
Record move := {
  move_product : option product;
  sale_line_price_total : option float
}.

(** [stock.picking]; [picking_warehouse_partner] is
    [picking_type_id.warehouse_id.partner_id]. *)
Record picking := {
  picking_name : option string;
  picking_partner : option partner;
  picking_warehouse_partner : option partner;
  move_ids : list move;
  carrier_tracking_ref : pyvalue;
  bobgo_shipment_id : pyvalue
}.

(** [picking.write({'bobgo_shipment_id': sid, 'carrier_tracking_ref': ref})] *)
Definition write_shipment (p : picking) (sid ref : pyvalue) : picking :=
  {| picking_name := picking_name p;
     picking_partner := picking_partner p;
     picking_warehouse_partner := picking_warehouse_partner p;
     move_ids := move_ids p;
     carrier_tracking_ref := ref;
     bobgo_shipment_id := sid |}.

(** A [choose.bobgo.rate] record and the values of its lines. *)
Record wizard := {
  wizard_id : Z;
  wizard_order_id : Z;
  wizard_carrier_id : Z;
  wizard_lines : list pyvalue
}.

(** ** The network *)

Record request := {
  req_url : string;
  req_headers : list (string * pyvalue);
  req_json : pyvalue;
  req_timeout : Z
}.

(** The network as the code meets it: the outcomes of the coming
    [requests.post] calls, in order, and the requests sent so far.  When
    no outcome is left the connection fails. *)
Record network := {
  pending : list (result response);
  sent : list request
}.

(** [requests.post(url, headers=headers, json=json, timeout=timeout)] *)
Definition requests_post (url : string) (headers : list (string * pyvalue))
    (json : pyvalue) (timeout : Z) (n : network) : result response * network :=
  let rq := {| req_url := url; req_headers := headers; req_json := json;
               req_timeout := timeout |} in
  match pending n with
  | [] => (Raise (ConnectionError "Connection aborted."),
           {| pending := []; sent := (sent n ++ [rq])%list |})
  | o :: rest => (o, {| pending := rest; sent := (sent n ++ [rq])%list |})
  end.

(** [response.raise_for_status()] for the response to a request to [url] *)
Definition raise_for_status (url : string) (r : response) : result unit :=
  if (400 <=? status_code r) && (status_code r <? 500) then
    Raise (HTTPError (str_of_int (status_code r) ++ " Client Error: " ++ reason r
                      ++ " for url: " ++ url) r)
  else if (500 <=? status_code r) && (status_code r <? 600) then
    Raise (HTTPError (str_of_int (status_code r) ++ " Server Error: " ++ reason r
                      ++ " for url: " ++ url) r)
  else Ok tt.

(** [response.json()] *)
Definition response_json (r : response) : result pyvalue :=
  match json_body r with
  | Some v => Ok v
  | None => Raise (JSONDecodeError "Expecting value: line 1 column 1 (char 0)")
  end.

(** ** The environment *)

Record cache_entry := { ce_value : pyvalue; ce_expires : Z }.

(** What the methods of the carrier read and change: the carrier itself,
    the network, the [stock.picking] table, the wizards created, a store
    of values with expiry times for a cache helper to keep, the clock, the
    id of [base.ZAR] and the context. *)
Record env := {
  env_self : carrier;
  env_net : network;
  env_pickings : gmap Z picking;
  env_wizards : list wizard;
  env_cache : gmap string cache_entry;
  env_clock : Z;
  env_zar_id : Z;
  env_context : pyvalue
}.

Definition set_self (e : env) (c : carrier) : env :=
  {| env_self := c; env_net := env_net e; env_pickings := env_pickings e;
     env_wizards := env_wizards e; env_cache := env_cache e;
     env_clock := env_clock e; env_zar_id := env_zar_id e;
     env_context := env_context e |}.

Definition set_net (e : env) (n : network) : env :=
  {| env_self := env_self e; env_net := n; env_pickings := env_pickings e;
     env_wizards := env_wizards e; env_cache := env_cache e;
     env_clock := env_clock e; env_zar_id := env_zar_id e;
     env_context := env_context e |}.

Definition set_pickings (e : env) (t : gmap Z picking) : env :=
  {| env_self := env_self e; env_net := env_net e; env_pickings := t;
     env_wizards := env_wizards e; env_cache := env_cache e;
     env_clock := env_clock e; env_zar_id := env_zar_id e;
     env_context := env_context e |}.

Definition set_wizards (e : env) (w : list wizard) : env :=
  {| env_self := env_self e; env_net := env_net e; env_pickings := env_pickings e;
     env_wizards := w; env_cache := env_cache e;
     env_clock := env_clock e; env_zar_id := env_zar_id e;
     env_context := env_context e |}.

Definition set_cache (e : env) (c : gmap string cache_entry) : env :=
  {| env_self := env_self e; env_net := env_net e; env_pickings := env_pickings e;
     env_wizards := env_wizards e; env_cache := c;
     env_clock := env_clock e; env_zar_id := env_zar_id e;
     env_context := env_context e |}.

(** Computations that read and change a state and may raise; what was
    changed before an exception stays changed. *)
Definition ST (S A : Type) : Type := S -> result A * S.

Definition ret {S A} (a : A) : ST S A := fun e => (Ok a, e).
Definition raise {S A} (x : exn) : ST S A := fun e => (Raise x, e).
Definition lift {S A} (r : result A) : ST S A := fun e => (r, e).
Definition mbind {S A B} (m : ST S A) (k : A -> ST S B) : ST S B :=
  fun e => match m e with
           | (Ok a, e') => k a e'
           | (Raise x, e') => (Raise x, e')
           end.

(** [try: m  except Exception as x: h x] *)
Definition try_except {S A} (m : ST S A) (h : exn -> ST S A) : ST S A :=
  fun e => match m e with
           | (Raise x, e') => h x e'
           | ok => ok
           end.

(** The methods of the carrier act on the environment. *)
Abbreviation M := (ST env).

Notation "'do' x <- m ; k" := (mbind m (fun x => k))
  (at level 10, x pattern, m at level 100, k at level 200) : result_scope.
Notation "m ;; k" := (mbind m (fun _ => k))
  (at level 100, right associativity) : result_scope.

Section Runtime.

Context (py : builtins).

(** [float(v)] *)
Definition py_float (v : pyvalue) : result float :=
  match v with
  | PNone => Raise (TypeError "float() argument must be a string or a real number, not 'NoneType'")
  | PBool b => Ok (if b then f_one else f_zero)
  | PInt z => float_of_int z
  | PFloat f => Ok f
  | PStr s =>
      match float_of_str py s with
      | Some f => Ok f
      | None => Raise (ValueError ("could not convert string to float: " ++ py_repr py (PStr s)))
      end
  | PList _ => Raise (TypeError "float() argument must be a string or a real number, not 'list'")
  | PDict _ => Raise (TypeError "float() argument must be a string or a real number, not 'dict'")
  end.

(** [str(v)] *)
Definition py_str (v : pyvalue) : string :=
  match v with
  | PNone => "None"
  | PBool true => "True"
  | PBool false => "False"
  | PInt z => str_of_int z
  | PStr s => s
  | PFloat _ | PList _ | PDict _ => py_repr py v
  end.

(** [_safe_float] *)
Definition _safe_float (value : pyvalue) (default : float) (field_name : string) : result float :=
  match value with
  | PNone => Ok default
  | _ =>
      match py_float value with
      | Ok result => if SFleb result f_zero then Ok default else Ok result
      | Raise (TypeError _) | Raise (ValueError _) | Raise (JSONDecodeError _) => Ok default
      | Raise e => Raise e
      end
  end.

(** [fmt % args] for a tuple [args].  Only [%s] and [%%] are interpreted:
    they are the conversions of the format strings in the source. *)
Fixpoint py_format (fmt : string) (args : list pyvalue) : result string :=
  match fmt with
  | EmptyString =>
      match args with
      | [] => Ok EmptyString
      | _ => Raise (TypeError "not all arguments converted during string formatting")
      end
  | String c rest =>
      if Ascii.eqb c "%" then
        match rest with
        | EmptyString => Raise (ValueError "incomplete format")
        | String k rest' =>
            if Ascii.eqb k "s" then
              match args with
              | [] => Raise (TypeError "not enough arguments for format string")
              | a :: args' =>
                  let* r := py_format rest' args' in Ok (py_str a ++ r)
              end
            else if Ascii.eqb k "%" then
              let* r := py_format rest' args in Ok (String "%" r)
            else Raise (ValueError "unsupported format character")
        end
      else let* r := py_format rest args in Ok (String c r)
  end.

(** [v.get(k, dflt)]: only a [dict] has the method. *)
Definition py_get (v : pyvalue) (k : string) (dflt : pyvalue) : result pyvalue :=
  match v with
  | PDict d => Ok (dict_get d k dflt)
  | PNone => Raise (AttributeError "'NoneType' object has no attribute 'get'")
  | PBool _ => Raise (AttributeError "'bool' object has no attribute 'get'")
  | PInt _ => Raise (AttributeError "'int' object has no attribute 'get'")
  | PFloat _ => Raise (AttributeError "'float' object has no attribute 'get'")
  | PStr _ => Raise (AttributeError "'str' object has no attribute 'get'")
  | PList _ => Raise (AttributeError "'list' object has no attribute 'get'")
  end.

(** [len(v)] *)
Definition py_len (v : pyvalue) : result Z :=
  match v with
  | PList l => Ok (Z.of_nat (List.length l))
  | PDict d => Ok (Z.of_nat (List.length d))
  | PStr s => Ok (Z.of_nat (String.length s))
  | PNone => Raise (TypeError "object of type 'NoneType' has no len()")
  | PBool _ => Raise (TypeError "object of type 'bool' has no len()")
  | PInt _ => Raise (TypeError "object of type 'int' has no len()")
  | PFloat _ => Raise (TypeError "object of type 'float' has no len()")
  end.

(** [field in v] for a [str] field *)
Definition py_contains (v : pyvalue) (field : string) : result bool :=
  match v with
  | PDict d => Ok (dict_mem d field)
  | PList l =>
      Ok (existsb (fun x => match x with PStr s => String.eqb s field | _ => false end) l)
  | PStr s => Ok (str_contains s field)
  | PNone => Raise (TypeError "argument of type 'NoneType' is not iterable")
  | PBool _ => Raise (TypeError "argument of type 'bool' is not iterable")
  | PInt _ => Raise (TypeError "argument of type 'int' is not iterable")
  | PFloat _ => Raise (TypeError "argument of type 'float' is not iterable")
  end.

(** [v[field]] for a [str] field *)
Definition py_getitem (v : pyvalue) (field : string) : result pyvalue :=
  match v with
  | PDict d =>
      if dict_mem d field then Ok (dict_get d field PNone)
      else Raise (KeyError (py_repr py (PStr field)))
  | PList _ => Raise (TypeError "list indices must be integers or slices, not str")
  | PStr _ => Raise (TypeError "string indices must be integers, not 'str'")
  | PNone => Raise (TypeError "'NoneType' object is not subscriptable")
  | PBool _ => Raise (TypeError "'bool' object is not subscriptable")
  | PInt _ => Raise (TypeError "'int' object is not subscriptable")
  | PFloat _ => Raise (TypeError "'float' object is not subscriptable")
  end.

(** [v[0]] *)
Definition py_first (v : pyvalue) : result pyvalue :=
  match v with
  | PList (x :: _) => Ok x
  | PList [] => Raise (IndexError "list index out of range")
  | PStr (String c _) => Ok (PStr (String c EmptyString))
  | PStr EmptyString => Raise (IndexError "string index out of range")
  | PDict _ => Raise (KeyError "0")
  | PNone => Raise (TypeError "'NoneType' object is not subscriptable")
  | PBool _ => Raise (TypeError "'bool' object is not subscriptable")
  | PInt _ => Raise (TypeError "'int' object is not subscriptable")
  | PFloat _ => Raise (TypeError "'float' object is not subscriptable")
  end.

(** The values of [for r in v] *)
Definition py_iter (v : pyvalue) : result (list pyvalue) :=
  match v with
  | PList l => Ok l
  | PDict d => Ok (List.map (fun kv => PStr (fst kv)) d)
  | PStr s => Ok (List.map (fun c => PStr (String c EmptyString)) (list_ascii_of_string s))
  | PNone => Raise (TypeError "'NoneType' object is not iterable")
  | PBool _ => Raise (TypeError "'bool' object is not iterable")
  | PInt _ => Raise (TypeError "'int' object is not iterable")
  | PFloat _ => Raise (TypeError "'float' object is not iterable")
  end.

Fixpoint map_result {A B} (f : A -> result B) (l : list A) : result (list B) :=
  match l with
  | [] => Ok []
  | a :: rest =>
      let* b := f a in
      let* bs := map_result f rest in
      Ok (b :: bs)
  end.

(** *** Error details and messages *)

(** The loop of [_extract_error_detail] over the field names. *)
Fixpoint first_error_field (fields : list string) (error_data : pyvalue) : result string :=
  match fields with
  | [] => Ok (py_str error_data)
  | field :: rest =>
      let* found := py_contains error_data field in
      if found then
        let* v := py_getitem error_data field in Ok (py_str v)
      else first_error_field rest error_data
  end.

(** [_extract_error_detail] *)
Definition _extract_error_detail (resp : response) : result string :=
  match (let* error_data := response_json resp in
         first_error_field ["detail"; "error"; "message"; "description"] error_data) with
  | Ok s => Ok s
  | Raise (ValueError _) | Raise (JSONDecodeError _) | Raise (AttributeError _) =>
      Ok (if String.eqb (text resp) "" then "No error details available" else text resp)
  | Raise e => Raise e
  end.

Definition error_messages : gmap Z string :=
  list_to_map
    [(400, "Bad request to Bobgo API: %s");
     (401, "Authentication failed. Please check your Bobgo API key.");
     (403, "Access forbidden. Your API key may not have the required permissions.");
     (429, "Rate limit exceeded. Please try again later.");
     (500, "Bobgo API server error. Please try again later.");
     (502, "Bobgo API is temporarily unavailable. Please try again later.");
     (503, "Bobgo API service is temporarily overloaded. Please try again later.")].

(** [_format_http_error] *)
Definition _format_http_error (status : Z) (error_detail : string) : result string :=
  py_format
    (default "Bobgo API returned error (HTTP %s): %s" (error_messages !! status))
    [PInt status; PStr error_detail].

(** *** Addresses and items of a rate request *)

(** [_prepare_collection_address] *)
Definition _prepare_collection_address (order : sale_order) : result pyvalue :=
  match warehouse_partner order with
  | None => Raise (UserError "No warehouse configured for this order.")
  | Some warehouse_partner =>
      Ok (PDict
        [("company", PStr (char_or (partner_name warehouse_partner) "Warehouse"));
         ("street_address", PStr (char_or (partner_street warehouse_partner) ""));
         ("local_area", PStr (char_or (partner_street2 warehouse_partner) ""));
         ("city", PStr (char_or (partner_city warehouse_partner) ""));
         ("zone", PStr (char_or (partner_state_code warehouse_partner) ""));
         ("country", PStr (char_or (partner_country_code warehouse_partner) "ZA"));
         ("code", PStr (char_or (partner_zip warehouse_partner) ""))])
  end.

(** [_prepare_delivery_address] *)
Definition _prepare_delivery_address (order : sale_order) : result pyvalue :=
  match partner_shipping_id order with
  | None => Raise (UserError "No shipping address configured for this order.")
  | Some shipping_partner =>
      Ok (PDict
        [("company", PStr (char_or (partner_name shipping_partner) ""));
         ("street_address", PStr (char_or (partner_street shipping_partner) ""));
         ("local_area", PStr (char_or (partner_street2 shipping_partner) ""));
         ("city", PStr (char_or (partner_city shipping_partner) ""));
         ("zone", PStr (char_or (partner_state_code shipping_partner) ""));
         ("country", PStr (char_or (partner_country_code shipping_partner) "ZA"));
         ("code", PStr (char_or (partner_zip shipping_partner) ""))])
  end.

(** The body of the loop of [_prepare_order_items]: the item, and the
    price and quantity that enter the declared value. *)
Definition order_item (line : sale_order_line) (product : product)
    : result (pyvalue * float * float) :=
  let* length := _safe_float (PFloat (length_cm product)) f_ten "length_cm" in
  let* width := _safe_float (PFloat (width_cm product)) f_ten "width_cm" in
  let* height := _safe_float (PFloat (height_cm product)) f_ten "height_cm" in
  let* weight_kg := _safe_float (PFloat (weight product)) f_0_2 "weight" in
  let* price := _safe_float (PFloat (price_unit line)) f_zero "price" in
  let* quantity := _safe_float (PFloat (product_uom_qty line)) f_one "quantity" in
  let* q := int_of_float quantity in
  Ok (PDict
        [("description", PStr (str_take 100 (char_or (display_name product) "Product")));
         ("price", PFloat price);
         ("quantity", PInt (max_int 1 q));
         ("length_cm", PFloat (max_float f_0_1 length));
         ("width_cm", PFloat (max_float f_0_1 width));
         ("height_cm", PFloat (max_float f_0_1 height));
         ("weight_kg", PFloat (max_float f_0_01 weight_kg))],
      price, quantity).

Fixpoint order_items_loop (lines : list sale_order_line) (items : list pyvalue)
    (declared_value : float) : result (list pyvalue * float) :=
  match lines with
  | [] => Ok (items, declared_value)
  | line :: rest =>
      match product_id line with
      | None => order_items_loop rest items declared_value
      | Some product =>
          let* (item_data, price, quantity) := order_item line product in
          order_items_loop rest (items ++ [item_data])%list
            (SFadd PREC EMAX declared_value (SFmul PREC EMAX price quantity))
      end
  end.

(** [_prepare_order_items] *)
Definition _prepare_order_items (order : sale_order) : result (list pyvalue * float) :=
  order_items_loop
    (List.filter (fun l => negb (is_delivery l) && bool_decide (is_Some (product_id l)))
       (order_line order))
    [] f_zero.

(** *** Methods acting on the environment *)

(** [self.bobgo_validate_configuration()] on the carrier of the environment *)
Definition validate_configuration : M bool :=
  fun e =>
    let '(r, c) := bobgo_validate_configuration (env_self e) in (r, set_self e c).

(** [requests.post(url, headers=headers, json=json, timeout=BOBGO_API_TIMEOUT)] *)
Definition post (url : string) (headers : list (string * pyvalue)) (json : pyvalue)
    : M response :=
  fun e =>
    let '(r, n) := requests_post url headers json BOBGO_API_TIMEOUT (env_net e) in
    (r, set_net e n).

(** The request headers built from the carrier. *)
Definition api_headers (self : carrier) : list (string * pyvalue) :=
  [("Authorization", of_char (bobgo_api_key self));
   ("Content-Type", PStr "application/json");
   ("User-Agent", PStr "Odoo-Bobgo-Connector/19.0")].

(** The values of one line of the wizard, from one rate [r]. *)
Definition rate_line_vals (zar_id : Z) (r : pyvalue) : result pyvalue :=
  let* service_name := py_get r "service_name" (PStr "Unknown Service") in
  let* description := py_get r "description" (PStr "") in
  let* total_price := py_get r "total_price" (PFloat f_zero) in
  let* total_price := py_float total_price in
  let* delivery_date_min := py_get r "min_delivery_date" PNone in
  let* delivery_date_max := py_get r "max_delivery_date" PNone in
  let* service_code := py_get r "service_code" PNone in
  let* provider_slug := py_get r "provider_slug" PNone in
  Ok (PDict
        [("service_name", service_name);
         ("description", description);
         ("total_price", PFloat total_price);
         ("delivery_date_min", delivery_date_min);
         ("delivery_date_max", delivery_date_max);
         ("service_code", service_code);
         ("provider_slug", provider_slug);
         ("currency_id", PInt zar_id)]).

(** [_create_rate_selection_wizard]; creating a wizard without lines
    violates the constraint [_check_has_rates]. *)
Definition _create_rate_selection_wizard (order : sale_order) (rates : pyvalue) : M pyvalue :=
  fun e =>
    match (let* rs := py_iter rates in map_result (rate_line_vals (env_zar_id e)) rs) with
    | Raise x => (Raise x, e)
    | Ok [] => (Raise (ValidationError "No shipping rates available to choose from."), e)
    | Ok lines =>
        let wid := Z.of_nat (List.length (env_wizards e)) + 1 in
        let w := {| wizard_id := wid; wizard_order_id := order_id order;
                    wizard_carrier_id := carrier_id (env_self e);
                    wizard_lines := lines |} in
        (Ok (PDict
               [("type", PStr "ir.actions.act_window");
                ("name", PStr "Choose a Shipping Rate");
                ("res_model", PStr "choose.bobgo.rate");
                ("view_mode", PStr "form");
                ("res_id", PInt wid);
                ("target", PStr "new");
                ("context", env_context e)]),
         set_wizards e (env_wizards e ++ [w])%list)
    end.

(** The payload of the rate request of [bobgo_rate_shipment]. *)
Definition rate_payload (self : carrier) (collection delivery : pyvalue)
    (items : list pyvalue) (declared_value : float) : pyvalue :=
  PDict
    [("collection_address", collection);
     ("delivery_address", delivery);
     ("items", PList items);
     ("declared_value", PFloat declared_value);
     ("handling_time", PInt (max_int 0 (bobgo_handling_time self)))].

(** The [except] clauses of [bobgo_rate_shipment], in their order. *)
Definition rate_shipment_handler (x : exn) : M pyvalue :=
  match x with
  | Timeout _ => raise (UserError "Shipping rate request timed out. Please try again.")
  | ConnectionError _ =>
      raise (UserError "Cannot connect to Bobgo API. Please check your internet connection and try again.")
  | HTTPError _ resp =>
      do error_detail <- lift (_extract_error_detail resp);
      do msg <- lift (_format_http_error (status_code resp) error_detail);
      raise (UserError msg)
  | RequestException _ | JSONDecodeError _ =>
      do msg <- lift (py_format "Bobgo API connection failed: %s" [PStr (exn_str x)]);
      raise (UserError msg)
  | ValueError _ => raise (UserError "Invalid response from Bobgo API. Please try again.")
  | _ => raise x
  end.

(** The [try] statement of [bobgo_rate_shipment]: the request and what
    is made of its outcome. *)
Definition request_rates (order : sale_order) (self : carrier) (payload : pyvalue)
    : M pyvalue :=
  let url := urljoin (bobgo_get_api_base_url self) "/rates-at-checkout" in
  try_except
    (do resp <- post url (api_headers self) payload;
     do _ <- lift (raise_for_status url resp);
     do data <- lift (response_json resp);
     do listed <- lift (py_get data "rates" (PList []));
     do _ <- lift (py_len listed);
     do rates <- lift (py_get data "rates" PNone);
     if negb (truthy rates) then
       raise (UserError "No shipping rates available for the given addresses. Please check the addresses or try again later.")
     else _create_rate_selection_wizard order rates)
    rate_shipment_handler.

(** [bobgo_rate_shipment] *)
Definition bobgo_rate_shipment (order : sale_order) : M pyvalue :=
  fun e =>
    let self := env_self e in
    match order_line order with
    | [] => (Raise (UserError "Cannot calculate shipping for empty order."), e)
    | _ =>
        match _prepare_collection_address order with
        | Raise x => (Raise x, e)
        | Ok collection =>
            match _prepare_delivery_address order with
            | Raise x => (Raise x, e)
            | Ok delivery =>
                match _prepare_order_items order with
                | Raise x => (Raise x, e)
                | Ok ([], _) =>
                    (Raise (UserError "No shippable items found in the order."), e)
                | Ok (items, declared_value) =>
                    request_rates order self
                      (rate_payload self collection delivery items declared_value) e
                end
            end
        end
    end.

(** The generic cache helper of the framework, [self.env.cache], as
    [rate_shipment] uses it: [get(key)] and [set(key, value, duration)].
    The helper is no part of the sources: what its methods return, raise
    and change is left open. *)
Record cache_helper := {
  cache_get : string -> M pyvalue;
  cache_set : string -> pyvalue -> Z -> M unit
}.

(** [f"bobgo_rates_{order.id}_{self.id}"] *)
Definition cache_key (order : sale_order) (self : carrier) : string :=
  "bobgo_rates_" ++ str_of_int (order_id order) ++ "_" ++ str_of_int (carrier_id self).

Definition unexpected_error : pyvalue :=
  PDict
    [("success", PBool false);
     ("price", PFloat f_zero);
     ("error_message", PStr "Unexpected error while fetching shipping rates. Please try again.");
     ("warning_message", PBool false)].

(** The cache helper of the environment, and [rate_shipment] of the
    parent class, for carriers of another type. *)
Context (cache : cache_helper).
Context (super_rate_shipment : sale_order -> M pyvalue).

(** [rate_shipment] *)
Definition rate_shipment (order : sale_order) : M pyvalue :=
  fun e =>
    if negb (String.eqb (delivery_type (env_self e)) "bobgo") then super_rate_shipment order e
    else
      try_except
        (do _ <- validate_configuration;
         fun e1 =>
           let key := cache_key order (env_self e1) in
           (do cached_rates <- cache_get cache key;
            if truthy cached_rates then ret cached_rates
            else
              do resp <- bobgo_rate_shipment order;
              do _ <- cache_set cache key resp BOBGO_CACHE_DURATION;
              ret resp) e1)
        (fun x => if is_UserError x then raise x else ret unexpected_error)
        e.

(** *** Booking and cancelling shipments *)

(** [x or d] for a [Float] field [x] *)
Definition float_or (x : float) (d : pyvalue) : pyvalue := py_or (PFloat x) d.

(** One parcel of [_prepare_shipment_rate_payload]; slicing the [False]
    of an unset [display_name] is a [TypeError]. *)
Definition shipment_parcel (product : product) : result pyvalue :=
  match display_name product with
  | None => Raise (TypeError "'bool' object is not subscriptable")
  | Some name =>
      Ok (PDict
            [("description", PStr (str_take 100 name));
             ("submitted_length_cm", float_or (length_cm product) (PInt 10));
             ("submitted_width_cm", float_or (width_cm product) (PInt 10));
             ("submitted_height_cm", float_or (height_cm product) (PInt 10));
             ("submitted_weight_kg", float_or (weight product) (PFloat f_0_2))])
  end.

Definition default_parcel : pyvalue :=
  PDict
    [("description", PStr "Default Package");
     ("submitted_length_cm", PInt 10);
     ("submitted_width_cm", PInt 10);
     ("submitted_height_cm", PInt 10);
     ("submitted_weight_kg", PFloat f_0_2)].

(** [_get_collection_contact] and [_get_delivery_contact], on the partner *)
Definition contact_of (partner : partner) : list (string * pyvalue) :=
  [("name", PStr (char_or (partner_name partner) ""));
   ("phone", PStr (match partner_mobile partner with
                   | Some m => if String.eqb m "" then char_or (partner_phone partner) "" else m
                   | None => char_or (partner_phone partner) ""
                   end));
   ("email", PStr (char_or (partner_email partner) ""))].

(** [sum(move.sale_line_id.price_total for move in picking.move_ids
         if move.sale_line_id) or 0] *)
Definition picking_declared_value (p : picking) : pyvalue :=
  let totals := omap sale_line_price_total (move_ids p) in
  py_or (match totals with [] => PInt 0 | _ => PFloat (float_sum py totals) end) (PInt 0).

(** [_prepare_shipment_rate_payload]: the items of the dictionary *)
Definition _prepare_shipment_rate_payload (p : picking)
    : result (list (string * pyvalue)) :=
  match picking_warehouse_partner p with
  | None => Raise (UserError "No warehouse partner configured for this picking.")
  | Some warehouse_partner =>
      let collection := PDict
        [("company", PStr (char_or (partner_name warehouse_partner) "Warehouse"));
         ("street_address", PStr (char_or (partner_street warehouse_partner) ""));
         ("local_area", PStr (char_or (partner_street2 warehouse_partner) ""));
         ("city", PStr (char_or (partner_city warehouse_partner) ""));
         ("zone", PStr (char_or (partner_state_code warehouse_partner) ""));
         ("country", PStr (char_or (partner_country_code warehouse_partner) "ZA"));
         ("code", PStr (char_or (partner_zip warehouse_partner) ""))] in
      match picking_partner p with
      | None => Raise (UserError "No delivery partner configured for this picking.")
      | Some partner =>
          let delivery := PDict
            [("company", PStr (char_or (partner_name partner) ""));
             ("street_address", PStr (char_or (partner_street partner) ""));
             ("local_area", PStr (char_or (partner_street2 partner) ""));
             ("city", PStr (char_or (partner_city partner) ""));
             ("zone", PStr (char_or (partner_state_code partner) ""));
             ("country", PStr (char_or (partner_country_code partner) "ZA"));
             ("code", PStr (char_or (partner_zip partner) ""))] in
          let* parcels := map_result shipment_parcel (omap move_product (move_ids p)) in
          let parcels := match parcels with [] => [default_parcel] | _ => parcels end in
          let collection_contact := contact_of warehouse_partner in
          let delivery_contact := contact_of partner in
          Ok   [("collection_address", collection);
                 ("delivery_address", delivery);
                 ("parcels", PList parcels);
                 ("declared_value", picking_declared_value p);
                 ("collection_contact_mobile_number", dict_get collection_contact "phone" PNone);
                 ("collection_contact_email", dict_get collection_contact "email" PNone);
                 ("collection_contact_full_name", dict_get collection_contact "name" PNone);
                 ("delivery_contact_mobile_number", dict_get delivery_contact "phone" PNone);
                 ("delivery_contact_email", dict_get delivery_contact "email" PNone);
                 ("delivery_contact_full_name", dict_get delivery_contact "name" PNone);
                 ("timeout", PInt 10000)]
      end
  end.

(** [_prepare_shipment_payload] *)
Definition _prepare_shipment_payload (p : picking) (rate : pyvalue) : result pyvalue :=
  let* rate_payload := _prepare_shipment_rate_payload p in
  let* service_level_code := py_get rate "service_level_code" PNone in
  let* provider_slug := py_get rate "provider_slug" PNone in
  Ok (PDict
        [("collection_address", dict_get rate_payload "collection_address" PNone);
         ("collection_contact_name", dict_get rate_payload "collection_contact_full_name" PNone);
         ("collection_contact_mobile_number",
            dict_get rate_payload "collection_contact_mobile_number" PNone);
         ("collection_contact_email", dict_get rate_payload "collection_contact_email" PNone);
         ("delivery_address", dict_get rate_payload "delivery_address" PNone);
         ("delivery_contact_name", dict_get rate_payload "delivery_contact_full_name" PNone);
         ("delivery_contact_mobile_number",
            dict_get rate_payload "delivery_contact_mobile_number" PNone);
         ("delivery_contact_email", dict_get rate_payload "delivery_contact_email" PNone);
         ("parcels", dict_get rate_payload "parcels" PNone);
         ("declared_value", dict_get rate_payload "declared_value" PNone);
         ("timeout", PInt 20000);
         ("service_level_code", service_level_code);
         ("provider_slug", provider_slug)]).

(** [picking.write(...)] on the record [pid] of the table *)
Definition write_picking (pid : Z) (p : picking) : M unit :=
  fun e => (Ok tt, set_pickings e (<[pid := p]> (env_pickings e))).

(** The [try] block of [bobgo_send_shipping] for one picking: the entry
    appended to the result. *)
Definition book_shipment (pid : Z) (p : picking) : M pyvalue :=
  do _ <- validate_configuration;
  fun e =>
    let self := env_self e in
    (do rate_payload <- lift (_prepare_shipment_rate_payload p);
     let base_url := bobgo_get_api_base_url self in
     let rate_url := urljoin base_url "/rates" in
     let headers := api_headers self in
     do rate_response <- post rate_url headers (PDict rate_payload);
     do _ <- lift (raise_for_status rate_url rate_response);
     do rates_data <- lift (response_json rate_response);
     do listed <- lift (py_get rates_data "rates" (PList []));
     do _ <- lift (py_len listed);
     do rates <- lift (py_get rates_data "rates" PNone);
     if negb (truthy rates) then
       raise (UserError "No shipment rates available for this delivery.")
     else
       do selected_rate <- lift (py_first rates);
       do _ <- lift (py_get selected_rate "service_name" PNone);
       do shipment_payload <- lift (_prepare_shipment_payload p selected_rate);
       let shipment_url := urljoin base_url "/shipments" in
       do shipment_response <- post shipment_url headers shipment_payload;
       do _ <- lift (raise_for_status shipment_url shipment_response);
       do shipment_data <- lift (response_json shipment_response);
       do tracking_reference <- lift (py_get shipment_data "tracking_reference" PNone);
       do shipment_id <- lift (py_get shipment_data "id" PNone);
       do _ <- write_picking pid (write_shipment p shipment_id tracking_reference);
       do total_price <- lift (py_get selected_rate "total_price" (PFloat f_zero));
       do exact_price <- lift (py_float total_price);
       ret (PDict [("exact_price", PFloat exact_price);
                   ("tracking_number", tracking_reference)])) e.

(** One turn of the loop of [bobgo_send_shipping]: any exception of the
    [try] block becomes a user error. *)
Definition send_picking (pid : Z) : M pyvalue :=
  fun e =>
    match env_pickings e !! pid with
    | None => (Raise (MissingError "Record does not exist or has been deleted."), e)
    | Some p =>
        try_except (book_shipment pid p)
          (fun x =>
             do msg <- lift (py_format "Failed to book shipment for %s: %s"
                               [of_char (picking_name p); PStr (exn_str x)]);
             raise (UserError msg)) e
    end.

Fixpoint send_loop (pickings : list Z) (res : list pyvalue) : M (list pyvalue) :=
  match pickings with
  | [] => ret res
  | pid :: rest =>
      do entry <- send_picking pid;
      send_loop rest (res ++ [entry])%list
  end.

(** [bobgo_send_shipping] *)
Definition bobgo_send_shipping (pickings : list Z) : M (list pyvalue) :=
  send_loop pickings [].

(** One turn of the loop of [bobgo_cancel_shipment]: [true] when the
    picking joins [successful_cancellations], [false] when it joins
    [failed_cancellations]. *)
Definition cancel_picking (pid : Z) : M bool :=
  fun e =>
    match env_pickings e !! pid with
    | None => (Raise (MissingError "Record does not exist or has been deleted."), e)
    | Some p =>
        if negb (truthy (carrier_tracking_ref p)) then (Ok false, e)
        else
          try_except
            (let self := env_self e in
             let url := urljoin (bobgo_get_api_base_url self) "/shipments/cancel" in
             let payload := PDict [("tracking_reference", carrier_tracking_ref p)] in
             do resp <- post url (api_headers self) payload;
             if status_code resp =? 200 then
               do _ <- write_picking pid (write_shipment p (PBool false) (PBool false));
               ret true
             else ret false)
            (fun _ => ret false) e
    end.

Fixpoint cancel_loop (pickings : list Z) (successful failed : list pyvalue)
    : M (list pyvalue * list pyvalue) :=
  match pickings with
  | [] => ret (successful, failed)
  | pid :: rest =>
      fun e =>
        let name := match env_pickings e !! pid with
                    | Some p => of_char (picking_name p)
                    | None => PNone
                    end in
        (do ok <- cancel_picking pid;
         if ok : bool then cancel_loop rest (successful ++ [name])%list failed
         else cancel_loop rest successful (failed ++ [name])%list) e
  end.

(** [bobgo_cancel_shipment] *)
Definition bobgo_cancel_shipment (pickings : list Z) : M bool :=
  do lists <- cancel_loop pickings [] [];
  ret (Z.of_nat (List.length (snd lists)) =? 0).

End Runtime.

(** ** The rate-selection wizard *)

(** A [choose.bobgo.rate.line] with what it reads of its wizard:
    [rl_carrier] is [wizard_id.carrier_id]. *)
Record rate_line := {
  rl_service_name : option string;
  rl_total_price : float;
  rl_carrier : option carrier
}.

(** What [action_apply_rate] reads and changes: the sales order of the
    wizard ([wizard_id.order_id], [None] when empty), the [ir.logging]
    table and the name of the database. *)
Record wstate := {
  ws_order : option sale_order;
  ws_logging : list pyvalue;
  ws_dbname : string
}.

Definition set_order (w : wstate) (o : sale_order) : wstate :=
  {| ws_order := Some o; ws_logging := ws_logging w; ws_dbname := ws_dbname w |}.

(** [line.write({'name': name, 'price_unit': price})] *)
Definition write_line (l : sale_order_line) (name : pyvalue) (price : float)
    : sale_order_line :=
  {| line_id := line_id l; line_name := name; is_delivery := is_delivery l;
     product_id := product_id l; price_unit := price;
     product_uom_qty := product_uom_qty l |}.

(** [order.order_line.filtered(lambda l: l.is_delivery).write(...)] *)
Definition write_delivery_lines (o : sale_order) (name : pyvalue) (price : float)
    : sale_order :=
  {| order_id := order_id o; order_name := order_name o;
     order_line := List.map (fun l => if is_delivery l then write_line l name price else l)
                     (order_line o);
     warehouse_partner := warehouse_partner o;
     partner_shipping_id := partner_shipping_id o |}.

Definition window_close : pyvalue := PDict [("type", PStr "ir.actions.act_window_close")].

Section Wizard.

Context (py : builtins).

(** [order.set_delivery_line(carrier, amount)] of the framework: what it
    returns and the order afterwards. *)
Context (set_delivery_line : carrier -> float -> sale_order -> result pyvalue * sale_order).

(** The name written on the delivery line. *)
Definition service_description (self : rate_line) (c : carrier) : string :=
  let d := py_str py (of_char (carrier_name c)) in
  match rl_service_name self with
  | Some n =>
      if negb (String.eqb n "") && negb (String.eqb n "Unknown Service")
      then d ++ " - " ++ n else d
  | None => d
  end.

Definition rate_selected_log (self : rate_line) (o : sale_order) (dbname : string) : pyvalue :=
  PDict
    [("name", PStr "Bobgo Rate Selected");
     ("type", PStr "server");
     ("dbname", PStr dbname);
     ("level", PStr "INFO");
     ("message", PStr ("Selected Bobgo rate for order "
                       ++ py_str py (of_char (order_name o)) ++ ": "
                       ++ py_str py (of_char (rl_service_name self)) ++ " - "
                       ++ py_str py (PFloat (rl_total_price self))));
     ("path", PStr "bobgo_shipping");
     ("func", PStr "action_apply_rate");
     ("line", PInt 1)].

(** The [try] block of [action_apply_rate]. *)
Definition apply_rate (self : rate_line) (c : carrier) (o : sale_order) : ST wstate pyvalue :=
  fun w =>
    match set_delivery_line c (rl_total_price self) o with
    | (Raise x, o1) => (Raise x, set_order w o1)
    | (Ok success, o1) =>
        if negb (truthy success) then
          (Raise (UserError "Failed to apply shipping rate to the order."), set_order w o1)
        else
          let o2 :=
            if existsb is_delivery (order_line o1)
            then write_delivery_lines o1 (PStr (service_description self c))
                   (rl_total_price self)
            else o1 in
          (Ok window_close,
           {| ws_order := Some o2;
              ws_logging := (ws_logging w ++ [rate_selected_log self o2 (ws_dbname w)])%list;
              ws_dbname := ws_dbname w |})
    end.

(** [action_apply_rate] *)
Definition action_apply_rate (self : rate_line) : ST wstate pyvalue :=
  fun w =>
    match ws_order w, rl_carrier self with
    | Some o, Some c =>
        try_except (apply_rate self c o)
          (fun x =>
             do msg <- lift (py_format py "Error applying shipping rate: %s" [PStr (exn_str x)]);
             raise (UserError msg)) w
    | _, _ => (Raise (UserError "Invalid rate selection data."), w)
    end.

End Wizard.

(** * More of the carrier *)

(** ** The connection test *)

Definition set_connection_status (c : carrier) (status : bool) : carrier :=
  {| carrier_id := carrier_id c;
     carrier_name := carrier_name c;
     delivery_type := delivery_type c;
     bobgo_api_key := bobgo_api_key c;
     bobgo_test_mode := bobgo_test_mode c;
     bobgo_handling_time := bobgo_handling_time c;
     bobgo_connection_status := status |}.

(** The environment together with the [Datetime] field
    [bobgo_last_connection_test] of the carrier ([None] while unset); the
    field holds a reading of the environment's clock. *)
Record tested_env := {
  the_env : env;
  bobgo_last_connection_test : option Z
}.

(** A method of the carrier run where the field is in view. *)
Definition in_env {A} (m : M A) : ST tested_env A :=
  fun t =>
    let '(r, e) := m (the_env t) in
    (r, {| the_env := e; bobgo_last_connection_test := bobgo_last_connection_test t |}).

(** [self.write({'bobgo_last_connection_test': fields.Datetime.now(),
                 'bobgo_connection_status': status})] *)
Definition write_connection_test (status : bool) : ST tested_env unit :=
  fun t =>
    (Ok tt,
     {| the_env := set_self (the_env t) (set_connection_status (env_self (the_env t)) status);
        bobgo_last_connection_test := Some (env_clock (the_env t)) |}).

Definition f_0_5 : float := S754_finite false 4503599627370496 (-53).  (* 0.5 *)

Definition test_address : pyvalue :=
  PDict
    [("company", PStr "Test Company");
     ("street_address", PStr "125 Dallas Avenue");
     ("local_area", PStr "Newlands");
     ("city", PStr "Pretoria");
     ("zone", PStr "GP");
     ("country", PStr "ZA");
     ("code", PStr "0181")].

Definition test_payload : pyvalue :=
  PDict
    [("collection_address", test_address);
     ("delivery_address", test_address);
     ("items",
      PList [PDict [("description", PStr "Test Product");
                    ("price", PInt 200);
                    ("quantity", PInt 1);
                    ("length_cm", PInt 17);
                    ("width_cm", PInt 8);
                    ("height_cm", PInt 5);
                    ("weight_kg", PFloat f_0_5)]]);
     ("declared_value", PInt 200);
     ("handling_time", PInt 1)].

Section Connection.

Context (py : builtins).

(** The time measured around the request, [time.time() - start_time], and
    the text of [%.2f] for a float are taken as given. *)
Context (response_time : float) (format_2f : float -> string).

Definition connection_successful : pyvalue :=
  PDict
    [("type", PStr "ir.actions.client");
     ("tag", PStr "display_notification");
     ("params",
      PDict [("title", PStr "Connection Successful");
             ("message",
              PStr ("Bobgo API connection test passed successfully! Response time: "
                    ++ format_2f response_time ++ "s"));
             ("type", PStr "success");
             ("sticky", PBool false)])].

(** The [try] block of [bobgo_test_connection]. *)
Definition connection_attempt : ST tested_env pyvalue :=
  do _ <- in_env validate_configuration;
  fun t =>
    let self := env_self (the_env t) in
    let url := urljoin (bobgo_get_api_base_url self) "/rates-at-checkout" in
    (do response <- in_env (post url (api_headers self) test_payload);
     if status_code response =? 200 then
       do _ <- write_connection_test true;
       ret connection_successful
     else
       do _ <- write_connection_test false;
       do error_detail <- lift (_extract_error_detail py response);
       do msg <- lift (py_format py "Connection test failed (HTTP %s): %s"
                         [PInt (status_code response); PStr error_detail]);
       raise (UserError msg)) t.

(** [bobgo_test_connection]: the two [except] clauses follow the [try]
    block, so the user error of a status other than 200 passes through
    the second one. *)
Definition bobgo_test_connection : ST tested_env pyvalue :=
  try_except connection_attempt
    (fun x =>
       match x with
       | Timeout _ =>
           do _ <- write_connection_test false;
           do msg <- lift (py_format py
                             "Connection test timed out after %s seconds. Please try again."
                             [PInt BOBGO_API_TIMEOUT]);
           raise (UserError msg)
       | _ =>
           do _ <- write_connection_test false;
           do msg <- lift (py_format py "Connection test failed: %s" [PStr (exn_str x)]);
           raise (UserError msg)
       end).

(** ** The tracking link *)

(** [bobgo_get_tracking_link] *)
Definition bobgo_get_tracking_link (self : carrier) (picking : picking) : pyvalue :=
  if truthy (carrier_tracking_ref picking) then
    let base_url := if bobgo_test_mode self then "sandbox.bobgo.co.za" else "bobgo.co.za" in
    PStr ("https://" ++ base_url ++ "/tracking/" ++ py_str py (carrier_tracking_ref picking))
  else PBool false.

End Connection.

(** * Vocabulary of the statements *)

(** The API key is not configured: unset or empty. *)
Definition api_key_empty (self : carrier) : bool :=
  match bobgo_api_key self with
  | None => true
  | Some k => String.eqb k ""
  end.

(** The configuration check rewrites the key: the key does not start
    with ["Bearer "] and has more than 10 characters once stripped. *)
Definition api_key_rewritten (self : carrier) : bool :=
  match bobgo_api_key self with
  | Some key => negb (startswith key "Bearer ") && (10 <? Z.of_nat (String.length (strip key)))
  | None => false
  end.

(** The key that the configuration check writes is refused by the
    constraint on the key: the carrier is a Bobgo carrier whose key is
    rewritten and has, once stripped, fewer than 13 characters, so fewer
    than 20 with the prefix. *)
Definition api_key_refused (self : carrier) : bool :=
  String.eqb (delivery_type self) "bobgo"
  && api_key_rewritten self
  && (Z.of_nat (String.length (strip (char_or (bobgo_api_key self) ""))) <? 13).

(** Two carriers agree on every field but [bobgo_api_key]. *)
Definition same_but_api_key (a b : carrier) : Prop :=
  carrier_id a = carrier_id b /\ carrier_name a = carrier_name b
  /\ delivery_type a = delivery_type b /\ bobgo_test_mode a = bobgo_test_mode b
  /\ bobgo_handling_time a = bobgo_handling_time b
  /\ bobgo_connection_status a = bobgo_connection_status b.

(** [f] is not below zero: zero, positive, or not a number. *)
Definition not_negative (f : float) : bool := negb (SFltb f f_zero).

Definition float_at_least (lo : float) (v : pyvalue) : bool :=
  match v with PFloat f => SFleb lo f | _ => false end.

Definition int_at_least (lo : Z) (v : pyvalue) : bool :=
  match v with PInt z => lo <=? z | _ => false end.

Definition str_at_most (n : nat) (v : pyvalue) : bool :=
  match v with PStr s => Nat.leb (String.length s) n | _ => false end.

(** The bounds on one item of a rate request. *)
Definition item_ok (item : pyvalue) : bool :=
  match item with
  | PDict d =>
      int_at_least 1 (dict_get d "quantity" PNone)
      && float_at_least f_0_1 (dict_get d "length_cm" PNone)
      && float_at_least f_0_1 (dict_get d "width_cm" PNone)
      && float_at_least f_0_1 (dict_get d "height_cm" PNone)
      && float_at_least f_0_01 (dict_get d "weight_kg" PNone)
      && str_at_most 100 (dict_get d "description" PNone)
  | _ => false
  end.

(** The lines that [_prepare_order_items] keeps. *)
Definition shippable_lines (order : sale_order) : list sale_order_line :=
  List.filter (fun l => negb (is_delivery l) && bool_decide (is_Some (product_id l)))
    (order_line order).

(** The keys of an address object, each with the partner field it is
    read from and the text that stands for a missing value. *)
Definition address_fields (company_default : string)
    : list (string * (partner -> option string) * string) :=
  [("company", partner_name, company_default);
   ("street_address", partner_street, "");
   ("local_area", partner_street2, "");
   ("city", partner_city, "");
   ("zone", partner_state_code, "");
   ("country", partner_country_code, "ZA");
   ("code", partner_zip, "")].

(** The dictionary [d] carries the fields of [p] one-to-one: it has the
    seven keys, in order; a field that is set (and not empty) is copied,
    a field that is missing (or empty) becomes the default text. *)
Definition maps_partner (company_default : string) (p : partner)
    (d : list (string * pyvalue)) : Prop :=
  List.map fst d = List.map (fun kfd => fst (fst kfd)) (address_fields company_default)
  /\ Forall (fun kfd =>
       let '(key, field, dflt) := kfd in
       (field p = None -> dict_get d key PNone = PStr dflt)
       /\ (field p = Some "" -> dict_get d key PNone = PStr dflt)
       /\ (forall s, field p = Some s -> s <> "" -> dict_get d key PNone = PStr s))
     (address_fields company_default).

(** The statuses that [_format_http_error] has a message of its own for. *)
Definition table_statuses : list Z := [400; 401; 403; 429; 500; 502; 503].

(** The computation leaves the part [proj] of the environment as it
    found it. *)
Definition keeps {A X} (proj : env -> X) (m : M A) : Prop :=
  forall e, proj (snd (m e)) = proj e.

(** The clock and the cache of the environment. *)
Definition clock_and_cache (e : env) : Z * gmap string cache_entry :=
  (env_clock e, env_cache e).

(** The URL that the rate request of [bobgo_rate_shipment] goes to. *)
Definition rates_at_checkout_url (self : carrier) : string :=
  if bobgo_test_mode self
  then "https://api.sandbox.bobgo.co.za/rates-at-checkout"
  else "https://api.bobgo.co.za/rates-at-checkout".

(** The status is not an HTTP error status (400 to 599). *)
Definition status_ok (r : response) : bool :=
  (status_code r <? 400) || (600 <=? status_code r).

(** The pickings agree on every field but the shipment id and the
    tracking reference. *)
Definition same_but_shipment (p p' : picking) : Prop :=
  picking_name p' = picking_name p
  /\ picking_partner p' = picking_partner p
  /\ picking_warehouse_partner p' = picking_warehouse_partner p
  /\ move_ids p' = move_ids p.

(** One successful turn of [bobgo_send_shipping] on the picking [pid],
    from the environment [e] to [e'], with the entry it appends: the two
    coming outcomes are responses without an error status; the first holds
    a non-empty list of rates whose first element [rate] is the selected
    one; the second holds the shipment; the shipment was requested for the
    first rate; afterwards the record of the picking holds the shipment's
    [id] in [bobgo_shipment_id] and its [tracking_reference] in
    [carrier_tracking_ref], its other fields being as before; the entry
    has the first rate's [total_price] as a float (0.0 when absent) and
    the tracking reference. *)
Definition booked (py : builtins) (pid : Z) (e : env) (entry : pyvalue) (e' : env) : Prop :=
  exists p p' r1 r2 rates_data rate others shipment_data price rq1 rq2,
    env_pickings e !! pid = Some p
    /\ pending (env_net e) = Ok r1 :: Ok r2 :: pending (env_net e')
    /\ status_ok r1 = true /\ status_ok r2 = true
    /\ json_body r1 = Some (PDict rates_data)
    /\ dict_get rates_data "rates" PNone = PList (PDict rate :: others)
    /\ json_body r2 = Some (PDict shipment_data)
    /\ sent (env_net e') = (sent (env_net e) ++ [rq1; rq2])%list
    /\ _prepare_shipment_payload py p (PDict rate) = Ok (req_json rq2)
    /\ py_float py (dict_get rate "total_price" (PFloat f_zero)) = Ok price
    /\ entry = PDict [("exact_price", PFloat price);
                      ("tracking_number", dict_get shipment_data "tracking_reference" PNone)]
    /\ env_pickings e' = <[pid := p']> (env_pickings e)
    /\ bobgo_shipment_id p' = dict_get shipment_data "id" PNone
    /\ carrier_tracking_ref p' = dict_get shipment_data "tracking_reference" PNone
    /\ same_but_shipment p p'.

(** The turns of a successful [bobgo_send_shipping], one after the other. *)
Inductive bookings (py : builtins) : list Z -> env -> list pyvalue -> env -> Prop :=
| bookings_nil (e : env) : bookings py [] e [] e
| bookings_cons (pid : Z) (rest : list Z) (e e1 e' : env) (entry : pyvalue)
    (res : list pyvalue) :
    booked py pid e entry e1 ->
    bookings py rest e1 res e' ->
    bookings py (pid :: rest) e (entry :: res) e'.

(** The outcome of a request is a timeout or a response with an HTTP
    error status (400 to 599). *)
Definition http_failure (o : result response) : bool :=
  match o with
  | Raise (Timeout _) => true
  | Ok r => negb (status_ok r)
  | _ => false
  end.

(** The error body is not JSON, or it is a JSON object. *)
Definition plain_error_body (o : result response) : bool :=
  match o with
  | Ok r => match json_body r with
            | None | Some (PDict _) => true
            | _ => false
            end
  | _ => true
  end.

(** The status of the outcome is in the table of [_format_http_error]. *)
Definition table_status (o : result response) : bool :=
  match o with
  | Ok r => bool_decide (status_code r ∈ table_statuses)
  | _ => false
  end.

(** The carrier as [bobgo_validate_configuration] leaves it. *)
Definition validated (self : carrier) : carrier :=
  snd (bobgo_validate_configuration self).

(** The cache helper keeps what it is given: a value handed to [set]
    under a key for [duration] seconds is what [get] gives for that key,
    changing nothing, wherever the store is as [set] left it and fewer
    than [duration] seconds have passed. *)
Definition keeps_values (cache : cache_helper) : Prop :=
  forall key v duration e e' later,
    cache_set cache key v duration e = (Ok tt, e') ->
    env_cache later = env_cache e' ->
    env_clock e <= env_clock later < env_clock e + duration ->
    cache_get cache key later = (Ok v, later).

(** A successful result of the computation counts as true. *)
Definition returns_truthy (m : M pyvalue) : Prop :=
  forall e v e', m e = (Ok v, e') -> truthy v = true.


(** The field names that [_extract_error_detail] looks for, in its order. *)
Definition error_fields : list string := ["detail"; "error"; "message"; "description"].

(** The JSON body [v] makes [_extract_error_detail] fail: it is [null], a
    boolean or a number, or it is a string or an array in which one of the
    field names is found. *)
Definition unsafe_error_body (v : pyvalue) : bool :=
  match v with
  | PNone | PBool _ | PInt _ | PFloat _ => true
  | PStr s => existsb (str_contains s) error_fields
  | PList l =>
      existsb (fun field =>
                 existsb (fun x => match x with PStr s => String.eqb s field | _ => false end) l)
        error_fields
  | PDict _ => false
  end.

(** What [_extract_error_detail] reports of a JSON body that does not make
    it fail: the value of the first of the field names that an object has,
    else the whole body. *)
Definition reported_detail (v : pyvalue) : pyvalue :=
  match v with
  | PDict d =>
      match List.find (dict_mem d) error_fields with
      | Some field => dict_get d field PNone
      | None => v
      end
  | _ => v
  end.

(** The rate [r] can be put on a line of the wizard: it is an object
    whose [total_price] (0.0 when absent) converts to a float. *)
Definition rate_has_price (py : builtins) (r : pyvalue) : bool :=
  match r with
  | PDict d =>
      match py_float py (dict_get d "total_price" (PFloat f_zero)) with
      | Ok _ => true
      | Raise _ => false
      end
  | _ => false
  end.

(** The rates that a wizard can be made of: a list that is not empty, of
    rates that can each be put on a line. *)
Definition listed_rates (py : builtins) (rates : pyvalue) : option (list pyvalue) :=
  match rates with
  | PList (r :: rs) => if forallb (rate_has_price py) (r :: rs) then Some (r :: rs) else None
  | _ => None
  end.

(** The line [line] of a wizard shows the rate [r]: the service name
    (["Unknown Service"] when absent), the description ([""] when absent),
    the price as a float, the two delivery dates, the codes of the service
    and of the provider, and the currency [zar_id]. *)
Definition shows_rate (py : builtins) (zar_id : Z) (r line : pyvalue) : Prop :=
  exists rd ld price,
    r = PDict rd /\ line = PDict ld
    /\ py_float py (dict_get rd "total_price" (PFloat f_zero)) = Ok price
    /\ List.map fst ld = ["service_name"; "description"; "total_price"; "delivery_date_min";
                          "delivery_date_max"; "service_code"; "provider_slug"; "currency_id"]
    /\ dict_get ld "service_name" PNone = dict_get rd "service_name" (PStr "Unknown Service")
    /\ dict_get ld "description" PNone = dict_get rd "description" (PStr "")
    /\ dict_get ld "total_price" PNone = PFloat price
    /\ dict_get ld "delivery_date_min" PNone = dict_get rd "min_delivery_date" PNone
    /\ dict_get ld "delivery_date_max" PNone = dict_get rd "max_delivery_date" PNone
    /\ dict_get ld "service_code" PNone = dict_get rd "service_code" PNone
    /\ dict_get ld "provider_slug" PNone = dict_get rd "provider_slug" PNone
    /\ dict_get ld "currency_id" PNone = PInt zar_id.

(** The action [action] opens the wizard [wid] in the context [context]. *)
Definition opens_wizard (action : pyvalue) (wid : Z) (context : pyvalue) : Prop :=
  exists d,
    action = PDict d
    /\ dict_get d "type" PNone = PStr "ir.actions.act_window"
    /\ dict_get d "res_model" PNone = PStr "choose.bobgo.rate"
    /\ dict_get d "res_id" PNone = PInt wid
    /\ dict_get d "target" PNone = PStr "new"
    /\ dict_get d "context" PNone = context.

(** The id that the next wizard gets. *)
Definition next_wizard_id (e : env) : Z := Z.of_nat (List.length (env_wizards e)) + 1.

(** The message of [bobgo_rate_shipment] for an order that cannot be
    rated, by the first check that fails. *)
Definition unrateable_message (order : sale_order) : string :=
  match order_line order, warehouse_partner order, partner_shipping_id order with
  | [], _, _ => "Cannot calculate shipping for empty order."
  | _, None, _ => "No warehouse configured for this order."
  | _, _, None => "No shipping address configured for this order."
  | _, _, _ => "No shippable items found in the order."
  end.

(** The request that [bobgo_rate_shipment] sends for [payload]. *)
Definition rate_request (self : carrier) (payload : pyvalue) : request :=
  {| req_url := rates_at_checkout_url self;
     req_headers := api_headers self;
     req_json := payload;
     req_timeout := BOBGO_API_TIMEOUT |}.

(** The network after the request [rq] has been sent and has met the
    first of the coming outcomes. *)
Definition after_request (n : network) (rq : request) : network :=
  {| pending := List.tl (pending n); sent := (sent n ++ [rq])%list |}.

(** The answer holds no rates: the object has no ["rates"], or an empty
    array, string or object there. *)
Definition no_rates (d : list (string * pyvalue)) : bool :=
  negb (dict_mem d "rates")
  || match dict_get d "rates" PNone with
     | PList [] | PStr "" | PDict [] => true
     | _ => false
     end.

(** The answer holds [null], a boolean or a number as its ["rates"]. *)
Definition scalar_rates (d : list (string * pyvalue)) : bool :=
  dict_mem d "rates"
  && match dict_get d "rates" PNone with
     | PNone | PBool _ | PInt _ | PFloat _ => true
     | _ => false
     end.

(** The price and the quantity of a line as [_prepare_order_items] counts
    them: a price that is zero or less counts as 0.0, a quantity that is
    zero or less as 1.0. *)
Definition counted_price (line : sale_order_line) : float :=
  if SFleb (price_unit line) f_zero then f_zero else price_unit line.

Definition counted_quantity (line : sale_order_line) : float :=
  if SFleb (product_uom_qty line) f_zero then f_one else product_uom_qty line.

(** The item [item] stands for the line [line]: the line has a product
    and is no delivery line; the item has the name of the product cut to
    100 characters (["Product"] without a name), the counted price, and
    the counted quantity cut to an integer, at least 1. *)
Definition stands_for (line : sale_order_line) (item : pyvalue) : Prop :=
  exists p d q,
    product_id line = Some p /\ is_delivery line = false
    /\ item = PDict d
    /\ dict_get d "description" PNone = PStr (str_take 100 (char_or (display_name p) "Product"))
    /\ dict_get d "price" PNone = PFloat (counted_price line)
    /\ int_of_float (counted_quantity line) = Ok q
    /\ dict_get d "quantity" PNone = PInt (max_int 1 q).

(** The declared value of the lines: the sum, from the left and from
    0.0, of the counted price times the counted quantity. *)
Definition declared_value_of (lines : list sale_order_line) : float :=
  fold_left (fun acc line =>
               SFadd PREC EMAX acc
                 (SFmul PREC EMAX (counted_price line) (counted_quantity line)))
    lines f_zero.

(** The products of the moves of a picking that have one. *)
Definition moved_products (p : picking) : list product := omap move_product (move_ids p).

(** The product has a display name. *)
Definition named (product : product) : bool := bool_decide (is_Some (display_name product)).

(** A parcel as it is sent: a description of at most 100 characters, and
    a length, a width, a height and a weight that count as true (none of
    them is zero). *)
Definition parcel_ok (parcel : pyvalue) : bool :=
  match parcel with
  | PDict d =>
      str_at_most 100 (dict_get d "description" PNone)
      && truthy (dict_get d "submitted_length_cm" PNone)
      && truthy (dict_get d "submitted_width_cm" PNone)
      && truthy (dict_get d "submitted_height_cm" PNone)
      && truthy (dict_get d "submitted_weight_kg" PNone)
  | _ => false
  end.

(** The phone number of a contact: the mobile number when there is one,
    else the phone number, else the empty string. *)
Definition contact_phone (partner : partner) : string :=
  char_or (partner_mobile partner) (char_or (partner_phone partner) "").

(** The keys of the payload of a shipment, each with the key of the
    payload of the rate request that its value is taken from. *)
Definition shipment_keys : list (string * string) :=
  [("collection_address", "collection_address");
   ("collection_contact_name", "collection_contact_full_name");
   ("collection_contact_mobile_number", "collection_contact_mobile_number");
   ("collection_contact_email", "collection_contact_email");
   ("delivery_address", "delivery_address");
   ("delivery_contact_name", "delivery_contact_full_name");
   ("delivery_contact_mobile_number", "delivery_contact_mobile_number");
   ("delivery_contact_email", "delivery_contact_email");
   ("parcels", "parcels");
   ("declared_value", "declared_value")].

(** The computation sends at most [n] requests, each of which satisfies
    [P], and leaves the carrier as it is. *)
Definition sends (P : request -> Prop) (n : nat) {A} (m : M A) : Prop :=
  forall e,
    exists new,
      sent (env_net (snd (m e))) = (sent (env_net e) ++ new)%list
      /\ Forall P new /\ (List.length new <= n)%nat
      /\ env_self (snd (m e)) = env_self e.

(** The host of the API, without the path of the base URL. *)
Definition api_host (self : carrier) : string :=
  if bobgo_test_mode self then "https://api.sandbox.bobgo.co.za" else "https://api.bobgo.co.za".

(** A request of a booking by the carrier [self]: it goes to [/rates]
    or to [/shipments] on the host of the API, with the headers of the
    carrier and the timeout of the module. *)
Definition booking_request (self : carrier) (rq : request) : Prop :=
  (req_url rq = api_host self ++ "/rates" \/ req_url rq = api_host self ++ "/shipments")
  /\ req_headers rq = api_headers self
  /\ req_timeout rq = BOBGO_API_TIMEOUT.

(** A request of a cancellation by the carrier [self]: it goes to
    [/shipments/cancel] on the host of the API, with the headers of the
    carrier and the timeout of the module, and it names a tracking
    reference that counts as true. *)
Definition cancel_request (self : carrier) (rq : request) : Prop :=
  req_url rq = api_host self ++ "/shipments/cancel"
  /\ req_headers rq = api_headers self
  /\ req_timeout rq = BOBGO_API_TIMEOUT
  /\ exists ref, req_json rq = PDict [("tracking_reference", ref)] /\ truthy ref = true.

(** Every record of the table [t'] is the record of [t], or, for a
    picking of [pids], that record with another shipment id and tracking
    reference; no record is added and none is removed. *)
Definition shipment_fields_only (pids : list Z) (t t' : gmap Z picking) : Prop :=
  forall q,
    t' !! q = t !! q
    \/ (q ∈ pids
        /\ exists p p', t !! q = Some p /\ t' !! q = Some p' /\ same_but_shipment p p').

(** The table of [e'] is that of [e], or that of [e] where the record
    [pid] has become [p] with a shipment id and a tracking reference. *)
Definition written (pid : Z) (p : picking) (e e' : env) : Prop :=
  env_pickings e' = env_pickings e
  \/ exists p', env_pickings e' = <[pid := p']> (env_pickings e) /\ same_but_shipment p p'.

(** The computation takes every environment to one related by [R]. *)
Definition changes (R : env -> env -> Prop) {A} (m : M A) : Prop :=
  forall e, R e (snd (m e)).

(** The picking without its shipment: the shipment id and the tracking
    reference are [False]. *)
Definition cleared (p : picking) : picking :=
  {| picking_name := picking_name p;
     picking_partner := picking_partner p;
     picking_warehouse_partner := picking_warehouse_partner p;
     move_ids := move_ids p;
     carrier_tracking_ref := PBool false;
     bobgo_shipment_id := PBool false |}.

(** The request that cancels the shipment of the picking [p]. *)
Definition cancellation_of (self : carrier) (p : picking) : request :=
  {| req_url := api_host self ++ "/shipments/cancel";
     req_headers := api_headers self;
     req_json := PDict [("tracking_reference", carrier_tracking_ref p)];
     req_timeout := BOBGO_API_TIMEOUT |}.

(** One successful turn of [bobgo_cancel_shipment] on the picking [pid],
    from [e] to [e']: the picking has a tracking reference that counts as
    true, the request is answered with status 200, and the picking is
    cleared. *)
Definition cancelled (pid : Z) (e e' : env) : Prop :=
  exists p r rest,
    env_pickings e !! pid = Some p
    /\ truthy (carrier_tracking_ref p) = true
    /\ pending (env_net e) = Ok r :: rest
    /\ status_code r = 200
    /\ e' = set_pickings
              (set_net e {| pending := rest;
                            sent := (sent (env_net e)
                                     ++ [cancellation_of (env_self e) p])%list |})
              (<[pid := cleared p]> (env_pickings e)).

(** Successful turns of [bobgo_cancel_shipment], one after the other. *)
Inductive cancellations : list Z -> env -> env -> Prop :=
| cancellations_nil (e : env) : cancellations [] e e
| cancellations_cons (pid : Z) (rest : list Z) (e e1 e' : env) :
    cancelled pid e e1 -> cancellations rest e1 e' -> cancellations (pid :: rest) e e'.

(** The site that tracking links point to. *)
Definition tracking_site (self : carrier) : string :=
  if bobgo_test_mode self
  then "https://sandbox.bobgo.co.za/tracking/"
  else "https://bobgo.co.za/tracking/".

(** The tracking number of an entry of the result of a booking. *)
Definition entry_tracking (entry : pyvalue) : pyvalue :=
  match entry with
  | PDict d => dict_get d "tracking_number" PNone
  | _ => PNone
  end.

(** The carrier satisfies the constraint on the API key: it is not a
    Bobgo carrier, or it has no key, or its key has at least 20
    characters once stripped. *)
Definition api_key_long_enough (c : carrier) : Prop :=
  delivery_type c = "bobgo" -> api_key_empty c = false ->
  20 <= Z.of_nat (String.length (strip (char_or (bobgo_api_key c) ""))).

(** The carrier satisfies the constraint on the handling time. *)
Definition handling_time_not_negative (c : carrier) : Prop :=
  delivery_type c = "bobgo" -> 0 <= bobgo_handling_time c.

(** The request of the connection test: the key of the carrier as its
    authorization, and a parcel of 17 by 8 by 5 cm and half a kilogram,
    worth 200, from and to the same address in Pretoria. *)
Definition test_request (self : carrier) : request :=
  let address :=
    PDict [("company", PStr "Test Company");
           ("street_address", PStr "125 Dallas Avenue");
           ("local_area", PStr "Newlands");
           ("city", PStr "Pretoria");
           ("zone", PStr "GP");
           ("country", PStr "ZA");
           ("code", PStr "0181")] in
  {| req_url := api_host self ++ "/rates-at-checkout";
     req_headers :=
       [("Authorization", of_char (bobgo_api_key self));
        ("Content-Type", PStr "application/json");
        ("User-Agent", PStr "Odoo-Bobgo-Connector/19.0")];
     req_json :=
       PDict [("collection_address", address);
              ("delivery_address", address);
              ("items",
               PList [PDict [("description", PStr "Test Product");
                             ("price", PInt 200);
                             ("quantity", PInt 1);
                             ("length_cm", PInt 17);
                             ("width_cm", PInt 8);
                             ("height_cm", PInt 5);
                             ("weight_kg", PFloat (S754_finite false 4503599627370496 (-53)))]]);
              ("declared_value", PInt 200);
              ("handling_time", PInt 1)];
     req_timeout := 30 |}.

(** The outcome that the next request meets. *)
Definition next_outcome (n : network) : result response :=
  match pending n with
  | [] => Raise (ConnectionError "Connection aborted.")
  | o :: _ => o
  end.

(** The message of the user error of a connection test whose request
    met the outcome [o], which is no response with status 200. *)
Definition connection_failure (py : builtins) (o : result response) : string :=
  match o with
  | Raise (Timeout _) => "Connection test timed out after 30 seconds. Please try again."
  | Raise x => "Connection test failed: " ++ exn_str x
  | Ok resp =>
      "Connection test failed: "
      ++ match _extract_error_detail py resp with
         | Ok detail =>
             "Connection test failed (HTTP " ++ str_of_int (status_code resp) ++ "): " ++ detail
         | Raise x => exn_str x
         end
  end.

(** The configuration check of the carrier passes: the key is
    configured, and what the check writes is not refused by the constraint
    on the key. *)
Definition configured (self : carrier) : bool :=
  negb (api_key_empty self) && negb (api_key_refused self).

(** The connection test passes: the configuration check passes and the
    request is answered with status 200. *)
Definition connection_test_passes (self : carrier) (n : network) : bool :=
  configured self
  && match next_outcome n with
     | Ok resp => status_code resp =? 200
     | Raise _ => false
     end.

(** The environment after a connection test that left the network [n]
    and wrote [status]: the carrier is as the configuration check leaves
    it, with the new status, and the time of the test is the time of the
    clock. *)
Definition after_test (t : tested_env) (n : network) (status : bool) : tested_env :=
  {| the_env := set_self (set_net (the_env t) n)
                  (set_connection_status (validated (env_self (the_env t))) status);
     bobgo_last_connection_test := Some (env_clock (the_env t)) |}.

(** What [requests.post] can do: return a response, or raise one of the
    exceptions of the library. *)
Definition requests_outcome (o : result response) : bool :=
  match o with
  | Ok _ => true
  | Raise (Timeout _) | Raise (ConnectionError _) | Raise (HTTPError _ _)
  | Raise (JSONDecodeError _) | Raise (RequestException _) => true
  | Raise _ => false
  end.

(** The exceptions that a malformed answer can end in. *)
Definition malformed (x : exn) : bool :=
  match x with
  | TypeError _ | AttributeError _ | OverflowError _ | ValueError _ => true
  | _ => false
  end.

(** The exceptions that leave [bobgo_rate_shipment] for the order: a
    user error; [TypeError], [AttributeError] or [OverflowError]; or the
    [ValueError] of a quantity that is not a number, raised while the
    items are prepared. *)
Definition leaves_rating (py : builtins) (order : sale_order) (x : exn) : Prop :=
  match x with
  | UserError _ | TypeError _ | AttributeError _ | OverflowError _ => True
  | ValueError _ => _prepare_order_items py order = Raise x
  | _ => False
  end.

(** The name of the carrier as an f-string prints it: [False] stands
    for a name that is not set. *)
Definition printed_name (c : carrier) : string :=
  match carrier_name c with Some s => s | None => "False" end.

(** The line is named after the carrier and the service of the rate
    line: the name of the carrier, followed by [" - "] and the name of the
    service when the rate line has one that is not empty and is not
    ["Unknown Service"]. *)
Definition named_after (self : rate_line) (c : carrier) (l : sale_order_line) : Prop :=
  (forall n,
     rl_service_name self = Some n -> n <> "" -> n <> "Unknown Service" ->
     line_name l = PStr (printed_name c ++ " - " ++ n))
  /\ (rl_service_name self = None \/ rl_service_name self = Some ""
      \/ rl_service_name self = Some "Unknown Service" ->
      line_name l = PStr (printed_name c)).

(** The record tells of the selection of a rate: an [INFO] record of the
    server named ["Bobgo Rate Selected"], from [action_apply_rate]. *)
Definition logs_selection (record : pyvalue) : Prop :=
  exists d,
    record = PDict d
    /\ dict_get d "name" PNone = PStr "Bobgo Rate Selected"
    /\ dict_get d "type" PNone = PStr "server"
    /\ dict_get d "level" PNone = PStr "INFO"
    /\ dict_get d "func" PNone = PStr "action_apply_rate".

(** * Values for the examples *)

(** A runtime for the examples: no string parses as a float, [repr] is
    not printed, floats are summed from left to right. *)
Definition sample_runtime : builtins :=
  {| float_of_str := fun _ => None;
     py_repr := fun _ => "?";
     float_sum := fun l => fold_left (SFadd PREC EMAX) l f_zero |}.

Definition sample_carrier : carrier :=
  {| carrier_id := 7; carrier_name := Some "Bobgo"; delivery_type := "bobgo";
     bobgo_api_key := Some "abcdefghijklmnopqrstuvwxyz"; bobgo_test_mode := true;
     bobgo_handling_time := 1; bobgo_connection_status := false |}.

Definition bearer_carrier : carrier :=
  {| carrier_id := 7; carrier_name := Some "Bobgo"; delivery_type := "bobgo";
     bobgo_api_key := Some "Bearer abcdefghijklmnopqrstuvwxyz"; bobgo_test_mode := true;
     bobgo_handling_time := 1; bobgo_connection_status := false |}.

Definition sample_partner : partner :=
  {| partner_name := Some "Depot"; partner_street := Some "125 Dallas Avenue";
     partner_street2 := None; partner_city := Some "Pretoria";
     partner_state_code := Some "GP"; partner_country_code := None;
     partner_zip := Some "0181"; partner_mobile := None;
     partner_phone := Some "012 000 0000"; partner_email := None |}.

Definition sample_product : product :=
  {| display_name := Some "Kettle"; length_cm := f_ten; width_cm := f_zero;
     height_cm := f_0_01; weight := f_0_2 |}.

Definition sample_line : sale_order_line :=
  {| line_id := 1; line_name := PStr "Kettle"; is_delivery := false;
     product_id := Some sample_product; price_unit := f_ten;
     product_uom_qty := f_one |}.

Definition sample_order : sale_order :=
  {| order_id := 42; order_name := Some "S00042"; order_line := [sample_line];
     warehouse_partner := Some sample_partner;
     partner_shipping_id := Some sample_partner |}.

Definition sample_picking : picking :=
  {| picking_name := Some "WH/OUT/00007";
     picking_partner := Some sample_partner;
     picking_warehouse_partner := Some sample_partner;
     move_ids := [{| move_product := Some sample_product;
                     sale_line_price_total := Some f_ten |}];
     carrier_tracking_ref := PBool false;
     bobgo_shipment_id := PBool false |}.

Definition tracked_picking : picking :=
  write_shipment sample_picking (PInt 9001) (PStr "BG123").

Definition response_401 : response :=
  {| status_code := 401; reason := "Unauthorized"; text := "invalid token";
     json_body := None |}.

Definition response_418 : response :=
  {| status_code := 418; reason := "I'm a teapot"; text := "short and stout";
     json_body := None |}.

Definition response_500 : response :=
  {| status_code := 500; reason := "Internal Server Error"; text := "";
     json_body := Some (PDict [("message", PStr "database is down")]) |}.

Definition rates_response : response :=
  {| status_code := 200; reason := "OK"; text := "";
     json_body :=
       Some (PDict [("rates",
                     PList [PDict [("service_name", PStr "Economy");
                                   ("service_level_code", PStr "ECO");
                                   ("provider_slug", PStr "demo");
                                   ("total_price", PInt 85)];
                            PDict [("service_name", PStr "Express");
                                   ("total_price", PInt 140)]])]) |}.

Definition shipment_response : response :=
  {| status_code := 200; reason := "OK"; text := "";
     json_body := Some (PDict [("id", PInt 9001);
                               ("tracking_reference", PStr "BG123")]) |}.

(** An environment for the examples, with the outcomes of the coming
    requests and the table of pickings. *)
Definition sample_env (outcomes : list (result response)) (table : gmap Z picking) : env :=
  {| env_self := bearer_carrier;
     env_net := {| pending := outcomes; sent := [] |};
     env_pickings := table;
     env_wizards := [];
     env_cache := ∅;
     env_clock := 1000;
     env_zar_id := 38;
     env_context := PDict [] |}.

Definition booking_env : env :=
  sample_env [Ok rates_response; Ok shipment_response] {[ 1 := sample_picking ]}.

Definition timeout_env : env := sample_env [Raise (Timeout "Read timed out.")] ∅.

Definition cancel_env : env := sample_env [Ok response_500] {[ 1 := tracked_picking ]}.

(** An environment whose cache holds rates stored 100 seconds ago. *)
Definition cached_env : env :=
  {| env_self := bearer_carrier;
     env_net := {| pending := [Ok response_500]; sent := [] |};
     env_pickings := ∅;
     env_wizards := [];
     env_cache :=
       {[ "bobgo_rates_42_7" :=
            {| ce_value := PDict [("type", PStr "ir.actions.act_window")];
               ce_expires := 900 + BOBGO_CACHE_DURATION |} ]};
     env_clock := 1000;
     env_zar_id := 38;
     env_context := PDict [] |}.

(** A cache helper for the examples: [set] keeps a value in the store of
    the environment until [duration] seconds of the clock have passed;
    [get] gives the value kept under a key, or [None] when there is none
    or its time has passed. *)
Definition timed_cache : cache_helper :=
  {| cache_get := fun key e =>
       match env_cache e !! key with
       | Some entry =>
           if env_clock e <? ce_expires entry then (Ok (ce_value entry), e) else (Ok PNone, e)
       | None => (Ok PNone, e)
       end;
     cache_set := fun key value duration e =>
       (Ok tt,
        set_cache e (<[key := {| ce_value := value; ce_expires := env_clock e + duration |}]>
                       (env_cache e))) |}.

(** A Bobgo carrier whose key of 11 characters has no prefix yet. *)
Definition short_key_carrier : carrier :=
  set_api_key sample_carrier (Some "abcdefghijk").

(** A framework [set_delivery_line] for the examples: it replaces the
    delivery lines of the order by one line for the carrier, at the given
    amount, and returns [True]. *)
Definition sample_set_delivery_line (c : carrier) (amount : float) (o : sale_order)
    : result pyvalue * sale_order :=
  (Ok (PBool true),
   {| order_id := order_id o; order_name := order_name o;
      order_line :=
        (List.filter (fun l => negb (is_delivery l)) (order_line o)
         ++ [{| line_id := 99; line_name := of_char (carrier_name c); is_delivery := true;
                product_id := None; price_unit := amount; product_uom_qty := f_one |}])%list;
      warehouse_partner := warehouse_partner o;
      partner_shipping_id := partner_shipping_id o |}).

Definition sample_rate_line : rate_line :=
  {| rl_service_name := Some "Economy"; rl_total_price := f_ten;
     rl_carrier := Some bearer_carrier |}.

Definition sample_wstate : wstate :=
  {| ws_order := Some sample_order; ws_logging := []; ws_dbname := "odoo" |}.

(** An order with a delivery line only. *)
Definition delivery_only_order : sale_order :=
  {| order_id := 43; order_name := Some "S00043";
     order_line := [{| line_id := 2; line_name := PStr "Delivery"; is_delivery := true;
                       product_id := Some sample_product; price_unit := f_ten;
                       product_uom_qty := f_one |}];
     warehouse_partner := Some sample_partner;
     partner_shipping_id := Some sample_partner |}.

(** An answer without rates, and one whose rates are [null]. *)
Definition empty_rates_response : response :=
  {| status_code := 200; reason := "OK"; text := "";
     json_body := Some (PDict [("rates", PList [])]) |}.

Definition null_rates_response : response :=
  {| status_code := 200; reason := "OK"; text := "";
     json_body := Some (PDict [("rates", PNone)]) |}.

(** Two and a half, and a line of two and a half kettles. *)
Definition f_2_5 : float := S754_finite false 5629499534213120 (-51).

Definition fractional_line : sale_order_line :=
  {| line_id := 3; line_name := PStr "Kettle"; is_delivery := false;
     product_id := Some sample_product; price_unit := f_ten;
     product_uom_qty := f_2_5 |}.

Definition fractional_order : sale_order :=
  {| order_id := 44; order_name := Some "S00044";
     order_line := [fractional_line];
     warehouse_partner := Some sample_partner;
     partner_shipping_id := Some sample_partner |}.

Definition response_200 : response :=
  {| status_code := 200; reason := "OK"; text := "cancelled"; json_body := None |}.

(** The environment of the example of a booking, once the booking is
    made and a cancellation is about to be answered with status 200. *)
Definition booked_env (py : builtins) : env :=
  set_net (snd (bobgo_send_shipping py [1] booking_env))
    {| pending := [Ok response_200]; sent := [] |}.

(** A carrier whose key is already formatted, but starts with a blank. *)
Definition blank_bearer_carrier : carrier :=
  set_api_key sample_carrier (Some " Bearer abcdefghijklmnopqrstuvwxyz").

(** The environment of a connection test whose request is answered by
    [outcomes], with the field of the last test not yet set. *)
Definition test_env (outcomes : list (result response)) : tested_env :=
  {| the_env := sample_env outcomes ∅; bobgo_last_connection_test := None |}.

(** A text of [%.2f] for the examples. *)
Definition sample_format_2f (x : float) : string := "0.12".

(** An answer of the rates endpoint whose first rate has no usable price. *)
Definition unpriced_rates_response : response :=
  {| status_code := 200; reason := "OK"; text := "";
     json_body :=
       Some (PDict [("rates",
                     PList [PDict [("service_name", PStr "Economy");
                                   ("total_price", PNone)]])]) |}.

(** * Properties *)

(** ** Configuration *)

Lemma rstrip_idem (s : string) : rstrip (rstrip s) = rstrip s.
Proof.
  induction s as [|c r IH]; simpl; [reflexivity|].
  destruct (rstrip r) as [|c' r'] eqn:Hr.
  - destruct (isspace c) eqn:Hc; simpl; [reflexivity|]. now rewrite Hc.
  - change (rstrip (String c (String c' r')) = String c (String c' r')).
    simpl. simpl in IH. now rewrite IH.
Qed.

Lemma rstrip_app (a b : string) :
  rstrip b <> "" -> rstrip (a ++ b) = a ++ rstrip b.
Proof.
  intros Hb. induction a as [|c a IH]; [reflexivity|].
  change (rstrip (String c (a ++ b)) = String c (a ++ rstrip b)).
  simpl. rewrite IH. destruct (a ++ rstrip b) as [|c' r'] eqn:Hab; [|reflexivity].
  destruct a; [|discriminate]. simpl in Hab. contradiction.
Qed.

Lemma length_append (a b : string) :
  String.length (a ++ b) = (String.length a + String.length b)%nat.
Proof.
  induction a as [|c a IH]; [reflexivity|].
  change (S (String.length (a ++ b)) = S (String.length a + String.length b)). congruence.
Qed.

Lemma strip_bearer (s : string) :
  s <> "" -> rstrip s = s -> strip ("Bearer " ++ s) = "Bearer " ++ s.
Proof.
  intros Hne Hs. unfold strip.
  change (lstrip ("Bearer " ++ s)) with ("Bearer " ++ s).
  rewrite rstrip_app; rewrite Hs; auto.
Qed.

Lemma strip_not_empty (key : string) :
  10 < Z.of_nat (String.length (strip key)) -> strip key <> "".
Proof. intros H Hnil. rewrite Hnil in H. simpl in H. lia. Qed.

(** The key that the configuration check writes is not changed by
    stripping, and has seven characters more than the stripped key. *)
Lemma bearer_key_length (key : string) :
  strip key <> "" ->
  Z.of_nat (String.length (strip ("Bearer " ++ strip key)))
  = 7 + Z.of_nat (String.length (strip key)).
Proof.
  intros Hne. rewrite strip_bearer; [|assumption|unfold strip; apply rstrip_idem].
  rewrite length_append. simpl String.length. lia.
Qed.

(** The assignment of the check: the constraint on the key refuses the
    key written for a Bobgo carrier when it has fewer than 20 characters. *)
Lemma assign_bearer_key (self : carrier) (key : string) :
  10 < Z.of_nat (String.length (strip key)) ->
  assign_api_key self ("Bearer " ++ strip key)
  = (if String.eqb (delivery_type self) "bobgo"
        && (Z.of_nat (String.length (strip key)) <? 13)
     then Raise (ValidationError "API Key seems too short. Please check your Bobgo API key.")
     else Ok tt,
     set_api_key self (Some ("Bearer " ++ strip key))).
Proof.
  intros Hlen. pose proof (strip_not_empty key Hlen) as Hne.
  unfold assign_api_key, _check_bobgo_api_key, for_each, api_key_constraint.
  cbv zeta. f_equal. simpl delivery_type. simpl bobgo_api_key.
  destruct (String.eqb (delivery_type self) "bobgo"); [|reflexivity].
  assert (Hkey : String.eqb ("Bearer " ++ strip key) "" = false) by reflexivity.
  unfold of_char, truthy, char_or. rewrite Hkey. cbv iota. simpl negb. simpl andb.
  rewrite (bearer_key_length key Hne).
  destruct (Z.ltb_spec (7 + Z.of_nat (String.length (strip key))) 20),
    (Z.ltb_spec (Z.of_nat (String.length (strip key))) 13); try lia; reflexivity.
Qed.

(** What [bobgo_validate_configuration] returns or raises, and the
    carrier it leaves. *)
Lemma bobgo_validate_configuration_cases (self : carrier) :
  bobgo_validate_configuration self
  = (if api_key_empty self then
       Raise (UserError "Bobgo API Key is not configured. Please set it in the delivery method configuration.")
     else if api_key_refused self then
       Raise (ValidationError "API Key seems too short. Please check your Bobgo API key.")
     else Ok true,
     if api_key_rewritten self
     then set_api_key self (Some ("Bearer " ++ strip (char_or (bobgo_api_key self) "")))
     else self).
Proof.
  unfold bobgo_validate_configuration, api_key_empty, api_key_refused, api_key_rewritten.
  destruct (bobgo_api_key self) as [key|] eqn:Hkey; [|reflexivity].
  unfold char_or.
  destruct (String.eqb_spec key "") as [->|Hne]; [reflexivity|].
  destruct (negb (startswith key "Bearer ")) eqn:Hpre; simpl andb;
    [|now rewrite andb_false_r].
  destruct (Z.ltb_spec 10 (Z.of_nat (String.length (strip key)))) as [Hlen|Hlen];
    [|now rewrite andb_false_r].
  rewrite (assign_bearer_key self key Hlen), andb_true_r.
  now destruct (String.eqb (delivery_type self) "bobgo" && _).
Qed.

Lemma bobgo_validate_configuration_result (self : carrier) :
  fst (bobgo_validate_configuration self)
  = if api_key_empty self then
      Raise (UserError "Bobgo API Key is not configured. Please set it in the delivery method configuration.")
    else if api_key_refused self then
      Raise (ValidationError "API Key seems too short. Please check your Bobgo API key.")
    else Ok true.
Proof. now rewrite bobgo_validate_configuration_cases. Qed.

Lemma validated_cases (self : carrier) :
  validated self
  = if api_key_rewritten self
    then set_api_key self (Some ("Bearer " ++ strip (char_or (bobgo_api_key self) "")))
    else self.
Proof. unfold validated. now rewrite bobgo_validate_configuration_cases. Qed.

Lemma api_key_refused_not_empty (self : carrier) :
  api_key_refused self = true -> api_key_empty self = false.
Proof.
  unfold api_key_refused, api_key_rewritten, api_key_empty.
  destruct (bobgo_api_key self) as [key|]; [|now rewrite andb_false_r].
  destruct (String.eqb_spec key "") as [->|]; [|reflexivity].
  now rewrite andb_false_r.
Qed.

Lemma validated_fields (c : carrier) :
  carrier_id (validated c) = carrier_id c
  /\ carrier_name (validated c) = carrier_name c
  /\ delivery_type (validated c) = delivery_type c
  /\ bobgo_test_mode (validated c) = bobgo_test_mode c
  /\ bobgo_handling_time (validated c) = bobgo_handling_time c
  /\ bobgo_connection_status (validated c) = bobgo_connection_status c.
Proof. rewrite validated_cases. destruct (api_key_rewritten c); simpl; auto 10. Qed.

Lemma validated_idem (c : carrier) : validated (validated c) = validated c.
Proof.
  rewrite (validated_cases c).
  destruct (api_key_rewritten c) eqn:Hre; rewrite validated_cases; [|now rewrite Hre].
  unfold api_key_rewritten at 1. simpl bobgo_api_key.
  unfold startswith. simpl. now destruct (strip _).
Qed.

Lemma api_key_empty_validated (c : carrier) :
  api_key_empty (validated c) = api_key_empty c.
Proof.
  rewrite validated_cases. destruct (api_key_rewritten c) eqn:Hre; [|reflexivity].
  unfold api_key_rewritten, api_key_empty in *.
  destruct (bobgo_api_key c) as [key|]; [|discriminate]. simpl.
  destruct (String.eqb_spec key "") as [->|]; [discriminate|reflexivity].
Qed.

(** The key that the configuration check leaves is not written again. *)
Lemma api_key_refused_validated (c : carrier) : api_key_refused (validated c) = false.
Proof.
  rewrite validated_cases. unfold api_key_refused.
  destruct (api_key_rewritten c) eqn:Hre.
  - unfold api_key_rewritten at 1. simpl bobgo_api_key. unfold startswith. simpl.
    change ("" ++ ?s) with s. destruct (strip (char_or _ _)); simpl negb;
      now rewrite andb_false_r.
  - now rewrite Hre, andb_false_r.
Qed.

(** C10, as amended: [bobgo_validate_configuration] raises a user error
    exactly when the API key is empty, or when the key that the check
    writes is refused by the constraint [_check_bobgo_api_key] that runs
    on the assignment; otherwise it returns [True].  An empty key gives
    the user error of the check, a refused key the validation error of the
    constraint.  The carrier afterwards differs at most in
    [bobgo_api_key], which becomes ["Bearer "] followed by the stripped
    key when the key does not start with ["Bearer "] and its stripped
    length exceeds 10, also when the constraint then refuses it, and is
    unchanged in every other case; a second call leaves the carrier as
    the first call left it. *)
Theorem bobgo_validate_configuration_spec (self : carrier) :
  (raises_UserError (fst (bobgo_validate_configuration self))
   <-> api_key_empty self = true \/ api_key_refused self = true)
  /\ (api_key_empty self = true ->
      fst (bobgo_validate_configuration self)
      = Raise (UserError "Bobgo API Key is not configured. Please set it in the delivery method configuration."))
  /\ (api_key_refused self = true ->
      fst (bobgo_validate_configuration self)
      = Raise (ValidationError "API Key seems too short. Please check your Bobgo API key."))
  /\ (api_key_empty self = false -> api_key_refused self = false ->
      fst (bobgo_validate_configuration self) = Ok true)
  /\ (api_key_refused self = true <->
      delivery_type self = "bobgo"
      /\ exists key,
           bobgo_api_key self = Some key
           /\ startswith key "Bearer " = false
           /\ 10 < Z.of_nat (String.length (strip key)) < 13)
  /\ same_but_api_key self (snd (bobgo_validate_configuration self))
  /\ (api_key_empty self = true ->
      bobgo_api_key (snd (bobgo_validate_configuration self)) = bobgo_api_key self)
  /\ (forall key, bobgo_api_key self = Some key -> key <> "" ->
      bobgo_api_key (snd (bobgo_validate_configuration self)) =
        Some (if negb (startswith key "Bearer ") && (10 <? Z.of_nat (String.length (strip key)))
              then "Bearer " ++ strip key else key))
  /\ snd (bobgo_validate_configuration (snd (bobgo_validate_configuration self)))
     = snd (bobgo_validate_configuration self).
Proof.
  rewrite bobgo_validate_configuration_result.
  fold (validated self). fold (validated (validated self)).
  repeat split.
  - intros (x & Hx & Hu). destruct (api_key_empty self); [now left|].
    destruct (api_key_refused self); [now right|discriminate].
  - intros [H|H].
    + rewrite H. eexists; split; reflexivity.
    + rewrite (api_key_refused_not_empty self H), H. eexists; split; reflexivity.
  - now intros ->.
  - intros H. now rewrite (api_key_refused_not_empty self H), H.
  - now intros -> ->.
  - unfold api_key_refused, api_key_rewritten in H.
    apply andb_true_iff in H as [H _]. apply andb_true_iff in H as [H _].
    now apply String.eqb_eq in H.
  - unfold api_key_refused, api_key_rewritten in H.
    destruct (bobgo_api_key self) as [key|]; [|now rewrite andb_false_r in H].
    apply andb_true_iff in H as [H Hlt]. apply andb_true_iff in H as [_ H].
    apply andb_true_iff in H as [Hpre Hgt]. exists key.
    apply negb_true_iff in Hpre. apply Z.ltb_lt in Hgt.
    assert (Hne : key <> "") by (intros ->; simpl in Hgt; lia).
    unfold char_or in Hlt. destruct (String.eqb_spec key ""); [contradiction|].
    apply Z.ltb_lt in Hlt. auto.
  - intros (Htype & key & Hkey & Hpre & Hgt & Hlt).
    unfold api_key_refused, api_key_rewritten. rewrite Htype, Hkey, Hpre. simpl.
    assert (Hne : key <> "") by (intros ->; simpl in Hgt; lia).
    unfold char_or. destruct (String.eqb_spec key ""); [contradiction|].
    apply Z.ltb_lt in Hgt, Hlt. now rewrite Hgt, Hlt.
  - symmetry. apply validated_fields.
  - symmetry. apply validated_fields.
  - symmetry. apply validated_fields.
  - symmetry. apply validated_fields.
  - symmetry. apply validated_fields.
  - symmetry. apply validated_fields.
  - intros Hempty. rewrite validated_cases.
    unfold api_key_rewritten, api_key_empty in *.
    destruct (bobgo_api_key self) as [key|] eqn:Hkey; [|now rewrite Hkey].
    apply String.eqb_eq in Hempty as ->. simpl. now rewrite Hkey.
  - intros key Hkey Hne. rewrite validated_cases. unfold api_key_rewritten.
    rewrite Hkey. unfold char_or. destruct (String.eqb_spec key ""); [contradiction|].
    destruct (negb (startswith key "Bearer ") && _); [reflexivity|assumption].
  - apply validated_idem.
Qed.

(** C10 as stated fails for a Bobgo carrier with a key of 11 characters:
    the key is not empty, and the check raises the validation error of
    the constraint on the key, after writing the key with its prefix. *)
Lemma validate_configuration_short_key :
  api_key_empty short_key_carrier = false
  /\ bobgo_validate_configuration short_key_carrier
     = (Raise (ValidationError "API Key seems too short. Please check your Bobgo API key."),
        set_api_key short_key_carrier (Some "Bearer abcdefghijk")).
Proof. split; vm_compute; reflexivity. Qed.

Example bobgo_validate_configuration_sample :
  bobgo_validate_configuration sample_carrier
  = (Ok true, set_api_key sample_carrier (Some "Bearer abcdefghijklmnopqrstuvwxyz"))
  /\ bobgo_validate_configuration bearer_carrier = (Ok true, bearer_carrier)
  /\ bobgo_api_key
       (snd (bobgo_validate_configuration (set_api_key sample_carrier (Some "  short  "))))
     = Some "  short  ".
Proof. repeat split; vm_compute; reflexivity. Qed.

(** ** Floats *)

Lemma SFltb_SFleb (a b : float) : SFltb a b = true -> SFleb a b = true.
Proof.
  unfold SFltb, SFleb. destruct (SFcompare a b) as [[]|]; congruence.
Qed.

Lemma SFleb_refl_finite (s : bool) (m : positive) (e : Z) :
  SFleb (S754_finite s m e) (S754_finite s m e) = true.
Proof.
  unfold SFleb; simpl.
  rewrite Z.compare_refl, Pos.compare_cont_refl. now destruct s.
Qed.

Lemma max_float_lower (m : positive) (e : Z) (x : float) :
  SFleb (S754_finite false m e) (max_float (S754_finite false m e) x) = true.
Proof.
  unfold max_float. destruct (SFltb _ x) eqn:H.
  - now apply SFltb_SFleb.
  - apply SFleb_refl_finite.
Qed.

Lemma positive_not_le_zero (f : float) : SFltb f_zero f = true -> SFleb f f_zero = false.
Proof. destruct f as [s|s| |s m e]; try destruct s; cbv; congruence. Qed.

Lemma not_negative_cases (f : float) :
  not_negative f = true -> is_nan f = true \/ f_nonneg f = true.
Proof. destruct f as [s|s| |s m e]; try destruct s; cbv; auto; discriminate. Qed.

Lemma iter_pos_invariant {A} (P : A -> Prop) (f : A -> A) :
  (forall a, P a -> P (f a)) -> forall n a, P a -> P (SpecFloat.iter_pos f n a).
Proof.
  intros Hf. induction n as [n IH|n IH|]; intros a Ha; simpl; auto.
Qed.

Lemma shr_1_nonneg (mrs : shr_record) : 0 <= shr_m mrs -> 0 <= shr_m (shr_1 mrs).
Proof.
  destruct mrs as [m r s]; simpl. intros Hm.
  destruct m as [|p|p]; simpl; try lia; destruct p; simpl; lia.
Qed.

Lemma shr_nonneg (mrs : shr_record) (e n : Z) :
  0 <= shr_m mrs -> 0 <= shr_m (fst (shr mrs e n)).
Proof.
  intros Hm. unfold shr. destruct n; simpl; auto.
  apply (iter_pos_invariant (fun r => 0 <= shr_m r)); auto using shr_1_nonneg.
Qed.

Lemma shr_fexp_nonneg (m e : Z) (l : location) :
  0 <= m -> 0 <= shr_m (fst (shr_fexp PREC EMAX m e l)).
Proof.
  intros Hm. unfold shr_fexp. apply shr_nonneg.
  destruct l as [|[]]; simpl; auto.
Qed.

Lemma round_nearest_even_nonneg (m : Z) (l : location) :
  0 <= m -> 0 <= round_nearest_even m l.
Proof.
  intros Hm. unfold round_nearest_even.
  destruct l as [|[]]; try destruct (Z.even m); lia.
Qed.

(** Rounding a positive mantissa gives zero, a positive number or
    infinity, with the sign asked for. *)
Lemma binary_round_aux_sign (s : bool) (m : positive) (e : Z) (l : location) :
  match binary_round_aux PREC EMAX s (Z.pos m) e l with
  | S754_zero s' | S754_infinity s' | S754_finite s' _ _ => s' = s
  | S754_nan => False
  end.
Proof.
  unfold binary_round_aux.
  pose proof (shr_fexp_nonneg (Z.pos m) e l ltac:(lia)) as H1.
  destruct (shr_fexp PREC EMAX (Z.pos m) e l) as [mrs1 e1]; simpl in H1.
  pose proof (shr_fexp_nonneg
                (round_nearest_even (shr_m mrs1) (loc_of_shr_record mrs1)) e1 loc_Exact
                (round_nearest_even_nonneg _ _ H1)) as H2.
  destruct (shr_fexp PREC EMAX _ e1 loc_Exact) as [mrs2 e2]; simpl in H2.
  destruct (shr_m mrs2) as [|p|p]; try lia; auto.
  destruct (e2 <=? EMAX - PREC); auto.
Qed.

Lemma SFmul_not_negative (price : float) (m : positive) (e : Z) :
  not_negative price = true ->
  not_negative (SFmul PREC EMAX price (S754_finite false m e)) = true.
Proof.
  destruct price as [s|s| |s pm pe]; try destruct s; simpl; auto; try discriminate.
  intros _.
  pose proof (binary_round_aux_sign false (pm * m) (pe + e) loc_Exact) as H.
  destruct (binary_round_aux PREC EMAX false _ _ _) as [s|s| |s rm re];
    try subst s; simpl; auto.
Qed.

Lemma SFmul_nan (price : float) (m : positive) (e : Z) :
  is_nan (SFmul PREC EMAX price (S754_finite false m e)) = true ->
  not_negative price = true -> is_nan price = true.
Proof.
  destruct price as [s|s| |s pm pe]; try destruct s; simpl; auto; try discriminate.
  intros Hn _.
  pose proof (binary_round_aux_sign false (pm * m) (pe + e) loc_Exact) as H.
  destruct (binary_round_aux PREC EMAX false _ _ _); simpl in *; try discriminate; tauto.
Qed.

Lemma binary_normalize_pos_sign (m : positive) (e : Z) :
  match binary_normalize PREC EMAX (Z.pos m) e false with
  | S754_zero s' | S754_infinity s' | S754_finite s' _ _ => s' = false
  | S754_nan => False
  end.
Proof.
  unfold binary_normalize, binary_round.
  destruct (shl_align m e _) as [mz ez].
  apply binary_round_aux_sign.
Qed.

Lemma SFadd_not_negative (a b : float) :
  not_negative a = true -> not_negative b = true ->
  not_negative (SFadd PREC EMAX a b) = true
  /\ (is_nan (SFadd PREC EMAX a b) = true -> is_nan a = true \/ is_nan b = true).
Proof.
  destruct a as [sa|sa| |sa ma ea]; try destruct sa;
    destruct b as [sb|sb| |sb mb eb]; try destruct sb;
    simpl; auto; try discriminate.
  intros _ _.
  pose proof (binary_normalize_pos_sign
                ((shl_align ma ea (Z.min ea eb)).1 + (shl_align mb eb (Z.min ea eb)).1)
                (Z.min ea eb)) as H.
  simpl in H.
  destruct (binary_round PREC EMAX false _ _) as [s|s| |s rm re];
    try subst s; simpl; auto; tauto.
Qed.

(** ** Safe conversion and the items of a rate request *)

Lemma float_of_int_raises (z : Z) (e : exn) :
  float_of_int z = Raise e -> e = OverflowError "int too large to convert to float".
Proof.
  unfold float_of_int. destruct (binary_normalize PREC EMAX z 0 false); congruence.
Qed.

(** C8, as amended: whenever [float(value)] does not raise [OverflowError],
    [_safe_float] returns a float and raises nothing: the default when
    [value] is [None], when [float(value)] raises, or when the converted
    number is at most zero; the converted number when it is not at most
    zero, in particular when it is strictly positive. *)
Theorem safe_float_spec (py : builtins) (value : pyvalue) (default : float) (name : string) :
  (forall msg, py_float py value <> Raise (OverflowError msg)) ->
  exists r, _safe_float py value default name = Ok r
    /\ (value = PNone -> r = default)
    /\ (forall e, py_float py value = Raise e -> r = default)
    /\ (forall f, py_float py value = Ok f -> SFleb f f_zero = true -> r = default)
    /\ (forall f, value <> PNone -> py_float py value = Ok f -> SFleb f f_zero = false -> r = f)
    /\ (forall f, value <> PNone -> py_float py value = Ok f -> SFltb f_zero f = true -> r = f).
Proof.
  intros Hover.
  assert (Hgen : forall r, _safe_float py value default name = Ok r ->
            (value = PNone -> r = default)
            /\ (forall e, py_float py value = Raise e -> r = default)
            /\ (forall f, py_float py value = Ok f -> SFleb f f_zero = true -> r = default)
            /\ (forall f, value <> PNone -> py_float py value = Ok f ->
                          SFleb f f_zero = false -> r = f)).
  { intros r Hr. unfold _safe_float in Hr.
    destruct value as [|b|z|x|s|l|d];
      try (injection Hr as <-; repeat split; congruence);
      destruct (py_float py _) as [y|e] eqn:Hf;
      try (destruct (SFleb y f_zero) eqn:Hle; injection Hr as <-;
           repeat split; congruence);
      try (destruct e; try discriminate; injection Hr as <-; repeat split; congruence). }
  assert (Hex : exists r, _safe_float py value default name = Ok r).
  { unfold _safe_float.
    destruct value as [|b|z|x|s|l|d]; simpl in *; eauto;
      try (destruct (SFleb _ f_zero); eauto).
    - destruct (float_of_int z) as [f|e] eqn:Hf.
      + destruct (SFleb f f_zero); eauto.
      + apply float_of_int_raises in Hf. subst e. exfalso. exact (Hover _ eq_refl).
    - destruct (float_of_str py s); [destruct (SFleb _ f_zero)|]; eauto. }
  destruct Hex as [r Hr]. exists r. split; [exact Hr|].
  destruct (Hgen r Hr) as (H1 & H2 & H3 & H4).
  repeat split; auto.
  intros f Hn Hf Hpos. apply H4; auto using positive_not_le_zero.
Qed.

Lemma safe_float_spec_witness :
  exists r, _safe_float sample_runtime (PInt 3) f_ten "length_cm" = Ok r
    /\ (PInt 3 = PNone -> r = f_ten)
    /\ (forall e, py_float sample_runtime (PInt 3) = Raise e -> r = f_ten)
    /\ (forall f, py_float sample_runtime (PInt 3) = Ok f -> SFleb f f_zero = true -> r = f_ten)
    /\ (forall f, PInt 3 <> PNone -> py_float sample_runtime (PInt 3) = Ok f ->
                  SFleb f f_zero = false -> r = f)
    /\ (forall f, PInt 3 <> PNone -> py_float sample_runtime (PInt 3) = Ok f ->
                  SFltb f_zero f = true -> r = f).
Proof.
  apply (safe_float_spec sample_runtime (PInt 3) f_ten "length_cm").
  intros msg. vm_compute. discriminate.
Defined.

(** C8 as stated fails: the conversion of an [int] beyond the range of a
    float raises [OverflowError], which [_safe_float] does not catch. *)
Lemma safe_float_overflow :
  _safe_float sample_runtime (PInt (10 ^ 400)) f_ten "length_cm"
  = Raise (OverflowError "int too large to convert to float").
Proof. vm_compute. reflexivity. Qed.

Lemma safe_float_of_float (py : builtins) (x default : float) (name : string) :
  _safe_float py (PFloat x) default name = Ok (if SFleb x f_zero then default else x).
Proof. unfold _safe_float; simpl. now destruct (SFleb x f_zero). Qed.

Lemma substring_length_le (n : nat) (s : string) :
  (String.length (String.substring 0 n s) <= n)%nat.
Proof.
  revert s. induction n as [|n IH]; intros [|c s]; simpl; try lia.
  specialize (IH s). lia.
Qed.

Lemma max_int_lower (a b : Z) : a <= max_int a b.
Proof. unfold max_int. destruct (Z.ltb_spec a b); lia. Qed.

(** What one turn of the loop of [_prepare_order_items] produces. *)
Lemma order_item_ok (py : builtins) (line : sale_order_line) (p : product)
    (item : pyvalue) (price quantity : float) :
  order_item py line p = Ok (item, price, quantity) ->
  item_ok item = true
  /\ not_negative price = true
  /\ (is_nan price = true -> is_nan (price_unit line) = true)
  /\ exists m e, quantity = S754_finite false m e.
Proof.
  unfold order_item. rewrite !safe_float_of_float. simpl.
  set (q0 := if SFleb (product_uom_qty line) f_zero then f_one else product_uom_qty line).
  set (p0 := if SFleb (price_unit line) f_zero then f_zero else price_unit line).
  destruct (int_of_float q0) as [q|e] eqn:Hq; simpl; [|discriminate].
  intros H; injection H as <- <- <-.
  repeat split.
  - unfold item_ok; simpl. unfold f_0_1, f_0_01.
    rewrite !max_float_lower. simpl.
    destruct (Z.leb_spec 1 (max_int 1 q)) as [_|Hlt];
      [|pose proof (max_int_lower 1 q); lia].
    simpl. apply Nat.leb_le. unfold str_take. apply substring_length_le.
  - subst p0. destruct (SFleb (price_unit line) f_zero) eqn:Hle; [reflexivity|].
    destruct (price_unit line) as [s|s| |s m e]; try destruct s; try reflexivity;
      cbv in Hle; discriminate.
  - subst p0. destruct (SFleb (price_unit line) f_zero); [discriminate|auto].
  - subst q0. destruct (SFleb (product_uom_qty line) f_zero) eqn:Hle.
    + unfold f_one; eauto.
    + destruct (product_uom_qty line) as [s|s| |s m e]; try destruct s; simpl in Hq;
        try discriminate; try (cbv in Hle; discriminate); eauto.
Qed.

Lemma order_item_total (py : builtins) (line : sale_order_line) (p : product) :
  is_finite (product_uom_qty line) = true ->
  exists r, order_item py line p = Ok r.
Proof.
  intros Hfin. unfold order_item. rewrite !safe_float_of_float. simpl.
  destruct (SFleb (product_uom_qty line) f_zero); simpl; eauto.
  destruct (product_uom_qty line); simpl in *; try discriminate; eauto.
Qed.

Lemma order_items_loop_ok (py : builtins) (lines : list sale_order_line) :
  forall items dv items' dv',
    order_items_loop py lines items dv = Ok (items', dv') ->
    forallb item_ok items = true ->
    not_negative dv = true ->
    forallb item_ok items' = true
    /\ not_negative dv' = true
    /\ (is_nan dv' = true ->
        is_nan dv = true \/ Exists (fun l => is_nan (price_unit l) = true) lines).
Proof.
  induction lines as [|line rest IH]; intros items dv items' dv' Hrun Hitems Hdv; simpl in Hrun.
  - injection Hrun as <- <-. auto.
  - destruct (product_id line) as [p|].
    + destruct (order_item py line p) as [[[item price] quantity]|e] eqn:Hitem;
        simpl in Hrun; [|discriminate].
      destruct (order_item_ok _ _ _ _ _ _ Hitem) as (Hok & Hprice & Hnan & m & e & ->).
      pose proof (SFmul_not_negative price m e Hprice) as Hmul.
      destruct (SFadd_not_negative dv _ Hdv Hmul) as [Hadd Haddnan].
      apply IH in Hrun; auto.
      * destruct Hrun as (H1 & H2 & H3). repeat split; auto.
        intros Hn. destruct (H3 Hn) as [Hs|Hex]; [|now right; constructor 2].
        destruct (Haddnan Hs) as [Hd|Hm]; [now left|].
        right. constructor 1. apply Hnan. now apply (SFmul_nan price m e).
      * rewrite forallb_app, Hitems. simpl. now rewrite Hok.
    + apply IH in Hrun; auto.
      destruct Hrun as (H1 & H2 & H3). repeat split; auto.
      intros Hn. destruct (H3 Hn); [now left|now right; constructor 2].
Qed.

Lemma order_items_loop_total (py : builtins) (lines : list sale_order_line) :
  Forall (fun l => is_finite (product_uom_qty l) = true) lines ->
  forall items dv, exists r, order_items_loop py lines items dv = Ok r.
Proof.
  induction 1 as [|line rest Hfin _ IH]; intros items dv; simpl; eauto.
  destruct (product_id line) as [p|]; auto.
  destruct (order_item_total py line p Hfin) as [[[item price] quantity] ->]. simpl. auto.
Qed.


(** ** Addresses *)

(** C7: the address builders copy the fields of the warehouse partner and
    of the shipping partner one-to-one into the address object; a missing
    street, street2, city, state code or zip becomes the empty string, a
    missing country code ["ZA"], a missing name ["Warehouse"] for the
    warehouse and the empty string for the shipping partner; without a
    warehouse partner, or without a shipping partner, a user error is
    raised. *)
Theorem prepare_addresses_spec (order : sale_order) :
  match warehouse_partner order with
  | None => raises_UserError (_prepare_collection_address order)
  | Some wp =>
      exists d, _prepare_collection_address order = Ok (PDict d)
                /\ maps_partner "Warehouse" wp d
  end
  /\ match partner_shipping_id order with
     | None => raises_UserError (_prepare_delivery_address order)
     | Some sp =>
         exists d, _prepare_delivery_address order = Ok (PDict d)
                   /\ maps_partner "" sp d
     end.
Proof.
  unfold _prepare_collection_address, _prepare_delivery_address, raises_UserError.
  split.
  - destruct (warehouse_partner order) as [wp|]; [|eauto].
    eexists; split; [reflexivity|].
    split; [reflexivity|].
    unfold address_fields. repeat constructor; simpl;
      try (intros ->; reflexivity);
      intros s -> Hs; simpl; now destruct (String.eqb_spec s "").
  - destruct (partner_shipping_id order) as [sp|]; [|eauto].
    eexists; split; [reflexivity|].
    split; [reflexivity|].
    unfold address_fields. repeat constructor; simpl;
      try (intros ->; reflexivity);
      intros s -> Hs; simpl; now destruct (String.eqb_spec s "").
Qed.

(** ** Messages of HTTP errors *)

Lemma append_empty_r (s : string) : s ++ "" = s.
Proof.
  induction s as [|c s IH]; [reflexivity|].
  change (String c (s ++ "") = String c s). congruence.
Qed.

Lemma error_messages_lookup (status : Z) :
  error_messages !! status =
    if status =? 400 then Some "Bad request to Bobgo API: %s"
    else if status =? 401 then Some "Authentication failed. Please check your Bobgo API key."
    else if status =? 403
      then Some "Access forbidden. Your API key may not have the required permissions."
    else if status =? 429 then Some "Rate limit exceeded. Please try again later."
    else if status =? 500 then Some "Bobgo API server error. Please try again later."
    else if status =? 502
      then Some "Bobgo API is temporarily unavailable. Please try again later."
    else if status =? 503
      then Some "Bobgo API service is temporarily overloaded. Please try again later."
    else None.
Proof.
  unfold error_messages. simpl.
  repeat (rewrite lookup_insert; case_decide as Hd;
          [subst status; reflexivity|];
          match type of Hd with
          | ?k <> _ => destruct (Z.eqb_spec status k); [congruence|]
          end; clear Hd).
  apply lookup_empty.
Qed.

Lemma format_generic (py : builtins) (status : Z) (detail : string) :
  py_format py "Bobgo API returned error (HTTP %s): %s" [PInt status; PStr detail]
  = Ok ("Bobgo API returned error (HTTP " ++ str_of_int status ++ "): " ++ detail).
Proof.
  simpl. destruct (py_format py "" []) eqn:H; simpl in H; [|discriminate].
  injection H as <-. simpl. now rewrite append_empty_r.
Qed.

(** [_format_http_error], status by status: the formatting raises
    [TypeError] for the statuses of the table, and gives the generic
    message for the others. *)
Lemma format_http_error_cases (py : builtins) (status : Z) (detail : string) :
  _format_http_error py status detail =
    if bool_decide (status ∈ table_statuses)
    then Raise (TypeError "not all arguments converted during string formatting")
    else Ok ("Bobgo API returned error (HTTP " ++ str_of_int status ++ "): " ++ detail).
Proof.
  unfold _format_http_error. rewrite error_messages_lookup. unfold table_statuses.
  repeat match goal with
         | |- context [status =? ?k] =>
             destruct (Z.eqb_spec status k);
             [subst status; reflexivity|]
         end.
  rewrite bool_decide_eq_false_2; [apply format_generic|].
  rewrite !elem_of_cons, elem_of_nil. intuition congruence.
Qed.

(** A rate request answered with status 401: [bobgo_rate_shipment] ends
    with the [TypeError] of the formatting, not with a user error, and
    [rate_shipment] turns it into its answer for unexpected errors. *)
Example rate_shipment_401 :
  fst (bobgo_rate_shipment sample_runtime sample_order (sample_env [Ok response_401] ∅))
  = Raise (TypeError "not all arguments converted during string formatting")
  /\ fst (rate_shipment sample_runtime timed_cache (fun _ => ret PNone) sample_order
            (sample_env [Ok response_401] ∅))
     = Ok unexpected_error.
Proof. split; vm_compute; reflexivity. Qed.

(** The same request answered with a status outside the table. *)
Example rate_shipment_418 :
  fst (bobgo_rate_shipment sample_runtime sample_order (sample_env [Ok response_418] ∅))
  = Raise (UserError "Bobgo API returned error (HTTP 418): short and stout").
Proof. vm_compute. reflexivity. Qed.

(** ** The network *)

Section Keeps.

Context {X : Type} (proj : env -> X).

Lemma keeps_ret {A} (a : A) : keeps proj (ret a).
Proof. now intros e. Qed.

Lemma keeps_raise {A} (x : exn) : keeps proj (@raise env A x).
Proof. now intros e. Qed.

Lemma keeps_lift {A} (r : result A) : keeps proj (lift r).
Proof. now intros e. Qed.

Lemma keeps_mbind {A B} (m : M A) (k : A -> M B) :
  keeps proj m -> (forall a, keeps proj (k a)) -> keeps proj (mbind m k).
Proof.
  intros Hm Hk e. unfold mbind. specialize (Hm e).
  destruct (m e) as [[a|x] e1]; simpl in *; [|assumption].
  now rewrite Hk.
Qed.

Lemma keeps_try_except {A} (m : M A) (h : exn -> M A) :
  keeps proj m -> (forall x, keeps proj (h x)) -> keeps proj (try_except m h).
Proof.
  intros Hm Hh e. unfold try_except. specialize (Hm e).
  destruct (m e) as [[a|x] e1]; simpl in *; [assumption|].
  now rewrite Hh.
Qed.

Lemma keeps_rate_handler (py : builtins) (x : exn) :
  keeps proj (rate_shipment_handler py x).
Proof.
  destruct x; simpl;
    repeat first [ apply keeps_raise | apply keeps_lift | apply keeps_mbind; [|intros] ].
Qed.

End Keeps.

Lemma keeps_net_wizard (py : builtins) (order : sale_order) (rates : pyvalue) :
  keeps env_net (_create_rate_selection_wizard py order rates).
Proof.
  intros e. unfold _create_rate_selection_wizard.
  destruct (bind _ _) as [[|l ls]|x]; reflexivity.
Qed.

Lemma keeps_clock_wizard (py : builtins) (order : sale_order) (rates : pyvalue) :
  keeps clock_and_cache (_create_rate_selection_wizard py order rates).
Proof.
  intros e. unfold _create_rate_selection_wizard.
  destruct (bind _ _) as [[|l ls]|x]; reflexivity.
Qed.

Lemma keeps_clock_post (url : string) (headers : list (string * pyvalue)) (json : pyvalue) :
  keeps clock_and_cache (post url headers json).
Proof.
  intros e. unfold post, requests_post. destruct (pending (env_net e)); reflexivity.
Qed.

Ltac keeps_steps :=
  repeat first
    [ apply keeps_ret | apply keeps_raise | apply keeps_lift
    | apply keeps_net_wizard | apply keeps_clock_wizard | apply keeps_clock_post
    | apply keeps_rate_handler
    | apply keeps_mbind; [|intros]
    | apply keeps_try_except; [|intros]
    | match goal with |- keeps _ (if ?b then _ else _) => destruct b end
    | progress intros ].

Lemma post_net (url : string) (headers : list (string * pyvalue)) (json : pyvalue) (e : env) :
  sent (env_net (snd (post url headers json e)))
  = (sent (env_net e) ++ [{| req_url := url; req_headers := headers; req_json := json;
                            req_timeout := BOBGO_API_TIMEOUT |}])%list.
Proof.
  unfold post, requests_post. destruct (pending (env_net e)); reflexivity.
Qed.

Lemma after_post_net {A} (url : string) (headers : list (string * pyvalue))
    (json : pyvalue) (k : response -> M A) (h : exn -> M A) (e : env) :
  (forall r, keeps env_net (k r)) -> (forall x, keeps env_net (h x)) ->
  env_net (snd (try_except (mbind (post url headers json) k) h e))
  = env_net (snd (post url headers json e)).
Proof.
  intros Hk Hh. unfold try_except, mbind.
  destruct (post url headers json e) as [[r|x] e1]; simpl.
  - specialize (Hk r e1). destruct (k r e1) as [[a|x] e2]; simpl in *; [assumption|].
    now rewrite Hh.
  - apply Hh.
Qed.

(** [bobgo_rate_shipment] leaves the clock and the cache alone. *)
Lemma keeps_clock_bobgo_rate_shipment (py : builtins) (order : sale_order) :
  keeps clock_and_cache (bobgo_rate_shipment py order).
Proof.
  intros e. unfold bobgo_rate_shipment.
  destruct (order_line order); [reflexivity|].
  destruct (_prepare_collection_address order); [|reflexivity].
  destruct (_prepare_delivery_address order); [|reflexivity].
  destruct (_prepare_order_items py order) as [[[|item items] dv]|]; try reflexivity.
  revert e.
  assert (H : forall self payload,
            keeps clock_and_cache (request_rates py order self payload)).
  { intros self payload. unfold request_rates. keeps_steps. }
  intros e. apply H.
Qed.

Lemma rates_at_checkout_urljoin (self : carrier) :
  urljoin (bobgo_get_api_base_url self) "/rates-at-checkout" = rates_at_checkout_url self.
Proof.
  unfold bobgo_get_api_base_url, rates_at_checkout_url.
  destruct (bobgo_test_mode self); vm_compute; reflexivity.
Qed.

(** What [bobgo_rate_shipment] sends: nothing, or one request to
    [rates_at_checkout_url] with the payload of the order. *)
Lemma bobgo_rate_shipment_sent (py : builtins) (order : sale_order) (e : env) :
  sent (env_net (snd (bobgo_rate_shipment py order e))) = sent (env_net e)
  \/ exists rq,
       sent (env_net (snd (bobgo_rate_shipment py order e))) = (sent (env_net e) ++ [rq])%list
       /\ req_url rq = rates_at_checkout_url (env_self e)
       /\ req_headers rq = api_headers (env_self e)
       /\ exists collection delivery items dv,
            _prepare_order_items py order = Ok (items, dv)
            /\ req_json rq = rate_payload (env_self e) collection delivery items dv.
Proof.
  unfold bobgo_rate_shipment.
  destruct (order_line order) as [|l0 ls] eqn:Hlines; [now left|].
  destruct (_prepare_collection_address order) as [collection|x]; [|now left].
  destruct (_prepare_delivery_address order) as [delivery|x]; [|now left].
  destruct (_prepare_order_items py order) as [[items dv]|x] eqn:Hprep; [|now left].
  destruct items as [|item items]; [now left|].
  right. unfold request_rates. rewrite rates_at_checkout_urljoin.
  set (payload := rate_payload _ _ _ _ _).
  set (url := rates_at_checkout_url _).
  exists {| req_url := url; req_headers := api_headers (env_self e); req_json := payload;
            req_timeout := BOBGO_API_TIMEOUT |}.
  split; [|simpl; eauto 10].
  rewrite <- post_net. f_equal.
  apply after_post_net; keeps_steps.
Qed.

(** C5: what the code does.  A call of [bobgo_rate_shipment] sends at most
    one request; its URL is the host of the base URL followed by
    [/rates-at-checkout]: joining the base URL with a path that starts
    with a slash replaces the path of the base URL, so the [/v2] segment is
    not in the request URL. *)
Theorem rate_request_url (py : builtins) (order : sale_order) (e : env) :
  sent (env_net (snd (bobgo_rate_shipment py order e))) = sent (env_net e)
  \/ exists rq,
       sent (env_net (snd (bobgo_rate_shipment py order e))) = (sent (env_net e) ++ [rq])%list
       /\ req_url rq = urljoin (bobgo_get_api_base_url (env_self e)) "/rates-at-checkout"
       /\ req_url rq = rates_at_checkout_url (env_self e)
       /\ str_contains (req_url rq) "/v2" = false.
Proof.
  destruct (bobgo_rate_shipment_sent py order e) as [H|(rq & Hs & Hu & _)]; [now left|].
  right. exists rq. rewrite rates_at_checkout_urljoin.
  repeat split; auto. rewrite Hu. unfold rates_at_checkout_url.
  destruct (bobgo_test_mode (env_self e)); vm_compute; reflexivity.
Qed.

Example rate_request_url_sandbox :
  List.map req_url
    (sent (env_net (snd (bobgo_rate_shipment sample_runtime sample_order
                           (sample_env [Ok response_500] ∅)))))
  = ["https://api.sandbox.bobgo.co.za/rates-at-checkout"].
Proof. vm_compute. reflexivity. Qed.

(** C9: [_prepare_order_items] returns whenever the quantities of the kept
    lines are finite numbers; in whatever it returns every item has an
    integer quantity of at least 1, dimensions of at least 0.1, a weight of
    at least 0.01 and a description of at most 100 characters; the declared
    value is never below zero, and it is a number at least zero unless the
    unit price of a kept line is not a number.  The payload of the rate
    request carries these items and this declared value, and its handling
    time is an integer at least zero whatever the carrier holds; it is the
    payload of the request that [bobgo_rate_shipment] sends. *)
Theorem prepare_order_items_bounds (py : builtins) (order : sale_order) :
  (Forall (fun l => is_finite (product_uom_qty l) = true) (shippable_lines order) ->
   exists items dv, _prepare_order_items py order = Ok (items, dv))
  /\ (forall items dv,
        _prepare_order_items py order = Ok (items, dv) ->
        forallb item_ok items = true
        /\ SFltb dv f_zero = false
        /\ (Forall (fun l => is_nan (price_unit l) = false) (shippable_lines order) ->
            f_nonneg dv = true)
        /\ forall self collection delivery,
             exists d,
               rate_payload self collection delivery items dv = PDict d
               /\ dict_get d "items" PNone = PList items
               /\ dict_get d "declared_value" PNone = PFloat dv
               /\ dict_get d "handling_time" PNone = PInt (max_int 0 (bobgo_handling_time self))
               /\ 0 <= max_int 0 (bobgo_handling_time self))
  /\ (forall e,
        sent (env_net (snd (bobgo_rate_shipment py order e))) = sent (env_net e)
        \/ exists rq collection delivery items dv,
             sent (env_net (snd (bobgo_rate_shipment py order e)))
             = (sent (env_net e) ++ [rq])%list
             /\ _prepare_order_items py order = Ok (items, dv)
             /\ req_json rq = rate_payload (env_self e) collection delivery items dv).
Proof.
  split; [|split].
  - intros Hfin.
    destruct (order_items_loop_total py _ Hfin [] f_zero) as [[items dv] H].
    exists items, dv. exact H.
  - intros items dv Hrun. unfold _prepare_order_items in Hrun.
    apply order_items_loop_ok in Hrun; [|reflexivity|reflexivity].
    destruct Hrun as (Hitems & Hdv & Hnan).
    split; [assumption|]. split; [|split].
    + unfold not_negative in Hdv. now destruct (SFltb dv f_zero).
    + intros Hprices. destruct (not_negative_cases dv Hdv) as [Hn|]; [|assumption].
      destruct (Hnan Hn) as [Hz|Hex]; [discriminate|].
      apply Exists_exists in Hex. destruct Hex as (l & Hin & Hl).
      rewrite Forall_forall in Hprices. unfold shippable_lines in Hprices.
      rewrite (Hprices l Hin) in Hl. discriminate.
    + intros self collection delivery. eexists. split; [reflexivity|].
      repeat split. apply max_int_lower.
  - intros e.
    destruct (bobgo_rate_shipment_sent py order e)
      as [H|(rq & Hs & _ & _ & collection & delivery & items & dv & Hprep & Hjson)];
      [now left|].
    right. exists rq, collection, delivery, items, dv. auto.
Qed.

Lemma prepare_order_items_bounds_witness :
  exists items dv,
    _prepare_order_items sample_runtime sample_order = Ok (items, dv)
    /\ forallb item_ok items = true
    /\ SFltb dv f_zero = false
    /\ f_nonneg dv = true.
Proof.
  destruct (prepare_order_items_bounds sample_runtime sample_order) as (Htotal & Hok & _).
  destruct Htotal as (items & dv & Hrun).
  - repeat constructor.
  - exists items, dv. destruct (Hok items dv Hrun) as (H1 & H2 & H3 & _).
    repeat split; auto. apply H3. repeat constructor.
Defined.

(** The items of the example order: the width 0.0 gives way to the
    default 10.0 and the height 0.01 is raised to 0.1. *)
Example prepare_order_items_sample :
  _prepare_order_items sample_runtime sample_order
  = Ok ([PDict [("description", PStr "Kettle");
                ("price", PFloat f_ten);
                ("quantity", PInt 1);
                ("length_cm", PFloat f_ten);
                ("width_cm", PFloat f_ten);
                ("height_cm", PFloat f_0_1);
                ("weight_kg", PFloat f_0_2)]],
        f_ten).
Proof. vm_compute. reflexivity. Qed.

(** ** Booking shipments *)

Lemma mbind_ok {S A B} (m : ST S A) (k : A -> ST S B) (e e' : S) (b : B) :
  mbind m k e = (Ok b, e') ->
  exists a e1, m e = (Ok a, e1) /\ k a e1 = (Ok b, e').
Proof.
  unfold mbind. destruct (m e) as [[a|x] e1]; [eauto|discriminate].
Qed.

Lemma lift_ok {S A} (r : result A) (e e' : S) (a : A) :
  lift r e = (Ok a, e') -> r = Ok a /\ e' = e.
Proof. unfold lift. intros H; injection H as -> ->. auto. Qed.

Lemma post_ok (url : string) (headers : list (string * pyvalue)) (json : pyvalue)
    (e e' : env) (r : response) :
  post url headers json e = (Ok r, e') ->
  exists rest,
    pending (env_net e) = Ok r :: rest
    /\ e' = set_net e {| pending := rest;
                         sent := (sent (env_net e)
                                  ++ [{| req_url := url; req_headers := headers;
                                         req_json := json;
                                         req_timeout := BOBGO_API_TIMEOUT |}])%list |}.
Proof.
  unfold post, requests_post.
  destruct (pending (env_net e)) as [|o rest]; [discriminate|].
  intros H; injection H as -> <-. eauto.
Qed.

Lemma raise_for_status_ok (url : string) (r : response) (u : unit) :
  raise_for_status url r = Ok u -> status_ok r = true.
Proof.
  unfold raise_for_status, status_ok.
  destruct (Z.leb_spec 400 (status_code r)), (Z.ltb_spec (status_code r) 500),
    (Z.leb_spec 500 (status_code r)), (Z.ltb_spec (status_code r) 600),
    (Z.ltb_spec (status_code r) 400), (Z.leb_spec 600 (status_code r));
    simpl; try discriminate; try lia; auto.
Qed.

Lemma validate_configuration_env (e e' : env) (r : result bool) :
  validate_configuration e = (r, e') ->
  env_net e' = env_net e /\ env_pickings e' = env_pickings e
  /\ env_cache e' = env_cache e /\ env_clock e' = env_clock e
  /\ env_wizards e' = env_wizards e
  /\ env_self e' = snd (bobgo_validate_configuration (env_self e)).
Proof.
  unfold validate_configuration.
  destruct (bobgo_validate_configuration (env_self e)) as [r0 c].
  intros H; injection H as <- <-. simpl. auto 10.
Qed.

Lemma py_first_truthy (rates selected : pyvalue) :
  py_first rates = Ok selected ->
  (exists rest, rates = PList (selected :: rest))
  \/ (exists c s, rates = PStr (String c s) /\ selected = PStr (String c EmptyString)).
Proof.
  destruct rates as [|b|z|f|s|l|d]; simpl; try discriminate.
  - destruct s as [|c s]; [discriminate|]. intros H; injection H as <-. eauto.
  - destruct l as [|x l]; [discriminate|]. intros H; injection H as <-. eauto.
Qed.

Lemma py_get_ok (v : pyvalue) (k : string) (dflt r : pyvalue) :
  py_get v k dflt = Ok r -> exists d, v = PDict d /\ r = dict_get d k dflt.
Proof.
  destruct v; simpl; try discriminate. intros H; injection H as <-. eauto.
Qed.

Lemma response_json_ok (r : response) (v : pyvalue) :
  response_json r = Ok v -> json_body r = Some v.
Proof.
  unfold response_json. destruct (json_body r); [|discriminate]. congruence.
Qed.

(** Splits the next step off a successful computation [H]. *)
Tactic Notation "next_step" hyp(H) ident(a) ident(e1) ident(Hstep) :=
  apply mbind_ok in H as (a & e1 & Hstep & H).

Tactic Notation "next_lift" hyp(H) ident(a) ident(Hstep) :=
  let e1 := fresh "e" in
  apply mbind_ok in H as (a & e1 & Hstep & H);
  apply lift_ok in Hstep as [Hstep ->].

Lemma book_shipment_ok (py : builtins) (pid : Z) (p : picking) (e e' : env) (entry : pyvalue) :
  env_pickings e !! pid = Some p ->
  book_shipment py pid p e = (Ok entry, e') ->
  booked py pid e entry e'.
Proof.
  intros Hp H. unfold book_shipment in H.
  next_step H ok e0 Hval. cbv beta zeta in H.
  apply validate_configuration_env in Hval as (Hnet & Hpick & _ & _ & _ & Hself).
  next_lift H rpayload Hpayload.
  next_step H r1 e1 Hpost1. apply post_ok in Hpost1 as (rest1 & Hpend1 & ->).
  next_lift H u1 Hst1. apply raise_for_status_ok in Hst1.
  next_lift H rates_data Hjson1. apply response_json_ok in Hjson1.
  next_lift H listed Hlisted.
  next_lift H n Hlen.
  next_lift H rates Hrates.
  apply py_get_ok in Hrates as (rd & -> & ->).
  destruct (negb (truthy (dict_get rd "rates" PNone))) eqn:Htruthy; [discriminate|].
  next_lift H selected Hfirst.
  next_lift H sname Hsname. apply py_get_ok in Hsname as (rate & -> & _).
  apply py_first_truthy in Hfirst as [(others & Hlist)|(c & s & _ & Hsel)]; [|discriminate].
  next_lift H shipment_payload Hship.
  next_step H r2 e2 Hpost2. apply post_ok in Hpost2 as (rest2 & Hpend2 & ->).
  next_lift H u2 Hst2. apply raise_for_status_ok in Hst2.
  next_lift H shipment_data Hjson2. apply response_json_ok in Hjson2.
  next_lift H tracking Htrack. apply py_get_ok in Htrack as (sd & -> & ->).
  next_lift H sid Hsid. simpl in Hsid. injection Hsid as <-.
  next_step H u3 e3 Hwrite. unfold write_picking in Hwrite. injection Hwrite as _ <-.
  next_lift H total Htotal. simpl in Htotal. injection Htotal as <-.
  next_lift H price Hprice.
  unfold ret in H. injection H as <- <-.
  simpl in *.
  exists p, (write_shipment p (dict_get sd "id" PNone)
               (dict_get sd "tracking_reference" PNone)),
    r1, r2, rd, rate, others, sd, price.
  eexists _, {| req_json := shipment_payload |}.
  rewrite <- Hnet, <- Hpick. unfold same_but_shipment. simpl.
  repeat split; eauto.
  - now rewrite Hpick.
  - now rewrite Hpend1, Hpend2.
  - now rewrite <- app_assoc.
Qed.

Lemma send_picking_ok (py : builtins) (pid : Z) (e e' : env) (entry : pyvalue) :
  send_picking py pid e = (Ok entry, e') -> booked py pid e entry e'.
Proof.
  unfold send_picking. destruct (env_pickings e !! pid) as [p|] eqn:Hp; [|discriminate].
  unfold try_except.
  destruct (book_shipment py pid p e) as [[v|x] e1] eqn:Hbook.
  - intros H; injection H as <- <-. eauto using book_shipment_ok.
  - unfold mbind, lift, raise. destruct (py_format _ _ _); discriminate.
Qed.

Lemma send_picking_raises (py : builtins) (pid : Z) (e e' : env) (x : exn) :
  send_picking py pid e = (Raise x, e') -> is_UserError x = true.
Proof.
  unfold send_picking. destruct (env_pickings e !! pid) as [p|].
  - unfold try_except. destruct (book_shipment py pid p e) as [[v|y] e1]; [discriminate|].
    unfold mbind, lift, raise. simpl.
    destruct (py_format py "" []) eqn:Hnil; simpl in Hnil; [|discriminate].
    simpl. intros H; injection H as <- _. reflexivity.
  - intros H; injection H as <- _. reflexivity.
Qed.

Lemma send_loop_raises (py : builtins) (pickings : list Z) :
  forall res0 e e' x,
    send_loop py pickings res0 e = (Raise x, e') -> is_UserError x = true.
Proof.
  induction pickings as [|pid rest IH]; intros res0 e e' x H; simpl in H; [discriminate|].
  unfold mbind in H.
  destruct (send_picking py pid e) as [[entry|y] e1] eqn:Hturn.
  - eauto.
  - injection H as <- _. eauto using send_picking_raises.
Qed.

Lemma booked_other (py : builtins) (pid q : Z) (e e' : env) (entry : pyvalue) :
  booked py pid e entry e' -> q <> pid -> env_pickings e' !! q = env_pickings e !! q.
Proof.
  intros (p & p' & r1 & r2 & rd & rate & others & sd & price & rq1 & rq2 & H) Hq.
  destruct H as (_ & _ & _ & _ & _ & _ & _ & _ & _ & _ & _ & -> & _).
  now rewrite lookup_insert_ne.
Qed.

Lemma bookings_other (py : builtins) (pickings : list Z) (q : Z) (e e' : env)
    (res : list pyvalue) :
  bookings py pickings e res e' -> q ∉ pickings ->
  env_pickings e' !! q = env_pickings e !! q.
Proof.
  induction 1 as [|pid rest e e1 e' entry res Hb _ IH]; intros Hq; [reflexivity|].
  apply not_elem_of_cons in Hq as [Hne Hq].
  rewrite IH by assumption. eauto using booked_other.
Qed.

Lemma send_loop_trace (py : builtins) (pickings : list Z) :
  forall res0 e,
    exists booked_ids entries e0,
      bookings py booked_ids e entries e0
      /\ ((pickings = booked_ids
           /\ send_loop py pickings res0 e = (Ok (res0 ++ entries)%list, e0))
          \/ exists pid rest x e',
               pickings = (booked_ids ++ pid :: rest)%list
               /\ send_picking py pid e0 = (Raise x, e')
               /\ send_loop py pickings res0 e = (Raise x, e')).
Proof.
  induction pickings as [|pid rest IH]; intros res0 e.
  - exists [], [], e. split; [constructor|]. left. simpl. now rewrite app_nil_r.
  - simpl. unfold mbind.
    destruct (send_picking py pid e) as [[entry|x] e1] eqn:Hturn.
    + apply send_picking_ok in Hturn.
      destruct (IH (res0 ++ [entry])%list e1) as (ids & entries & e0 & Hb & Hend).
      exists (pid :: ids), (entry :: entries), e0.
      split; [econstructor; eauto|].
      destruct Hend as [[-> Hrun]|(q & rest' & x & e' & -> & Hq & Hrun)].
      * left. split; [reflexivity|]. now rewrite Hrun, <- app_assoc.
      * right. exists q, rest', x, e'. auto.
    + exists [], [], e. split; [constructor|].
      right. exists pid, rest, x, e1. auto.
Qed.

Lemma bookings_final (py : builtins) (pickings : list Z) (e e' : env) (res : list pyvalue) :
  bookings py pickings e res e' ->
  NoDup pickings ->
  forall pid, pid ∈ pickings ->
    exists e0 e1 entry,
      booked py pid e0 entry e1 /\ entry ∈ res
      /\ env_pickings e' !! pid = env_pickings e1 !! pid.
Proof.
  induction 1 as [|pid rest e e1 e' entry res Hturn Hrest IH]; intros Hnd q Hq.
  - now apply elem_of_nil in Hq.
  - apply NoDup_cons in Hnd as [Hfresh Hnd].
    apply elem_of_cons in Hq as [->|Hq].
    + exists e, e1, entry. repeat split; [assumption|constructor|].
      eauto using bookings_other.
    + destruct (IH Hnd q Hq) as (e0 & e2 & entry' & Hb' & Hin & Heq).
      exists e0, e2, entry'. repeat split; auto. now constructor.
Qed.

Lemma bookings_length (py : builtins) (pickings : list Z) (e e' : env) (res : list pyvalue) :
  bookings py pickings e res e' -> List.length res = List.length pickings.
Proof. induction 1; simpl; congruence. Qed.

(** The outcomes consumed by successful turns are responses without an
    error status. *)
Lemma bookings_outcomes (py : builtins) (pickings : list Z) (e e' : env) (res : list pyvalue) :
  bookings py pickings e res e' ->
  exists consumed,
    pending (env_net e) = (consumed ++ pending (env_net e'))%list
    /\ Forall (fun o => http_failure o = false) consumed.
Proof.
  induction 1 as [e|pid rest e e1 e' entry res Hturn _ IH].
  - exists []. split; [reflexivity|constructor].
  - destruct IH as (consumed & Hrest & Hall).
    destruct Hturn as (p & p' & r1 & r2 & rd & rate & others & sd & price & rq1 & rq2 & H).
    destruct H as (_ & Hpend & Hs1 & Hs2 & _).
    exists (Ok r1 :: Ok r2 :: consumed). split.
    + rewrite Hpend, Hrest. reflexivity.
    + repeat constructor; simpl; try assumption; [now rewrite Hs1|now rewrite Hs2].
Qed.

(** C1: a call of [bobgo_send_shipping] books the pickings in order, up
    to the end or to the first one that fails.  Every picking booked was
    booked as [booked] says: the first rate of the response of the rates
    endpoint was selected, the shipment's [id] and [tracking_reference]
    were written into the picking's [bobgo_shipment_id] and
    [carrier_tracking_ref], and the entry for the picking has the first
    rate's [total_price] as [exact_price] (0.0 when absent) and the
    tracking reference as [tracking_number]; when no picking is booked
    twice, each is afterwards as its own turn left it.  When all pickings
    are booked the entries are returned, one per picking and in order;
    otherwise the user error of the failing picking is raised. *)
Theorem bobgo_send_shipping_books (py : builtins) (pickings : list Z) (e : env) :
  exists booked_ids entries e0,
    bookings py booked_ids e entries e0
    /\ List.length entries = List.length booked_ids
    /\ (NoDup booked_ids ->
        forall pid, pid ∈ booked_ids ->
          exists e1 e2 entry,
            booked py pid e1 entry e2 /\ entry ∈ entries
            /\ env_pickings e0 !! pid = env_pickings e2 !! pid)
    /\ ((pickings = booked_ids
         /\ bobgo_send_shipping py pickings e = (Ok entries, e0))
        \/ exists pid rest x e',
             pickings = (booked_ids ++ pid :: rest)%list
             /\ is_UserError x = true
             /\ bobgo_send_shipping py pickings e = (Raise x, e')).
Proof.
  destruct (send_loop_trace py pickings [] e) as (ids & entries & e0 & Hb & Hend).
  exists ids, entries, e0.
  split; [assumption|]. split; [eauto using bookings_length|].
  split; [eauto using bookings_final|].
  destruct Hend as [[-> Hrun]|(pid & rest & x & e' & -> & Hturn & Hrun)].
  - left. auto.
  - right. exists pid, rest, x, e'. eauto using send_picking_raises.
Qed.

(** The booking of one picking, run on an example. *)
Example bobgo_send_shipping_sample :
  fst (bobgo_send_shipping sample_runtime [1] booking_env)
  = Ok [PDict [("exact_price", PFloat (S754_finite false 5981343255101440 (-46)));
               ("tracking_number", PStr "BG123")]]
  /\ (carrier_tracking_ref <$>
        env_pickings (snd (bobgo_send_shipping sample_runtime [1] booking_env)) !! 1)
     = Some (PStr "BG123")
  /\ (bobgo_shipment_id <$>
        env_pickings (snd (bobgo_send_shipping sample_runtime [1] booking_env)) !! 1)
     = Some (PInt 9001)
  /\ dict_get
       match List.map req_json
               (sent (env_net (snd (bobgo_send_shipping sample_runtime [1] booking_env))))
       with
       | [_; PDict d] => d
       | _ => []
       end "service_level_code" PNone
     = PStr "ECO".
Proof. repeat split; vm_compute; reflexivity. Qed.

(** ** Failures of the network *)

Lemma raise_for_status_error (url : string) (r : response) :
  status_ok r = false -> exists msg, raise_for_status url r = Raise (HTTPError msg r).
Proof.
  unfold raise_for_status, status_ok.
  destruct (Z.leb_spec 400 (status_code r)), (Z.ltb_spec (status_code r) 500),
    (Z.leb_spec 500 (status_code r)), (Z.ltb_spec (status_code r) 600),
    (Z.ltb_spec (status_code r) 400), (Z.leb_spec 600 (status_code r));
    simpl; try discriminate; try lia; eauto.
Qed.

Lemma first_error_field_dict (py : builtins) (fields : list string)
    (d : list (string * pyvalue)) :
  exists s, first_error_field py fields (PDict d) = Ok s.
Proof.
  induction fields as [|field rest IH]; simpl; [eauto|].
  destruct (dict_mem d field) eqn:Hmem; simpl; eauto.
Qed.

Lemma extract_error_detail_plain (py : builtins) (r : response) :
  plain_error_body (Ok r) = true -> exists s, _extract_error_detail py r = Ok s.
Proof.
  unfold plain_error_body, _extract_error_detail, response_json.
  destruct (json_body r) as [[| | | | | |d]|]; try discriminate; intros _; simpl; eauto.
  destruct (first_error_field_dict py ["detail"; "error"; "message"; "description"] d)
    as [s Hs].
  simpl in Hs. rewrite Hs. eauto.
Qed.

(** The rate request met a timeout, or an error status outside the table
    with a plain error body: a user error is raised. *)
Lemma request_rates_failure (py : builtins) (order : sale_order) (self : carrier)
    (payload : pyvalue) (e : env) (o : result response) (rest : list (result response)) :
  pending (env_net e) = o :: rest ->
  http_failure o = true -> table_status o = false -> plain_error_body o = true ->
  raises_UserError (fst (request_rates py order self payload e)).
Proof.
  intros Hpend Hfail Htable Hbody.
  unfold request_rates, try_except, mbind at 1, post, requests_post.
  rewrite Hpend.
  destruct o as [r|x]; simpl in Hfail.
  - apply negb_true_iff in Hfail.
    unfold mbind at 1, lift at 1.
    destruct (raise_for_status_error
                (urljoin (bobgo_get_api_base_url self) "/rates-at-checkout") r Hfail)
      as [msg ->].
    simpl. unfold mbind at 1, lift at 1.
    destruct (extract_error_detail_plain py r Hbody) as [detail ->].
    unfold mbind, lift. rewrite format_http_error_cases.
    simpl in Htable. rewrite Htable. simpl.
    eexists; split; reflexivity.
  - destruct x; try discriminate. simpl. eexists; split; reflexivity.
Qed.

(** C2: what the code does.  For every status outside its table
    [_format_http_error] returns the generic message with the status code
    and the error detail, and the rate request raises a user error with
    that message.  For every status of the table the formatting raises
    [TypeError], because the two arguments [(status_code, error_detail)]
    are more than the message has placeholders for; a rate request
    answered with such a status ends with that [TypeError], not with a
    user error. *)
Theorem format_http_error_table (py : builtins) :
  (forall status detail,
     _format_http_error py status detail =
       if bool_decide (status ∈ table_statuses)
       then Raise (TypeError "not all arguments converted during string formatting")
       else Ok ("Bobgo API returned error (HTTP " ++ str_of_int status ++ "): " ++ detail))
  /\ (forall order self payload e r rest,
        pending (env_net e) = Ok r :: rest ->
        status_ok r = false ->
        plain_error_body (Ok r) = true ->
        exists detail,
          _extract_error_detail py r = Ok detail
          /\ fst (request_rates py order self payload e) =
               if bool_decide (status_code r ∈ table_statuses)
               then Raise (TypeError "not all arguments converted during string formatting")
               else Raise (UserError ("Bobgo API returned error (HTTP "
                                      ++ str_of_int (status_code r) ++ "): " ++ detail))).
Proof.
  split; [apply format_http_error_cases|].
  intros order self payload e r rest Hpend Hfail Hbody.
  destruct (extract_error_detail_plain py r Hbody) as [detail Hdetail].
  exists detail. split; [assumption|].
  unfold request_rates, try_except, mbind at 1, post, requests_post.
  rewrite Hpend. unfold mbind at 1, lift at 1.
  destruct (raise_for_status_error
              (urljoin (bobgo_get_api_base_url self) "/rates-at-checkout") r Hfail)
    as [msg ->].
  simpl. unfold mbind at 1, lift at 1. rewrite Hdetail.
  unfold mbind, lift. rewrite format_http_error_cases.
  now destruct (bool_decide (status_code r ∈ table_statuses)).
Qed.

(** A timeout or an error status met by either request of a turn of
    [bobgo_send_shipping] ends the turn with a user error. *)
Lemma send_picking_failure (py : builtins) (pid : Z) (e : env) (o : result response)
    (rest : list (result response)) :
  (pending (env_net e) = o :: rest
   \/ exists r1, pending (env_net e) = Ok r1 :: o :: rest) ->
  http_failure o = true ->
  raises_UserError (fst (send_picking py pid e)).
Proof.
  intros Hpend Hfail.
  destruct (send_picking py pid e) as [[entry|x] e'] eqn:Hturn; simpl.
  - exfalso. apply send_picking_ok in Hturn.
    destruct Hturn as (p & p' & r1 & r2 & rd & rate & others & sd & price & rq1 & rq2 & H).
    destruct H as (_ & Hp & Hs1 & Hs2 & _).
    destruct Hpend as [Hpend|(r & Hpend)]; rewrite Hpend in Hp.
    + injection Hp as -> _. simpl in Hfail. rewrite Hs1 in Hfail. discriminate.
    + injection Hp as _ -> _. simpl in Hfail. rewrite Hs2 in Hfail. discriminate.
  - exists x. eauto using send_picking_raises.
Qed.

(** ** Cancelling shipments *)

Lemma cancel_picking_total (pid : Z) (e : env) :
  is_Some (env_pickings e !! pid) ->
  exists b e',
    cancel_picking pid e = (Ok b, e')
    /\ forall q, is_Some (env_pickings e !! q) -> is_Some (env_pickings e' !! q).
Proof.
  intros [p Hp]. unfold cancel_picking. rewrite Hp.
  destruct (negb (truthy (carrier_tracking_ref p))); [eauto|].
  unfold try_except, mbind, post.
  destruct (requests_post _ _ _ _ _) as [[resp|x] n]; simpl.
  - destruct (status_code resp =? 200); simpl; eauto.
    do 2 eexists; split; [reflexivity|]. simpl. intros q Hq.
    destruct (decide (pid = q)) as [->|Hne].
    + rewrite lookup_insert_eq. eauto.
    + now rewrite lookup_insert_ne.
  - eauto.
Qed.

Lemma cancel_loop_total (pickings : list Z) :
  forall successful failed e,
    (forall pid, pid ∈ pickings -> is_Some (env_pickings e !! pid)) ->
    exists lists e',
      cancel_loop pickings successful failed e = (Ok lists, e')
      /\ (List.length failed <= List.length (snd lists))%nat.
Proof.
  induction pickings as [|pid rest IH]; intros successful failed e Hall; simpl.
  - do 2 eexists; split; [reflexivity|]. simpl. lia.
  - destruct (cancel_picking_total pid e) as (b & e1 & Hturn & Hkeep);
      [apply Hall; constructor|].
    unfold mbind. rewrite Hturn.
    assert (Hall1 : forall q, q ∈ rest -> is_Some (env_pickings e1 !! q)).
    { intros q Hq. apply Hkeep, Hall. now constructor. }
    destruct b.
    + apply IH, Hall1.
    + edestruct (IH successful) as (lists & e' & -> & Hlen); [exact Hall1|].
      do 2 eexists; split; [reflexivity|].
      rewrite length_app in Hlen. simpl in Hlen. lia.
Qed.

(** A cancellation request that meets a timeout or a status other than
    200 puts the picking among the failed ones and writes nothing. *)
Lemma cancel_picking_failure (pid : Z) (p : picking) (e : env)
    (o : result response) (rest : list (result response)) :
  env_pickings e !! pid = Some p ->
  truthy (carrier_tracking_ref p) = true ->
  pending (env_net e) = o :: rest ->
  http_failure o = true ->
  fst (cancel_picking pid e) = Ok false
  /\ env_pickings (snd (cancel_picking pid e)) = env_pickings e.
Proof.
  intros Hp Href Hpend Hfail. unfold cancel_picking. rewrite Hp, Href. simpl.
  unfold try_except, mbind, post, requests_post. rewrite Hpend.
  destruct o as [r|x]; simpl in *.
  - unfold status_ok in Hfail.
    destruct (Z.eqb_spec (status_code r) 200) as [Heq|Hne]; [|auto].
    rewrite Heq in Hfail. discriminate.
  - auto.
Qed.

Lemma prepare_collection_address_raises (order : sale_order) (x : exn) :
  _prepare_collection_address order = Raise x -> is_UserError x = true.
Proof.
  unfold _prepare_collection_address. destruct (warehouse_partner order); [discriminate|].
  intros H; injection H as <-. reflexivity.
Qed.

Lemma prepare_delivery_address_raises (order : sale_order) (x : exn) :
  _prepare_delivery_address order = Raise x -> is_UserError x = true.
Proof.
  unfold _prepare_delivery_address. destruct (partner_shipping_id order); [discriminate|].
  intros H; injection H as <-. reflexivity.
Qed.

(** C3, as amended: [bobgo_send_shipping] raises nothing but user errors,
    and it returns only when none of its requests met a timeout or an
    HTTP error status: such an outcome, as that of the first turn, makes
    it raise a user error; [bobgo_rate_shipment], once the items of the
    order are prepared, raises a user error when its request meets a
    timeout, or an HTTP error status outside the table of
    [_format_http_error] with an error body that is not JSON or is a JSON
    object; [bobgo_cancel_shipment] raises nothing on existing pickings,
    and returns [False] when the request for a picking with a tracking
    reference meets a timeout or an HTTP error status. *)
Theorem network_failures_spec (py : builtins) :
  (forall pickings e x,
     fst (bobgo_send_shipping py pickings e) = Raise x -> is_UserError x = true)
  /\ (forall pickings e res e',
        bobgo_send_shipping py pickings e = (Ok res, e') ->
        exists consumed,
          pending (env_net e) = (consumed ++ pending (env_net e'))%list
          /\ Forall (fun o => http_failure o = false) consumed)
  /\ (forall pid rest e o outcomes,
        (pending (env_net e) = o :: outcomes
         \/ exists r1, pending (env_net e) = Ok r1 :: o :: outcomes) ->
        http_failure o = true ->
        raises_UserError (fst (bobgo_send_shipping py (pid :: rest) e)))
  /\ (forall order e prepared o outcomes,
        _prepare_order_items py order = Ok prepared ->
        pending (env_net e) = o :: outcomes ->
        http_failure o = true -> table_status o = false -> plain_error_body o = true ->
        raises_UserError (fst (bobgo_rate_shipment py order e)))
  /\ (forall pickings e,
        (forall pid, pid ∈ pickings -> is_Some (env_pickings e !! pid)) ->
        exists b e', bobgo_cancel_shipment pickings e = (Ok b, e'))
  /\ (forall pid rest p e o outcomes,
        (forall q, q ∈ pid :: rest -> is_Some (env_pickings e !! q)) ->
        env_pickings e !! pid = Some p ->
        truthy (carrier_tracking_ref p) = true ->
        pending (env_net e) = o :: outcomes ->
        http_failure o = true ->
        fst (bobgo_cancel_shipment (pid :: rest) e) = Ok false).
Proof.
  repeat split.
  - intros pickings e x H. unfold bobgo_send_shipping in H.
    destruct (send_loop py pickings [] e) as [r e'] eqn:Hloop. simpl in H. subst r.
    eauto using send_loop_raises.
  - intros pickings e res e' Hrun. unfold bobgo_send_shipping in Hrun.
    destruct (send_loop_trace py pickings [] e) as (ids & entries & e0 & Hb & Hend).
    destruct Hend as [[_ Hok]|(pid & rest & x & e1 & _ & _ & Hraise)];
      [|rewrite Hraise in Hrun; discriminate].
    rewrite Hok in Hrun. injection Hrun as _ <-.
    eauto using bookings_outcomes.
  - intros pid rest e o outcomes Hpend Hfail.
    destruct (send_picking_failure py pid e o outcomes Hpend Hfail) as (x & Hx & Hu).
    unfold bobgo_send_shipping. simpl. unfold mbind.
    destruct (send_picking py pid e) as [r e1]. simpl in Hx. subst r. simpl.
    exists x. auto.
  - intros order e [items dv] o outcomes Hprep Hpend Hfail Htable Hbody.
    unfold bobgo_rate_shipment.
    destruct (order_line order); [eexists; split; reflexivity|].
    destruct (_prepare_collection_address order) as [collection|x] eqn:Hc;
      [|exists x; eauto using prepare_collection_address_raises].
    destruct (_prepare_delivery_address order) as [delivery|x] eqn:Hd;
      [|exists x; eauto using prepare_delivery_address_raises].
    rewrite Hprep.
    destruct items as [|item items]; [eexists; split; reflexivity|].
    eauto using request_rates_failure.
  - intros pickings e Hall. unfold bobgo_cancel_shipment, mbind.
    destruct (cancel_loop_total pickings [] [] e Hall) as (lists & e' & -> & _).
    unfold ret. eauto.
  - intros pid rest p e o outcomes Hall Hp Href Hpend Hfail.
    destruct (cancel_picking_failure pid p e o outcomes Hp Href Hpend Hfail) as [Hturn Htable].
    unfold bobgo_cancel_shipment. simpl. unfold mbind at 1 2.
    destruct (cancel_picking pid e) as [r e1]. simpl in Hturn, Htable. subst r.
    edestruct (cancel_loop_total rest [] ([] ++ [of_char (picking_name p)]) e1)
      as (lists & e' & Hloop & Hlen).
    { intros q Hq. rewrite Htable. apply Hall. now constructor. }
    rewrite Hp. simpl in Hloop, Hlen. rewrite Hloop. simpl.
    destruct (List.length lists.2); [lia|reflexivity].
Qed.

(** C3 as stated fails for cancellation: a cancellation request answered
    with status 500 makes [bobgo_cancel_shipment] return [False]; no
    error is raised to the caller. *)
Lemma cancel_shipment_returns_false :
  http_failure (Ok response_500) = true
  /\ bobgo_cancel_shipment [1] cancel_env
     = (Ok false,
        set_net cancel_env
          {| pending := [];
             sent := [{| req_url := "https://api.sandbox.bobgo.co.za/shipments/cancel";
                         req_headers := api_headers bearer_carrier;
                         req_json := PDict [("tracking_reference", PStr "BG123")];
                         req_timeout := 30 |}] |}).
Proof. split; vm_compute; reflexivity. Qed.

(** A rate request that meets a timeout. *)
Example rate_shipment_timeout :
  fst (bobgo_rate_shipment sample_runtime sample_order timeout_env)
  = Raise (UserError "Shipping rate request timed out. Please try again.").
Proof. vm_compute. reflexivity. Qed.

(** A booking whose first request meets a timeout. *)
Example send_shipping_timeout :
  fst (bobgo_send_shipping sample_runtime [1]
         (sample_env [Raise (Timeout "Read timed out.")] {[ 1 := sample_picking ]}))
  = Raise (UserError "Failed to book shipment for WH/OUT/00007: Read timed out.").
Proof. vm_compute. reflexivity. Qed.

(** ** The key of the cache *)






(** ** The cache of rates *)

Lemma validate_configuration_run (e : env) :
  validate_configuration e
  = (fst (bobgo_validate_configuration (env_self e)), set_self e (validated (env_self e))).
Proof.
  unfold validate_configuration, validated.
  now destruct (bobgo_validate_configuration (env_self e)).
Qed.

Lemma validate_configuration_ok (e : env) :
  configured (env_self e) = true ->
  validate_configuration e = (Ok true, set_self e (validated (env_self e)))
  /\ carrier_id (validated (env_self e)) = carrier_id (env_self e).
Proof.
  unfold configured. intros H. apply andb_true_iff in H as [Hempty Hrefused].
  apply negb_true_iff in Hempty, Hrefused.
  rewrite validate_configuration_run, bobgo_validate_configuration_result, Hempty, Hrefused.
  split; [reflexivity|apply validated_fields].
Qed.

Lemma returns_truthy_raise (x : exn) : returns_truthy (raise x).
Proof. intros e v e' H. discriminate. Qed.

Lemma returns_truthy_mbind {A} (m : M A) (k : A -> M pyvalue) :
  (forall a, returns_truthy (k a)) -> returns_truthy (mbind m k).
Proof.
  intros Hk e v e' H. apply mbind_ok in H as (a & e1 & _ & H).
  exact (Hk a e1 v e' H).
Qed.

Lemma returns_truthy_try_except (m : M pyvalue) (h : exn -> M pyvalue) :
  returns_truthy m -> (forall x, returns_truthy (h x)) -> returns_truthy (try_except m h).
Proof.
  intros Hm Hh e v e' H. unfold try_except in H.
  destruct (m e) as [[a|x] e1] eqn:Hrun; [|exact (Hh x e1 v e' H)].
  injection H as <- <-. exact (Hm e a e1 Hrun).
Qed.

Lemma returns_truthy_wizard (py : builtins) (order : sale_order) (rates : pyvalue) :
  returns_truthy (_create_rate_selection_wizard py order rates).
Proof.
  intros e v e'. unfold _create_rate_selection_wizard.
  destruct (bind _ _) as [[|l ls]|x]; try discriminate.
  intros H; injection H as <- _. reflexivity.
Qed.

Lemma returns_truthy_rate_handler (py : builtins) (x : exn) :
  returns_truthy (rate_shipment_handler py x).
Proof.
  destruct x; simpl;
    repeat first [ apply returns_truthy_raise
                 | apply returns_truthy_mbind; intros ].
Qed.

Lemma returns_truthy_request_rates (py : builtins) (order : sale_order) (self : carrier)
    (payload : pyvalue) :
  returns_truthy (request_rates py order self payload).
Proof.
  unfold request_rates.
  apply returns_truthy_try_except; [|apply returns_truthy_rate_handler].
  repeat (apply returns_truthy_mbind; intros).
  match goal with
  | |- returns_truthy (if ?b then _ else _) => destruct b
  end; [apply returns_truthy_raise|apply returns_truthy_wizard].
Qed.

Lemma returns_truthy_bobgo_rate_shipment (py : builtins) (order : sale_order) :
  returns_truthy (bobgo_rate_shipment py order).
Proof.
  intros e v e'. unfold bobgo_rate_shipment.
  destruct (order_line order); [discriminate|].
  destruct (_prepare_collection_address order); [|discriminate].
  destruct (_prepare_delivery_address order); [|discriminate].
  destruct (_prepare_order_items py order) as [[[|item items] dv]|]; try discriminate.
  apply returns_truthy_request_rates.
Qed.



(** With the helper of the examples: rates stored 100 seconds ago are
    returned and the pending outcome of the network is not consumed; 200
    seconds later their time has passed and a request is sent. *)
Example rate_shipment_timed_cache :
  (fun r => (fst r, List.length (sent (env_net (snd r)))))
    (rate_shipment sample_runtime timed_cache (fun _ => ret PNone) sample_order cached_env)
  = (Ok (PDict [("type", PStr "ir.actions.act_window")]), 0%nat)
  /\ (fun r => List.length (sent (env_net (snd r))))
       (rate_shipment sample_runtime timed_cache (fun _ => ret PNone) sample_order
          {| env_self := env_self cached_env; env_net := env_net cached_env;
             env_pickings := env_pickings cached_env; env_wizards := env_wizards cached_env;
             env_cache := env_cache cached_env; env_clock := 1200;
             env_zar_id := env_zar_id cached_env; env_context := env_context cached_env |})
     = 1%nat.
Proof. split; vm_compute; reflexivity. Qed.

(** ** The rate-selection wizard *)

Lemma apply_error_message (py : builtins) (x : exn) :
  py_format py "Error applying shipping rate: %s" [PStr (exn_str x)]
  = Ok ("Error applying shipping rate: " ++ exn_str x).
Proof.
  simpl. destruct (py_format py "" []) eqn:H; simpl in H; [|discriminate].
  injection H as <-. simpl. now rewrite append_empty_r.
Qed.

Lemma write_delivery_lines_prices (o : sale_order) (name : pyvalue) (price : float) :
  Forall (fun l => is_delivery l = true -> price_unit l = price /\ line_name l = name)
    (order_line (write_delivery_lines o name price)).
Proof.
  unfold write_delivery_lines. simpl.
  induction (order_line o) as [|l ls IH]; simpl; constructor; auto.
  destruct (is_delivery l) eqn:Hd; simpl; [auto|congruence].
Qed.

Lemma no_delivery_lines (lines : list sale_order_line) :
  existsb is_delivery lines = false ->
  List.map (fun l => if is_delivery l then l else l) lines = lines
  /\ Forall (fun l => is_delivery l = false) lines.
Proof.
  induction lines as [|l ls IH]; simpl; [auto|].
  intros H. apply orb_false_iff in H as [Hl Hls]. destruct (IH Hls) as [IH1 IH2].
  rewrite Hl, IH1. auto.
Qed.

(** C4: without an order or a carrier on the wizard, [action_apply_rate]
    raises a user error; so it does when [set_delivery_line] raises or
    returns a value that counts as false; when [set_delivery_line] returns
    a value that counts as true, the action returns the window-close
    action, [{'type': 'ir.actions.act_window_close'}], every delivery line
    of the order has the chosen [total_price] as its unit price, the other
    lines are as [set_delivery_line] left them, and one log record is
    added. *)
Theorem action_apply_rate_spec (py : builtins)
    (set_delivery_line : carrier -> float -> sale_order -> result pyvalue * sale_order)
    (self : rate_line) (w : wstate) :
  (ws_order w = None \/ rl_carrier self = None ->
   raises_UserError (fst (action_apply_rate py set_delivery_line self w)))
  /\ forall o c,
       ws_order w = Some o -> rl_carrier self = Some c ->
       (forall x o1,
          set_delivery_line c (rl_total_price self) o = (Raise x, o1) ->
          raises_UserError (fst (action_apply_rate py set_delivery_line self w)))
       /\ (forall v o1,
             set_delivery_line c (rl_total_price self) o = (Ok v, o1) ->
             truthy v = false ->
             raises_UserError (fst (action_apply_rate py set_delivery_line self w)))
       /\ (forall v o1,
             set_delivery_line c (rl_total_price self) o = (Ok v, o1) ->
             truthy v = true ->
             exists o2,
               action_apply_rate py set_delivery_line self w
               = (Ok (PDict [("type", PStr "ir.actions.act_window_close")]),
                  {| ws_order := Some o2;
                     ws_logging := (ws_logging w
                                    ++ [rate_selected_log py self o2 (ws_dbname w)])%list;
                     ws_dbname := ws_dbname w |})
               /\ Forall (fun l => is_delivery l = true -> price_unit l = rl_total_price self)
                    (order_line o2)
               /\ Forall2 (fun l1 l2 =>
                             is_delivery l2 = is_delivery l1
                             /\ (is_delivery l1 = false -> l2 = l1))
                    (order_line o1) (order_line o2)).
Proof.
  split.
  - unfold action_apply_rate. intros [Ho|Hc].
    + rewrite Ho. eexists; split; reflexivity.
    + rewrite Hc. destruct (ws_order w); eexists; split; reflexivity.
  - intros o c Ho Hc. unfold action_apply_rate. rewrite Ho, Hc.
    unfold try_except, apply_rate.
    repeat split.
    + intros x o1 ->. unfold mbind, lift. rewrite apply_error_message.
      eexists; split; reflexivity.
    + intros v o1 -> ->. simpl. eexists; split; reflexivity.
    + intros v o1 -> ->. simpl.
      eexists; split; [reflexivity|].
      destruct (existsb is_delivery (order_line o1)) eqn:Hex.
      * split; [eapply Forall_impl; [apply write_delivery_lines_prices|]; simpl; tauto|].
        unfold write_delivery_lines; simpl. clear Hex.
        induction (order_line o1) as [|l ls IH]; simpl; constructor; auto.
        destruct (is_delivery l) eqn:Hd; simpl; split; auto; congruence.
      * destruct (no_delivery_lines _ Hex) as [_ Hnone]. split.
        -- eapply Forall_impl; [exact Hnone|]. simpl. congruence.
        -- clear. induction (order_line o1); constructor; auto.
Qed.

Lemma action_apply_rate_spec_witness :
  exists o2,
    action_apply_rate sample_runtime sample_set_delivery_line sample_rate_line sample_wstate
    = (Ok (PDict [("type", PStr "ir.actions.act_window_close")]),
       {| ws_order := Some o2;
          ws_logging := [rate_selected_log sample_runtime sample_rate_line o2 "odoo"];
          ws_dbname := "odoo" |})
    /\ Forall (fun l => is_delivery l = true -> price_unit l = f_ten) (order_line o2)
    /\ Forall2 (fun l1 l2 =>
                  is_delivery l2 = is_delivery l1 /\ (is_delivery l1 = false -> l2 = l1))
         (order_line (snd (sample_set_delivery_line bearer_carrier f_ten sample_order)))
         (order_line o2).
Proof.
  destruct (action_apply_rate_spec sample_runtime sample_set_delivery_line
              sample_rate_line sample_wstate) as [_ H].
  destruct (H sample_order bearer_carrier eq_refl eq_refl) as (_ & _ & Hok).
  exact (Hok (PBool true) _ eq_refl eq_refl).
Defined.

Example action_apply_rate_lines :
  (fun w => option_map (fun o => List.map (fun l => (line_id l, price_unit l, line_name l))
                                   (order_line o)) (ws_order w))
    (snd (action_apply_rate sample_runtime sample_set_delivery_line sample_rate_line
            sample_wstate))
  = Some [(1, f_ten, PStr "Kettle"); (99, f_ten, PStr "Bobgo - Economy")].
Proof. vm_compute. reflexivity. Qed.

(** * Further properties *)

(** ** Error details *)

Lemma first_error_field_absent (py : builtins) (fields : list string) (v : pyvalue) :
  (forall field, In field fields -> py_contains v field = Ok false) ->
  first_error_field py fields v = Ok (py_str py v).
Proof.
  induction fields as [|field rest IH]; intros H; simpl; [reflexivity|].
  rewrite (H field) by now left. simpl. apply IH. intros f Hf. apply H. now right.
Qed.

Lemma first_error_field_found (py : builtins) (fields : list string) (v : pyvalue) :
  (forall field, exists msg, py_getitem py v field = Raise (TypeError msg)) ->
  (forall field, exists b, py_contains v field = Ok b) ->
  (exists field, In field fields /\ py_contains v field = Ok true) ->
  exists msg, first_error_field py fields v = Raise (TypeError msg).
Proof.
  intros Hitem Hin. induction fields as [|field rest IH]; intros (f & Hf & Hfound).
  - destruct Hf.
  - simpl. destruct (Hin field) as [[|] Hb]; rewrite Hb; simpl.
    + destruct (Hitem field) as [msg ->]. simpl. eauto.
    + apply IH. destruct Hf as [->|Hf]; [congruence|eauto].
Qed.

(** X1: [_extract_error_detail] case by case.  A body that is not JSON
    gives the text of the response, or ["No error details available"] when
    the text is empty.  A JSON object gives the text of the value of the
    first of [detail], [error], [message], [description] that it has, and
    its own text when it has none.  A JSON string or array in which none of
    the four names is found gives its own text.  Every other JSON body
    makes the method raise [TypeError]: [null], a boolean, a number, and a
    string or array in which one of the names is found. *)
Theorem extract_error_detail_cases (py : builtins) (r : response) :
  match json_body r with
  | None =>
      _extract_error_detail py r
      = Ok (if String.eqb (text r) "" then "No error details available" else text r)
  | Some v =>
      if unsafe_error_body v
      then exists msg, _extract_error_detail py r = Raise (TypeError msg)
      else _extract_error_detail py r = Ok (py_str py (reported_detail v))
  end.
Proof.
  unfold _extract_error_detail, response_json.
  destruct (json_body r) as [v|]; [|reflexivity].
  change (bind (Ok v) _) with
    (first_error_field py ["detail"; "error"; "message"; "description"] v).
  destruct v as [|b|z|f|s|l|d]; unfold unsafe_error_body;
    try (simpl; eauto; fail).
  - (* a string *)
    destruct (existsb (str_contains s) error_fields) eqn:Hex.
    + destruct (first_error_field_found py error_fields (PStr s)) as [msg Hmsg].
      * intros field. simpl. eauto.
      * intros field. simpl. eauto.
      * apply existsb_exists in Hex as (field & Hf & Hc). exists field. simpl.
        now rewrite Hc.
      * unfold error_fields in Hmsg. rewrite Hmsg. eauto.
    + change ["detail"; "error"; "message"; "description"] with error_fields.
      rewrite (first_error_field_absent py error_fields (PStr s)); [reflexivity|].
      intros field Hf. simpl. f_equal.
      destruct (str_contains s field) eqn:Hc; [|reflexivity].
      assert (existsb (str_contains s) error_fields = true) as Hyes
        by (apply existsb_exists; eauto).
      congruence.
  - (* an array *)
    set (has := fun field : string =>
                  existsb (fun x => match x with PStr s => String.eqb s field | _ => false end) l).
    fold has. destruct (existsb has error_fields) eqn:Hex.
    + destruct (first_error_field_found py error_fields (PList l)) as [msg Hmsg].
      * intros field. simpl. eauto.
      * intros field. simpl. eauto.
      * apply existsb_exists in Hex as (field & Hf & Hc). exists field. simpl.
        split; [assumption|]. f_equal. exact Hc.
      * unfold error_fields in Hmsg. rewrite Hmsg. eauto.
    + change ["detail"; "error"; "message"; "description"] with error_fields.
      rewrite (first_error_field_absent py error_fields (PList l)); [reflexivity|].
      intros field Hf. simpl. f_equal. fold (has field).
      destruct (has field) eqn:Hc; [|reflexivity].
      assert (existsb has error_fields = true) as Hyes by (apply existsb_exists; eauto).
      congruence.
  - (* an object *)
    unfold reported_detail, error_fields. simpl.
    repeat match goal with
           | |- context [dict_mem d ?k] => destruct (dict_mem d k) eqn:?; simpl; try reflexivity
           end.
Qed.

(** ** The wizard of a rate request *)

Lemma map_result_ok {A B} (f : A -> result B) (l : list A) :
  forall bs, map_result f l = Ok bs -> Forall2 (fun a b => f a = Ok b) l bs.
Proof.
  induction l as [|a l IH]; simpl; intros bs H.
  - injection H as <-. constructor.
  - destruct (f a) as [b|x] eqn:Ha; [|discriminate]. simpl in H.
    destruct (map_result f l) as [bs'|x]; [|discriminate]. simpl in H.
    injection H as <-. constructor; auto.
Qed.

Lemma map_result_total {A B} (f : A -> result B) (l : list A) :
  Forall (fun a => exists b, f a = Ok b) l -> exists bs, map_result f l = Ok bs.
Proof.
  induction 1 as [|a l [b Hb] _ [bs IH]]; simpl; [eauto|].
  rewrite Hb, IH. simpl. eauto.
Qed.

Lemma map_result_raises {A B} (f : A -> result B) (l : list A) :
  Exists (fun a => exists x, f a = Raise x) l -> exists x, map_result f l = Raise x.
Proof.
  induction 1 as [a l [x Hx]|a l _ [x IH]]; simpl.
  - rewrite Hx. simpl. eauto.
  - destruct (f a); simpl; [|eauto]. rewrite IH. simpl. eauto.
Qed.

Lemma rate_line_vals_shows (py : builtins) (zar_id : Z) (r line : pyvalue) :
  rate_line_vals py zar_id r = Ok line -> shows_rate py zar_id r line.
Proof.
  destruct r as [| | | | | |rd]; try discriminate.
  unfold rate_line_vals. simpl.
  destruct (py_float py (dict_get rd "total_price" (PFloat f_zero))) as [price|x] eqn:Hp;
    [|discriminate].
  simpl. intros H; injection H as <-.
  exists rd. eexists. exists price. repeat split; auto.
Qed.

Lemma rate_line_vals_priced (py : builtins) (zar_id : Z) (r : pyvalue) :
  if rate_has_price py r
  then exists line, rate_line_vals py zar_id r = Ok line
  else exists x, rate_line_vals py zar_id r = Raise x.
Proof.
  destruct r as [| | | | | |rd]; simpl; eauto.
  unfold rate_line_vals. simpl.
  destruct (py_float py (dict_get rd "total_price" (PFloat f_zero))) as [price|x];
    simpl; eauto.
Qed.

Lemma rate_lines_priced (py : builtins) (zar_id : Z) (rs : list pyvalue) :
  if forallb (rate_has_price py) rs
  then exists lines, map_result (rate_line_vals py zar_id) rs = Ok lines
  else exists x, map_result (rate_line_vals py zar_id) rs = Raise x.
Proof.
  destruct (forallb (rate_has_price py) rs) eqn:Hall.
  - apply map_result_total. rewrite forallb_forall in Hall.
    induction rs as [|r rs IH]; constructor.
    + pose proof (rate_line_vals_priced py zar_id r) as H.
      rewrite (Hall r) in H by now left. exact H.
    + apply IH. intros q Hq. apply Hall. now right.
  - apply map_result_raises.
    induction rs as [|r rs IH]; simpl in Hall; [discriminate|].
    pose proof (rate_line_vals_priced py zar_id r) as H.
    destruct (rate_has_price py r); [right; auto|left; exact H].
Qed.

(** What [_create_rate_selection_wizard] does with rates that can be put
    on lines. *)
Lemma create_wizard_listed (py : builtins) (order : sale_order) (rates : pyvalue)
    (rs : list pyvalue) (e : env) :
  listed_rates py rates = Some rs ->
  exists lines action,
    rates = PList rs /\ lines <> []
    /\ Forall2 (shows_rate py (env_zar_id e)) rs lines
    /\ opens_wizard action (next_wizard_id e) (env_context e)
    /\ _create_rate_selection_wizard py order rates e
       = (Ok action,
          set_wizards e
            (env_wizards e
             ++ [{| wizard_id := next_wizard_id e;
                    wizard_order_id := order_id order;
                    wizard_carrier_id := carrier_id (env_self e);
                    wizard_lines := lines |}])%list).
Proof.
  unfold listed_rates. destruct rates as [| | | | |[|r rest]|]; try discriminate.
  destruct (forallb (rate_has_price py) (r :: rest)) eqn:Hall; [|discriminate].
  intros H; injection H as <-.
  pose proof (rate_lines_priced py (env_zar_id e) (r :: rest)) as Hlines.
  rewrite Hall in Hlines. destruct Hlines as [lines Hlines].
  pose proof (map_result_ok _ _ _ Hlines) as Hshow.
  destruct lines as [|l ls]; [inversion Hshow|].
  exists (l :: ls). eexists. split; [reflexivity|]. split; [discriminate|].
  split; [eapply Forall2_impl; [exact Hshow|]; eauto using rate_line_vals_shows|].
  unfold _create_rate_selection_wizard.
  change (py_iter (PList (r :: rest))) with (Ok (r :: rest)).
  change (bind (Ok (r :: rest)) ?k) with (k (r :: rest)). cbv beta.
  rewrite Hlines. split; [|reflexivity].
  eexists. repeat split; reflexivity.
Qed.


(** ** Rate requests *)

Lemma raise_for_status_pass (url : string) (r : response) :
  status_ok r = true -> raise_for_status url r = Ok tt.
Proof.
  unfold raise_for_status, status_ok.
  destruct (Z.leb_spec 400 (status_code r)), (Z.ltb_spec (status_code r) 500),
    (Z.leb_spec 500 (status_code r)), (Z.ltb_spec (status_code r) 600),
    (Z.ltb_spec (status_code r) 400), (Z.leb_spec 600 (status_code r));
    simpl; try discriminate; try lia; auto.
Qed.

Lemma dict_get_default (d : list (string * pyvalue)) (k : string) (a b : pyvalue) :
  dict_get d k a = if dict_mem d k then dict_get d k b else a.
Proof.
  induction d as [|[k' v] d IH]; simpl; [reflexivity|].
  destruct (String.eqb k' k); simpl; auto.
Qed.

(** The [except] clauses of [bobgo_rate_shipment] always end in an
    exception, and change nothing. *)
Lemma rate_handler_raises (py : builtins) (x : exn) (e : env) :
  exists y, rate_shipment_handler py x e = (Raise y, e).
Proof.
  destruct x; simpl; unfold mbind, lift, raise; eauto;
    repeat match goal with
           | |- context [match ?r with Ok _ => _ | Raise _ => _ end] => destruct r
           end; eauto.
Qed.

Lemma post_after_request (self : carrier) (payload : pyvalue) (e : env) :
  snd (post (rates_at_checkout_url self) (api_headers self) payload e)
  = set_net e (after_request (env_net e) (rate_request self payload)).
Proof.
  unfold post, requests_post, after_request. destruct (pending (env_net e)); reflexivity.
Qed.

Lemma create_wizard_unlisted (py : builtins) (order : sale_order) (rates : pyvalue) (e : env) :
  listed_rates py rates = None ->
  exists x, _create_rate_selection_wizard py order rates e = (Raise x, e).
Proof.
  intros Hlisted. unfold _create_rate_selection_wizard.
  destruct rates as [|b|z|f|s|l|d]; simpl py_iter; try (simpl; eauto; fail).
  - destruct s as [|c s]; simpl; eauto.
  - change (bind (Ok l) ?k) with (k l). cbv beta.
    destruct l as [|r rest]; [simpl; eauto|].
    unfold listed_rates in Hlisted.
    pose proof (rate_lines_priced py (env_zar_id e) (r :: rest)) as Hlines.
    destruct (forallb (rate_has_price py) (r :: rest)); [discriminate|].
    destruct Hlines as [x ->]. eauto.
  - destruct d as [|[k v] d]; simpl; eauto.
Qed.

(** The two ways [request_rates] ends: with an exception, the request
    sent and nothing else changed; or with the action for a new wizard
    made of the rates of the answer. *)
Lemma request_rates_outcome (py : builtins) (order : sale_order) (self : carrier)
    (payload : pyvalue) (e : env) :
  let e1 := set_net e (after_request (env_net e) (rate_request self payload)) in
  (exists x, request_rates py order self payload e = (Raise x, e1))
  \/ exists r d rs lines action,
       List.head (pending (env_net e)) = Some (Ok r)
       /\ status_ok r = true
       /\ json_body r = Some (PDict d)
       /\ dict_get d "rates" PNone = PList rs
       /\ listed_rates py (PList rs) = Some rs
       /\ lines <> []
       /\ Forall2 (shows_rate py (env_zar_id e)) rs lines
       /\ opens_wizard action (next_wizard_id e) (env_context e)
       /\ request_rates py order self payload e
          = (Ok action,
             set_wizards e1
               (env_wizards e
                ++ [{| wizard_id := next_wizard_id e;
                       wizard_order_id := order_id order;
                       wizard_carrier_id := carrier_id (env_self e);
                       wizard_lines := lines |}])%list).
Proof.
  intros e1.
  remember (request_rates py order self payload e) as res eqn:Hres.
  assert (Hraise : forall x e0, res = rate_shipment_handler py x e0 -> e0 = e1 ->
                   exists y, res = (Raise y, e1)).
  { intros x e0 -> ->. apply rate_handler_raises. }
  unfold request_rates in Hres. rewrite rates_at_checkout_urljoin in Hres.
  unfold try_except, mbind at 1 in Hres.
  pose proof (post_after_request self payload e) as Hpost. fold e1 in Hpost.
  destruct (post (rates_at_checkout_url self) (api_headers self) payload e)
    as [[r|x] e0] eqn:Hrun; simpl in Hpost; subst e0; [|left; eauto].
  assert (Hhead : List.head (pending (env_net e)) = Some (Ok r)).
  { unfold post, requests_post in Hrun.
    destruct (pending (env_net e)) as [|o rest]; [discriminate|].
    injection Hrun as -> _. reflexivity. }
  unfold mbind at 1, lift at 1 in Hres.
  destruct (raise_for_status (rates_at_checkout_url self) r) as [[]|x] eqn:Hstatus;
    [|left; eauto].
  apply raise_for_status_ok in Hstatus.
  unfold mbind at 1, lift at 1 in Hres.
  destruct (response_json r) as [data|x] eqn:Hjson; [|left; eauto].
  apply response_json_ok in Hjson.
  unfold mbind at 1, lift at 1 in Hres.
  destruct (py_get data "rates" (PList [])) as [listed|x] eqn:Hlisted; [|left; eauto].
  apply py_get_ok in Hlisted as (d & -> & ->).
  unfold mbind at 1, lift at 1 in Hres.
  destruct (py_len (dict_get d "rates" (PList []))) as [n|x]; [|left; eauto].
  unfold mbind at 1, lift at 1 in Hres. simpl py_get in Hres. cbv iota in Hres.
  destruct (negb (truthy (dict_get d "rates" PNone)));
    [left; unfold raise in Hres; eapply Hraise; [exact Hres|reflexivity]|].
  destruct (listed_rates py (dict_get d "rates" PNone)) as [rs|] eqn:Hrates.
  - destruct (create_wizard_listed py order _ rs e1 Hrates)
      as (lines & action & Hr & Hne & Hshow & Hact & Hcreate).
    right. exists r, d, rs, lines, action. rewrite Hcreate in Hres.
    rewrite Hr in Hrates. repeat split; auto.
  - destruct (create_wizard_unlisted py order _ e1 Hrates) as [x Hx].
    rewrite Hx in Hres. left. eauto.
Qed.

Lemma prepare_order_items_none (py : builtins) (order : sale_order) :
  shippable_lines order = [] -> _prepare_order_items py order = Ok ([], f_zero).
Proof.
  unfold _prepare_order_items, shippable_lines. now intros ->.
Qed.

(** X3: the checks of [bobgo_rate_shipment] come before the request.  An
    order without lines, without the partner of its warehouse, without a
    shipping address, or without a line that is a product and not a
    delivery line, ends in a user error with the message of the first of
    these checks that fails; no request is sent and nothing changes. *)
Theorem bobgo_rate_shipment_checks (py : builtins) (order : sale_order) (e : env) :
  order_line order = [] \/ warehouse_partner order = None
  \/ partner_shipping_id order = None \/ shippable_lines order = [] ->
  bobgo_rate_shipment py order e = (Raise (UserError (unrateable_message order)), e).
Proof.
  intros H. unfold bobgo_rate_shipment, unrateable_message,
    _prepare_collection_address, _prepare_delivery_address.
  destruct (order_line order) as [|l ls] eqn:Hlines; [reflexivity|].
  destruct (warehouse_partner order) as [wp|]; [|reflexivity].
  destruct (partner_shipping_id order) as [sp|]; [|reflexivity].
  destruct H as [H|[H|[H|H]]]; try discriminate.
  now rewrite (prepare_order_items_none py order H).
Qed.

Lemma bobgo_rate_shipment_checks_witness :
  bobgo_rate_shipment sample_runtime delivery_only_order (sample_env [Ok rates_response] ∅)
  = (Raise (UserError "No shippable items found in the order."),
     sample_env [Ok rates_response] ∅).
Proof.
  apply (bobgo_rate_shipment_checks sample_runtime delivery_only_order).
  right. right. right. reflexivity.
Defined.

(** X4: [bobgo_rate_shipment] creates a wizard exactly when it returns.
    When it returns, one wizard has been added, with the next id, the
    order, the carrier and at least one line, and the action returned
    opens it; when it raises, the wizards are as before.  Either way the
    carrier, the pickings, the cache and the clock are untouched, and the
    network is as before or one request further. *)
Theorem bobgo_rate_shipment_wizard (py : builtins) (order : sale_order) (e : env) :
  let '(r, e') := bobgo_rate_shipment py order e in
  match r with
  | Ok action =>
      opens_wizard action (next_wizard_id e) (env_context e)
      /\ exists lines,
           lines <> []
           /\ env_wizards e'
              = (env_wizards e
                 ++ [{| wizard_id := next_wizard_id e;
                        wizard_order_id := order_id order;
                        wizard_carrier_id := carrier_id (env_self e);
                        wizard_lines := lines |}])%list
  | Raise _ => env_wizards e' = env_wizards e
  end
  /\ env_self e' = env_self e /\ env_pickings e' = env_pickings e
  /\ env_cache e' = env_cache e /\ env_clock e' = env_clock e
  /\ (env_net e' = env_net e
      \/ exists payload,
           env_net e' = after_request (env_net e) (rate_request (env_self e) payload)).
Proof.
  unfold bobgo_rate_shipment.
  destruct (order_line order) as [|l ls]; [simpl; auto 10|].
  destruct (_prepare_collection_address order) as [collection|x]; [|simpl; auto 10].
  destruct (_prepare_delivery_address order) as [delivery|x]; [|simpl; auto 10].
  destruct (_prepare_order_items py order) as [[[|item items] dv]|x]; try (simpl; auto 10; fail).
  set (payload := rate_payload _ _ _ _ _).
  destruct (request_rates_outcome py order (env_self e) payload e)
    as [[x ->]|(r & d & rs & lines & action & _ & _ & _ & _ & _ & Hne & _ & Hact & ->)];
    simpl; [eauto 10|].
  repeat split; eauto.
Qed.

(** [request_rates] once its request is answered with a JSON object and
    a status that is no error. *)
Lemma request_rates_answered (py : builtins) (order : sale_order) (self : carrier)
    (payload : pyvalue) (e : env) (r : response) (rest : list (result response))
    (d : list (string * pyvalue)) :
  pending (env_net e) = Ok r :: rest ->
  status_ok r = true ->
  json_body r = Some (PDict d) ->
  request_rates py order self payload e
  = try_except
      (do _ <- lift (py_len (dict_get d "rates" (PList [])));
       if negb (truthy (dict_get d "rates" PNone)) then
         raise (UserError "No shipping rates available for the given addresses. Please check the addresses or try again later.")
       else _create_rate_selection_wizard py order (dict_get d "rates" PNone))
      (rate_shipment_handler py)
      (set_net e (after_request (env_net e) (rate_request self payload))).
Proof.
  intros Hpend Hstatus Hjson.
  unfold request_rates. rewrite rates_at_checkout_urljoin.
  unfold try_except, mbind at 1, post, requests_post, after_request. rewrite Hpend.
  unfold mbind at 1, lift at 1.
  rewrite (raise_for_status_pass _ _ Hstatus).
  unfold mbind at 1, lift at 1. unfold response_json. rewrite Hjson.
  unfold mbind at 1, lift at 1. simpl py_get. cbv iota.
  unfold mbind at 1, lift at 1.
  destruct (py_len (dict_get d "rates" (PList []))) as [n|x]; [|reflexivity].
  unfold mbind at 1, lift at 1. unfold mbind at 1, lift at 1. reflexivity.
Qed.

Lemma dict_get_listed (d : list (string * pyvalue)) (k : string) (l : list pyvalue)
    (dflt : pyvalue) :
  dict_get d k PNone = PList l -> dict_get d k dflt = PList l.
Proof.
  intros H. rewrite (dict_get_default d k dflt PNone).
  rewrite (dict_get_default d k PNone PNone) in H.
  destruct (dict_mem d k); [assumption|discriminate].
Qed.

Lemma prepare_order_items_lines (py : builtins) (order : sale_order) (item : pyvalue)
    (items : list pyvalue) (dv : float) :
  _prepare_order_items py order = Ok (item :: items, dv) -> order_line order <> [].
Proof.
  unfold _prepare_order_items. intros H Hnil. rewrite Hnil in H. discriminate.
Qed.

(** What [bobgo_rate_shipment] comes to once the order is prepared. *)
Lemma bobgo_rate_shipment_prepared (py : builtins) (order : sale_order) (e : env)
    (collection delivery item : pyvalue) (items : list pyvalue) (dv : float) :
  _prepare_collection_address order = Ok collection ->
  _prepare_delivery_address order = Ok delivery ->
  _prepare_order_items py order = Ok (item :: items, dv) ->
  bobgo_rate_shipment py order e
  = request_rates py order (env_self e)
      (rate_payload (env_self e) collection delivery (item :: items) dv) e.
Proof.
  intros Hc Hd Hi. unfold bobgo_rate_shipment. rewrite Hc, Hd, Hi.
  pose proof (prepare_order_items_lines py order item items dv Hi) as Hlines.
  destruct (order_line order); [congruence|reflexivity].
Qed.

(** X5: [bobgo_rate_shipment] returns for an order whose addresses and
    items are prepared, when the request is answered without an error
    status by a JSON object whose ["rates"] is a non-empty list of objects
    with prices that convert to floats.  One request is sent, with the
    payload of the order; the wizard created has one line per rate of the
    answer, in order, each showing its rate; the action returned opens the
    wizard. *)
Theorem bobgo_rate_shipment_returns (py : builtins) (order : sale_order) (e : env)
    (collection delivery item : pyvalue) (items : list pyvalue) (dv : float)
    (r : response) (rest : list (result response)) (d : list (string * pyvalue))
    (rs : list pyvalue) :
  _prepare_collection_address order = Ok collection ->
  _prepare_delivery_address order = Ok delivery ->
  _prepare_order_items py order = Ok (item :: items, dv) ->
  pending (env_net e) = Ok r :: rest ->
  status_ok r = true ->
  json_body r = Some (PDict d) ->
  listed_rates py (dict_get d "rates" PNone) = Some rs ->
  exists lines action,
    List.length lines = List.length rs
    /\ Forall2 (shows_rate py (env_zar_id e)) rs lines
    /\ opens_wizard action (next_wizard_id e) (env_context e)
    /\ bobgo_rate_shipment py order e
       = (Ok action,
          set_wizards
            (set_net e
               {| pending := rest;
                  sent := (sent (env_net e)
                           ++ [rate_request (env_self e)
                                 (rate_payload (env_self e) collection delivery
                                    (item :: items) dv)])%list |})
            (env_wizards e
             ++ [{| wizard_id := next_wizard_id e;
                    wizard_order_id := order_id order;
                    wizard_carrier_id := carrier_id (env_self e);
                    wizard_lines := lines |}])%list).
Proof.
  intros Hc Hd Hi Hpend Hstatus Hjson Hrates.
  rewrite (bobgo_rate_shipment_prepared py order e _ _ _ _ _ Hc Hd Hi).
  rewrite (request_rates_answered py order _ _ e r rest d Hpend Hstatus Hjson).
  set (e1 := set_net e _).
  destruct (create_wizard_listed py order _ rs e1 Hrates)
    as (lines & action & Hr & Hne & Hshow & Hact & Hcreate).
  exists lines, action.
  split; [symmetry; eapply Forall2_length; exact Hshow|].
  split; [exact Hshow|]. split; [exact Hact|].
  unfold try_except, mbind at 1, lift at 1.
  rewrite (dict_get_listed d "rates" rs (PList []) Hr). simpl py_len. cbv iota beta.
  rewrite Hr in Hcreate |- *.
  assert (Htruthy : negb (truthy (PList rs)) = false).
  { unfold listed_rates in Hrates. rewrite Hr in Hrates.
    destruct rs; [discriminate|reflexivity]. }
  rewrite Htruthy, Hcreate. subst e1. unfold after_request. rewrite Hpend. reflexivity.
Qed.

Lemma bobgo_rate_shipment_returns_witness :
  exists lines action,
    List.length lines = 2%nat
    /\ Forall2 (shows_rate sample_runtime 38)
         [PDict [("service_name", PStr "Economy"); ("service_level_code", PStr "ECO");
                 ("provider_slug", PStr "demo"); ("total_price", PInt 85)];
          PDict [("service_name", PStr "Express"); ("total_price", PInt 140)]]
         lines
    /\ opens_wizard action 1 (PDict [])
    /\ fst (bobgo_rate_shipment sample_runtime sample_order (sample_env [Ok rates_response] ∅))
       = Ok action.
Proof.
  destruct (bobgo_rate_shipment_returns sample_runtime sample_order
              (sample_env [Ok rates_response] ∅) _ _ _ _ _ rates_response [] _ _
              eq_refl eq_refl eq_refl eq_refl eq_refl eq_refl eq_refl)
    as (lines & action & Hlen & Hshow & Hact & Hrun).
  exists lines, action. rewrite Hrun. auto.
Defined.

(** X6: an answer without rates.  When the request of
    [bobgo_rate_shipment] is answered without an error status by a JSON
    object that has no ["rates"], or an empty array, string or object
    there, the method raises the user error for missing rates; the request
    was sent and no wizard is created. *)
Theorem bobgo_rate_shipment_no_rates (py : builtins) (order : sale_order) (e : env)
    (collection delivery item : pyvalue) (items : list pyvalue) (dv : float)
    (r : response) (rest : list (result response)) (d : list (string * pyvalue)) :
  _prepare_collection_address order = Ok collection ->
  _prepare_delivery_address order = Ok delivery ->
  _prepare_order_items py order = Ok (item :: items, dv) ->
  pending (env_net e) = Ok r :: rest ->
  status_ok r = true ->
  json_body r = Some (PDict d) ->
  no_rates d = true ->
  bobgo_rate_shipment py order e
  = (Raise (UserError "No shipping rates available for the given addresses. Please check the addresses or try again later."),
     set_net e
       {| pending := rest;
          sent := (sent (env_net e)
                   ++ [rate_request (env_self e)
                         (rate_payload (env_self e) collection delivery
                            (item :: items) dv)])%list |}).
Proof.
  intros Hc Hd Hi Hpend Hstatus Hjson Hnone.
  rewrite (bobgo_rate_shipment_prepared py order e _ _ _ _ _ Hc Hd Hi).
  rewrite (request_rates_answered py order _ _ e r rest d Hpend Hstatus Hjson).
  unfold after_request. rewrite Hpend. simpl List.tl.
  unfold try_except, mbind at 1, lift at 1.
  rewrite (dict_get_default d "rates" (PList []) PNone).
  unfold no_rates in Hnone. rewrite (dict_get_default d "rates" PNone PNone) in Hnone |- *.
  destruct (dict_mem d "rates"); [|reflexivity].
  simpl in Hnone.
  destruct (dict_get d "rates" PNone) as [| | | |[|c s]|[|x l]|[|kv l]];
    try discriminate; reflexivity.
Qed.

Lemma bobgo_rate_shipment_no_rates_witness :
  fst (bobgo_rate_shipment sample_runtime sample_order (sample_env [Ok empty_rates_response] ∅))
  = Raise (UserError "No shipping rates available for the given addresses. Please check the addresses or try again later.").
Proof.
  rewrite (bobgo_rate_shipment_no_rates sample_runtime sample_order
             (sample_env [Ok empty_rates_response] ∅) _ _ _ _ _ empty_rates_response [] _
             eq_refl eq_refl eq_refl eq_refl eq_refl eq_refl eq_refl).
  reflexivity.
Defined.

(** X7: rates that are [null].  When the answer is a JSON object whose
    ["rates"] is [null], a boolean or a number, [bobgo_rate_shipment] does
    not raise a user error: taking the length of the rates raises
    [TypeError], which no [except] clause of the method catches. *)
Theorem bobgo_rate_shipment_scalar_rates (py : builtins) (order : sale_order) (e : env)
    (collection delivery item : pyvalue) (items : list pyvalue) (dv : float)
    (r : response) (rest : list (result response)) (d : list (string * pyvalue)) :
  _prepare_collection_address order = Ok collection ->
  _prepare_delivery_address order = Ok delivery ->
  _prepare_order_items py order = Ok (item :: items, dv) ->
  pending (env_net e) = Ok r :: rest ->
  status_ok r = true ->
  json_body r = Some (PDict d) ->
  scalar_rates d = true ->
  exists msg,
    fst (bobgo_rate_shipment py order e) = Raise (TypeError msg)
    /\ py_len (dict_get d "rates" (PList [])) = Raise (TypeError msg)
    /\ env_wizards (snd (bobgo_rate_shipment py order e)) = env_wizards e.
Proof.
  intros Hc Hd Hi Hpend Hstatus Hjson Hscalar.
  rewrite (bobgo_rate_shipment_prepared py order e _ _ _ _ _ Hc Hd Hi).
  rewrite (request_rates_answered py order _ _ e r rest d Hpend Hstatus Hjson).
  unfold try_except, mbind at 1, lift at 1.
  rewrite (dict_get_default d "rates" (PList []) PNone).
  unfold scalar_rates in Hscalar.
  destruct (dict_mem d "rates"); [|discriminate]. simpl in Hscalar.
  destruct (dict_get d "rates" PNone); try discriminate; simpl; eauto.
Qed.

Lemma bobgo_rate_shipment_scalar_rates_witness :
  exists msg,
    fst (bobgo_rate_shipment sample_runtime sample_order
           (sample_env [Ok null_rates_response] ∅))
    = Raise (TypeError msg)
    /\ py_len (PNone) = Raise (TypeError msg)
    /\ env_wizards (snd (bobgo_rate_shipment sample_runtime sample_order
                           (sample_env [Ok null_rates_response] ∅))) = [].
Proof.
  exact (bobgo_rate_shipment_scalar_rates sample_runtime sample_order
           (sample_env [Ok null_rates_response] ∅) _ _ _ _ _ null_rates_response [] _
           eq_refl eq_refl eq_refl eq_refl eq_refl eq_refl eq_refl).
Defined.

(** ** The entry point for rates *)

Lemma set_self_same (e : env) : set_self e (env_self e) = e.
Proof. now destruct e. Qed.

(** [bobgo_rate_shipment] leaves the carrier as it is. *)
Lemma bobgo_rate_shipment_self (py : builtins) (order : sale_order) (e : env) :
  env_self (snd (bobgo_rate_shipment py order e)) = env_self e.
Proof.
  unfold bobgo_rate_shipment.
  destruct (order_line order) as [|l ls]; [reflexivity|].
  destruct (_prepare_collection_address order) as [collection|x]; [|reflexivity].
  destruct (_prepare_delivery_address order) as [delivery|x]; [|reflexivity].
  destruct (_prepare_order_items py order) as [[[|item items] dv]|x]; try reflexivity.
  set (payload := rate_payload _ _ _ _ _).
  destruct (request_rates_outcome py order (env_self e) payload e)
    as [[x ->]|(r & d & rs & lines & action & _ & _ & _ & _ & _ & _ & _ & _ & ->)];
    reflexivity.
Qed.

(** X8: [rate_shipment] of a Bobgo carrier raises nothing but user
    errors, whatever the cache helper does; with an API key that is not
    configured it raises the user error of the configuration check, before
    the cache is read or a request is sent: nothing changes. *)
Theorem rate_shipment_user_errors (py : builtins) (cache : cache_helper)
    (super : sale_order -> M pyvalue) (order : sale_order) (e : env) :
  delivery_type (env_self e) = "bobgo" ->
  (forall x, fst (rate_shipment py cache super order e) = Raise x -> is_UserError x = true)
  /\ (api_key_empty (env_self e) = true ->
      rate_shipment py cache super order e
      = (Raise (UserError "Bobgo API Key is not configured. Please set it in the delivery method configuration."),
         e)).
Proof.
  intros Htype. unfold rate_shipment. rewrite Htype. simpl. split.
  - intros x. unfold try_except.
    destruct (mbind validate_configuration _ e) as [[v|y] e1]; [discriminate|].
    destruct (is_UserError y) eqn:Hy; simpl; [|discriminate].
    intros H; injection H as <-. exact Hy.
  - intros Hempty. unfold try_except, mbind.
    rewrite validate_configuration_run, bobgo_validate_configuration_result, Hempty.
    rewrite validated_cases.
    assert (Hre : api_key_rewritten (env_self e) = false).
    { unfold api_key_rewritten, api_key_empty in *.
      destruct (bobgo_api_key (env_self e)) as [key|]; [|reflexivity].
      apply String.eqb_eq in Hempty as ->. reflexivity. }
    rewrite Hre. simpl. now rewrite set_self_same.
Qed.

Lemma rate_shipment_user_errors_witness :
  rate_shipment sample_runtime timed_cache (fun _ => ret PNone) sample_order
    (set_self timeout_env (set_api_key bearer_carrier None))
  = (Raise (UserError "Bobgo API Key is not configured. Please set it in the delivery method configuration."),
     set_self timeout_env (set_api_key bearer_carrier None)).
Proof.
  apply (rate_shipment_user_errors sample_runtime timed_cache (fun _ => ret PNone)
           sample_order (set_self timeout_env (set_api_key bearer_carrier None)) eq_refl).
  reflexivity.
Defined.

(** The helper of the examples keeps what it is given. *)
Lemma timed_cache_keeps_values : keeps_values timed_cache.
Proof.
  intros key v duration e e' later Hset Hstore Hclock.
  simpl in Hset. injection Hset as <-. simpl in Hstore. simpl.
  rewrite Hstore, lookup_insert_eq. simpl.
  destruct (Z.ltb_spec (env_clock later) (env_clock e + duration)); [reflexivity|lia].
Qed.

(** X9: two calls of [rate_shipment] in a row, for a cache helper that
    keeps what it is given.  When the first call of a Bobgo carrier whose
    configuration check passes gets nothing from the cache,
    [bobgo_rate_shipment] returns a response and [set] takes it, the first
    call returns that response; and a later call for the same order, made
    with the carrier as the configuration check left it and the store as
    [set] left it, less than 300 seconds after the response was stored,
    returns the same response and changes nothing: no request is sent and
    no wizard is created. *)
Theorem rate_shipment_twice (py : builtins) (cache : cache_helper)
    (super : sale_order -> M pyvalue) (order : sale_order) (e e2 e3 e4 later : env)
    (v resp : pyvalue) :
  keeps_values cache ->
  delivery_type (env_self e) = "bobgo" ->
  configured (env_self e) = true ->
  cache_get cache (cache_key order (env_self e)) (set_self e (validated (env_self e)))
  = (Ok v, e2) ->
  truthy v = false ->
  bobgo_rate_shipment py order e2 = (Ok resp, e3) ->
  cache_set cache (cache_key order (env_self e)) resp 300 e3 = (Ok tt, e4) ->
  env_self later = validated (env_self e) ->
  env_cache later = env_cache e4 ->
  env_clock e3 <= env_clock later < env_clock e3 + 300 ->
  rate_shipment py cache super order e = (Ok resp, e4)
  /\ rate_shipment py cache super order later = (Ok resp, later).
Proof.
  intros Hkeeps Htype Hconf Hget Hv Hresp Hset Hself Hstore Hclock.
  pose proof (returns_truthy_bobgo_rate_shipment py order e2 resp e3 Hresp) as Htrue.
  destruct (validate_configuration_ok e Hconf) as [Hval Hid].
  assert (Hrun : forall e0,
            validate_configuration e0 = (Ok true, set_self e0 (validated (env_self e0))) ->
            delivery_type (env_self e0) = "bobgo" ->
            rate_shipment py cache super order e0
            = try_except
                (fun e1 =>
                   (do cached_rates <- cache_get cache (cache_key order (env_self e1));
                    if truthy cached_rates then ret cached_rates
                    else
                      do resp <- bobgo_rate_shipment py order;
                      do _ <- cache_set cache (cache_key order (env_self e1)) resp
                                BOBGO_CACHE_DURATION;
                      ret resp) e1)
                (fun x => if is_UserError x then raise x else ret unexpected_error)
                (set_self e0 (validated (env_self e0)))).
  { intros e0 Hval0 Htype0. unfold rate_shipment. rewrite Htype0. simpl negb. cbv iota.
    unfold try_except, mbind at 1. now rewrite Hval0. }
  assert (Hkey : cache_key order (validated (env_self e)) = cache_key order (env_self e)).
  { unfold cache_key. now rewrite Hid. }
  split.
  - rewrite (Hrun e Hval Htype). unfold try_except, mbind at 1. simpl env_self.
    rewrite Hkey, Hget, Hv. unfold mbind at 1. rewrite Hresp.
    unfold mbind, BOBGO_CACHE_DURATION, ret. simpl env_self. now rewrite Hkey, Hset.
  - assert (Hconf' : configured (env_self later) = true).
    { unfold configured in *. apply andb_true_iff in Hconf as [Hempty _].
      now rewrite Hself, api_key_empty_validated, api_key_refused_validated, Hempty. }
    destruct (validate_configuration_ok later Hconf') as [Hval' _].
    assert (Hsame : set_self later (validated (env_self later)) = later).
    { rewrite Hself, validated_idem, <- Hself. apply set_self_same. }
    rewrite Hsame in Hval'.
    assert (Htype' : delivery_type (env_self later) = "bobgo").
    { rewrite Hself. destruct (validated_fields (env_self e)) as (_ & _ & -> & _).
      exact Htype. }
    rewrite (Hrun later); [|now rewrite Hsame|exact Htype']. rewrite Hsame.
    unfold try_except, mbind. rewrite Hself, Hkey.
    rewrite (Hkeeps _ _ _ _ _ later Hset Hstore Hclock). now rewrite Htrue.
Qed.

Lemma rate_shipment_twice_witness :
  (fun first =>
     fst first = fst (bobgo_rate_shipment sample_runtime sample_order
                        (sample_env [Ok rates_response] ∅))
     /\ rate_shipment sample_runtime timed_cache (fun _ => ret PNone) sample_order (snd first)
        = (fst first, snd first))
    (rate_shipment sample_runtime timed_cache (fun _ => ret PNone) sample_order
       (sample_env [Ok rates_response] ∅)).
Proof.
  pose (e := sample_env [Ok rates_response] ∅).
  pose (run := bobgo_rate_shipment sample_runtime sample_order e).
  pose (resp := PDict [("type", PStr "ir.actions.act_window");
                       ("name", PStr "Choose a Shipping Rate");
                       ("res_model", PStr "choose.bobgo.rate");
                       ("view_mode", PStr "form");
                       ("res_id", PInt 1);
                       ("target", PStr "new");
                       ("context", PDict [])]).
  pose (e4 := snd (cache_set timed_cache (cache_key sample_order bearer_carrier) resp 300
                     (snd run))).
  destruct (rate_shipment_twice sample_runtime timed_cache (fun _ => ret PNone) sample_order
              e e (snd run) e4 e4 PNone resp timed_cache_keeps_values eq_refl eq_refl)
    as [Hfirst Hsecond];
    try (vm_compute; reflexivity).
  - assert (Hc3 : env_clock (snd run) = 1000) by (vm_compute; reflexivity).
    assert (Hc4 : env_clock e4 = 1000) by (vm_compute; reflexivity).
    rewrite Hc3, Hc4. lia.
  - fold e. rewrite Hfirst. simpl fst. simpl snd. split; [|exact Hsecond].
    vm_compute. reflexivity.
Defined.

(** ** The items of an order *)

Lemma order_item_stands_for (py : builtins) (line : sale_order_line) (p : product)
    (item : pyvalue) (price quantity : float) :
  product_id line = Some p -> is_delivery line = false ->
  order_item py line p = Ok (item, price, quantity) ->
  stands_for line item /\ price = counted_price line /\ quantity = counted_quantity line.
Proof.
  intros Hp Hd. unfold order_item. rewrite !safe_float_of_float. simpl.
  fold (counted_price line). fold (counted_quantity line).
  destruct (int_of_float (counted_quantity line)) as [q|x] eqn:Hq; simpl; [|discriminate].
  intros H; injection H as <- <- <-.
  split; [|auto]. exists p. eexists. exists q. repeat split; auto.
Qed.

Lemma order_items_loop_stands_for (py : builtins) (lines : list sale_order_line) :
  Forall (fun l => is_delivery l = false /\ is_Some (product_id l)) lines ->
  forall items dv items' dv',
    order_items_loop py lines items dv = Ok (items', dv') ->
    exists added,
      items' = (items ++ added)%list
      /\ Forall2 stands_for lines added
      /\ dv' = fold_left (fun acc line =>
                            SFadd PREC EMAX acc
                              (SFmul PREC EMAX (counted_price line) (counted_quantity line)))
                 lines dv.
Proof.
  induction 1 as [|line rest [Hd [p Hp]] _ IH]; intros items dv items' dv' Hrun;
    simpl in Hrun.
  - injection Hrun as <- <-. exists []. rewrite app_nil_r. repeat split. constructor.
  - rewrite Hp in Hrun.
    destruct (order_item py line p) as [[[item price] quantity]|x] eqn:Hitem;
      simpl in Hrun; [|discriminate].
    destruct (order_item_stands_for py line p item price quantity Hp Hd Hitem)
      as (Hstands & -> & ->).
    destruct (IH _ _ _ _ Hrun) as (added & -> & Hall & ->).
    exists (item :: added). rewrite <- app_assoc. repeat split. now constructor.
Qed.

Lemma shippable_lines_kept (order : sale_order) :
  Forall (fun l => is_delivery l = false /\ is_Some (product_id l)) (shippable_lines order).
Proof.
  unfold shippable_lines. induction (order_line order) as [|l ls IH]; simpl; [constructor|].
  destruct (is_delivery l) eqn:Hd; simpl; [assumption|].
  case_bool_decide as Hp; simpl; [|assumption].
  constructor; auto.
Qed.

(** X10: the items of [_prepare_order_items] are the lines of the order
    that have a product and are no delivery lines, one item per line and
    in the order of the lines; each item has the name of the product cut
    to 100 characters, the price of the line (0.0 for a price of zero or
    less) and the quantity cut to an integer, at least 1; the declared
    value is the sum of price times quantity over these lines, where the
    quantity is the one of the line (1.0 for a quantity of zero or less),
    not the integer sent with the item. *)
Theorem prepare_order_items_lines_spec (py : builtins) (order : sale_order)
    (items : list pyvalue) (dv : float) :
  _prepare_order_items py order = Ok (items, dv) ->
  Forall2 stands_for (shippable_lines order) items
  /\ List.length items = List.length (shippable_lines order)
  /\ dv = declared_value_of (shippable_lines order).
Proof.
  intros Hrun. unfold _prepare_order_items in Hrun. fold (shippable_lines order) in Hrun.
  destruct (order_items_loop_stands_for py _ (shippable_lines_kept order) _ _ _ _ Hrun)
    as (added & -> & Hall & ->).
  simpl. repeat split; auto. symmetry. eapply Forall2_length. exact Hall.
Qed.

(** Two and a half kettles at 10.0: the item says 2, the declared value
    is 25.0. *)
Lemma prepare_order_items_lines_spec_witness :
  Forall2 stands_for [fractional_line]
    [PDict [("description", PStr "Kettle"); ("price", PFloat f_ten); ("quantity", PInt 2);
            ("length_cm", PFloat f_ten); ("width_cm", PFloat f_ten);
            ("height_cm", PFloat f_0_1); ("weight_kg", PFloat f_0_2)]]
  /\ List.length
       [PDict [("description", PStr "Kettle"); ("price", PFloat f_ten); ("quantity", PInt 2);
               ("length_cm", PFloat f_ten); ("width_cm", PFloat f_ten);
               ("height_cm", PFloat f_0_1); ("weight_kg", PFloat f_0_2)]] = 1%nat
  /\ S754_finite false 7036874417766400 (-48) = declared_value_of [fractional_line].
Proof.
  apply (prepare_order_items_lines_spec sample_runtime fractional_order).
  vm_compute. reflexivity.
Defined.

(** ** The payloads of a booking *)

Lemma float_or_truthy (x : float) (d : pyvalue) :
  truthy d = true -> truthy (float_or x d) = true.
Proof.
  unfold float_or, py_or. intros Hd. now destruct (truthy (PFloat x)) eqn:Hx.
Qed.

Lemma shipment_parcel_named (product : product) :
  if named product
  then exists parcel, shipment_parcel product = Ok parcel /\ parcel_ok parcel = true
  else shipment_parcel product = Raise (TypeError "'bool' object is not subscriptable").
Proof.
  unfold named, shipment_parcel. destruct (display_name product) as [name|].
  - rewrite bool_decide_eq_true_2 by eauto. eexists. split; [reflexivity|].
    unfold parcel_ok. simpl dict_get.
    rewrite !float_or_truthy by reflexivity. rewrite !andb_true_r.
    apply Nat.leb_le. unfold str_take. apply substring_length_le.
  - rewrite bool_decide_eq_false_2; [reflexivity|]. intros [x Hx]. discriminate.
Qed.

Lemma shipment_parcels_named (products : list product) :
  if forallb named products
  then exists parcels,
         map_result shipment_parcel products = Ok parcels
         /\ List.length parcels = List.length products
         /\ forallb parcel_ok parcels = true
  else map_result shipment_parcel products
       = Raise (TypeError "'bool' object is not subscriptable").
Proof.
  induction products as [|product rest IH]; simpl.
  - exists []. auto.
  - pose proof (shipment_parcel_named product) as Hp.
    destruct (named product); simpl.
    + destruct Hp as (parcel & -> & Hok). simpl.
      destruct (forallb named rest).
      * destruct IH as (parcels & -> & Hlen & Hall). simpl.
        exists (parcel :: parcels). simpl. rewrite Hok, Hall. auto.
      * now rewrite IH.
    + now rewrite Hp.
Qed.

Lemma picking_declared_value_truthy (py : builtins) (p : picking) :
  picking_declared_value py p = PInt 0 \/ truthy (picking_declared_value py p) = true.
Proof.
  unfold picking_declared_value, py_or.
  destruct (truthy _) eqn:Ht; auto.
Qed.

(** X11: [_prepare_shipment_rate_payload] case by case.  Without the
    partner of the warehouse it raises a user error, and so it does
    without the partner of the picking; when a moved product has no
    display name it raises [TypeError]; in every other case it returns.
    The payload returned always has parcels: one per move with a product,
    in a description of at most 100 characters, or the default parcel
    when no move has a product; no length, width, height or weight of a
    parcel is zero; the declared value is the integer 0 or a value that
    counts as true; the timeout is 10000. *)
Theorem prepare_shipment_rate_payload_cases (py : builtins) (p : picking) :
  match picking_warehouse_partner p, picking_partner p with
  | None, _ =>
      _prepare_shipment_rate_payload py p
      = Raise (UserError "No warehouse partner configured for this picking.")
  | Some _, None =>
      _prepare_shipment_rate_payload py p
      = Raise (UserError "No delivery partner configured for this picking.")
  | Some _, Some _ =>
      if forallb named (moved_products p) then
        exists payload parcels,
          _prepare_shipment_rate_payload py p = Ok payload
          /\ dict_get payload "parcels" PNone = PList parcels
          /\ List.length parcels = Nat.max 1 (List.length (moved_products p))
          /\ forallb parcel_ok parcels = true
          /\ (moved_products p = [] -> parcels = [default_parcel])
          /\ (dict_get payload "declared_value" PNone = PInt 0
              \/ truthy (dict_get payload "declared_value" PNone) = true)
          /\ dict_get payload "timeout" PNone = PInt 10000
      else
        _prepare_shipment_rate_payload py p
        = Raise (TypeError "'bool' object is not subscriptable")
  end.
Proof.
  unfold _prepare_shipment_rate_payload, moved_products.
  destruct (picking_warehouse_partner p) as [wp|]; [|reflexivity].
  destruct (picking_partner p) as [dp|]; [|reflexivity].
  pose proof (shipment_parcels_named (omap move_product (move_ids p))) as Hparcels.
  destruct (forallb named (omap move_product (move_ids p))); [|now rewrite Hparcels].
  destruct Hparcels as (parcels & -> & Hlen & Hall).
  change (bind (Ok parcels) ?k) with (k parcels). cbv beta.
  eexists. exists (match parcels with [] => [default_parcel] | _ => parcels end).
  split; [reflexivity|]. simpl dict_get.
  split; [reflexivity|]. rewrite <- Hlen.
  split; [destruct parcels; simpl; lia|].
  split; [destruct parcels; [reflexivity|assumption]|].
  split; [|split; [apply picking_declared_value_truthy|reflexivity]].
  intros Hnone. rewrite Hnone in Hlen. now destruct parcels.
Qed.

(** The parcels of the picking of the examples, whose product has a
    width of zero, and those of a picking without moves. *)
Example prepare_shipment_rate_payload_parcels :
  (fun r => match r with Ok d => dict_get d "parcels" PNone | Raise _ => PNone end)
    (_prepare_shipment_rate_payload sample_runtime sample_picking)
  = PList [PDict [("description", PStr "Kettle");
                  ("submitted_length_cm", PFloat f_ten);
                  ("submitted_width_cm", PInt 10);
                  ("submitted_height_cm", PFloat f_0_01);
                  ("submitted_weight_kg", PFloat f_0_2)]]
  /\ (fun r => match r with Ok d => dict_get d "parcels" PNone | Raise _ => PNone end)
       (_prepare_shipment_rate_payload sample_runtime
          {| picking_name := Some "WH/OUT/00008";
             picking_partner := Some sample_partner;
             picking_warehouse_partner := Some sample_partner;
             move_ids := [];
             carrier_tracking_ref := PBool false;
             bobgo_shipment_id := PBool false |})
     = PList [default_parcel].
Proof. split; vm_compute; reflexivity. Qed.

(** X12: the addresses and contacts of a booking.  In the payload that
    [_prepare_shipment_rate_payload] returns, the collection address
    carries the fields of the partner of the warehouse and the delivery
    address those of the partner of the picking, as the addresses of a
    rate request do; so for an order with the same partners they are the
    very addresses of [_prepare_collection_address] and
    [_prepare_delivery_address].  The contacts have the name, the e-mail
    address and the phone number of the two partners, where the mobile
    number is preferred to the phone number. *)
Theorem prepare_shipment_rate_payload_addresses (py : builtins) (p : picking)
    (payload : list (string * pyvalue)) :
  _prepare_shipment_rate_payload py p = Ok payload ->
  exists wp dp,
    picking_warehouse_partner p = Some wp /\ picking_partner p = Some dp
    /\ (forall order,
          warehouse_partner order = Some wp ->
          _prepare_collection_address order
          = Ok (dict_get payload "collection_address" PNone))
    /\ (forall order,
          partner_shipping_id order = Some dp ->
          _prepare_delivery_address order
          = Ok (dict_get payload "delivery_address" PNone))
    /\ dict_get payload "collection_contact_full_name" PNone
       = PStr (char_or (partner_name wp) "")
    /\ dict_get payload "collection_contact_mobile_number" PNone = PStr (contact_phone wp)
    /\ dict_get payload "collection_contact_email" PNone
       = PStr (char_or (partner_email wp) "")
    /\ dict_get payload "delivery_contact_full_name" PNone
       = PStr (char_or (partner_name dp) "")
    /\ dict_get payload "delivery_contact_mobile_number" PNone = PStr (contact_phone dp)
    /\ dict_get payload "delivery_contact_email" PNone
       = PStr (char_or (partner_email dp) "").
Proof.
  unfold _prepare_shipment_rate_payload.
  destruct (picking_warehouse_partner p) as [wp|]; [|discriminate].
  destruct (picking_partner p) as [dp|]; [|discriminate].
  destruct (map_result shipment_parcel _) as [parcels|x]; [|discriminate].
  intros H; injection H as <-.
  exists wp, dp. split; [reflexivity|]. split; [reflexivity|].
  split; [intros order Ho; unfold _prepare_collection_address; now rewrite Ho|].
  split; [intros order Ho; unfold _prepare_delivery_address; now rewrite Ho|].
  assert (Hphone : forall q : partner,
            match partner_mobile q with
            | Some m => if String.eqb m "" then char_or (partner_phone q) "" else m
            | None => char_or (partner_phone q) ""
            end = contact_phone q).
  { intros q. unfold contact_phone, char_or. destruct (partner_mobile q) as [m|]; auto. }
  simpl. rewrite !Hphone. auto 10.
Qed.

Lemma prepare_shipment_rate_payload_addresses_witness :
  exists wp dp,
    picking_warehouse_partner sample_picking = Some wp
    /\ picking_partner sample_picking = Some dp
    /\ (forall order,
          warehouse_partner order = Some wp ->
          _prepare_collection_address order
          = Ok (PDict [("company", PStr "Depot"); ("street_address", PStr "125 Dallas Avenue");
                       ("local_area", PStr ""); ("city", PStr "Pretoria");
                       ("zone", PStr "GP"); ("country", PStr "ZA"); ("code", PStr "0181")]))
    /\ (forall order,
          partner_shipping_id order = Some dp ->
          _prepare_delivery_address order
          = Ok (PDict [("company", PStr "Depot"); ("street_address", PStr "125 Dallas Avenue");
                       ("local_area", PStr ""); ("city", PStr "Pretoria");
                       ("zone", PStr "GP"); ("country", PStr "ZA"); ("code", PStr "0181")]))
    /\ PStr "Depot" = PStr (char_or (partner_name wp) "")
    /\ PStr "012 000 0000" = PStr (contact_phone wp)
    /\ PStr "" = PStr (char_or (partner_email wp) "")
    /\ PStr "Depot" = PStr (char_or (partner_name dp) "")
    /\ PStr "012 000 0000" = PStr (contact_phone dp)
    /\ PStr "" = PStr (char_or (partner_email dp) "").
Proof.
  exact (prepare_shipment_rate_payload_addresses sample_runtime sample_picking _ eq_refl).
Defined.

(** X13: the payload of a shipment repeats that of the rate request.
    [_prepare_shipment_payload] raises what [_prepare_shipment_rate_payload]
    raises; otherwise, for a rate that is an object, it returns a payload
    with the addresses, the contacts, the parcels and the declared value
    of the rate request (the names of the contacts under
    [collection_contact_name] and [delivery_contact_name]), the timeout
    20000, and the [service_level_code] and [provider_slug] of the rate,
    [None] when the rate has none; for a rate that is no object it raises
    [AttributeError]. *)
Theorem prepare_shipment_payload_spec (py : builtins) (p : picking) (rate : pyvalue) :
  match _prepare_shipment_rate_payload py p with
  | Raise x => _prepare_shipment_payload py p rate = Raise x
  | Ok rate_payload =>
      match rate with
      | PDict rd =>
          exists d,
            _prepare_shipment_payload py p rate = Ok (PDict d)
            /\ List.map fst d
               = (List.map fst shipment_keys
                  ++ ["timeout"; "service_level_code"; "provider_slug"])%list
            /\ Forall (fun kk => dict_get d (fst kk) PNone = dict_get rate_payload (snd kk) PNone)
                 shipment_keys
            /\ dict_get d "timeout" PNone = PInt 20000
            /\ dict_get rate_payload "timeout" PNone = PInt 10000
            /\ dict_get d "service_level_code" PNone = dict_get rd "service_level_code" PNone
            /\ dict_get d "provider_slug" PNone = dict_get rd "provider_slug" PNone
      | _ => exists msg, _prepare_shipment_payload py p rate = Raise (AttributeError msg)
      end
  end.
Proof.
  unfold _prepare_shipment_payload.
  destruct (_prepare_shipment_rate_payload py p) as [rp|x] eqn:Hrp; [|reflexivity].
  change (bind (Ok rp) ?k) with (k rp). cbv beta.
  destruct rate as [| | | | | |rd]; simpl; eauto.
  eexists. split; [reflexivity|]. split; [reflexivity|].
  split; [repeat constructor|]. split; [reflexivity|].
  split; [|auto].
  unfold _prepare_shipment_rate_payload in Hrp.
  destruct (picking_warehouse_partner p); [|discriminate].
  destruct (picking_partner p); [|discriminate].
  destruct (map_result shipment_parcel _); [|discriminate].
  injection Hrp as <-. reflexivity.
Qed.

(** ** The requests of bookings and cancellations *)

Section Sends.

Context (P : request -> Prop).

Lemma sends_ret {A} (n : nat) (a : A) : sends P n (ret a).
Proof. intros e. exists []. simpl. rewrite app_nil_r. repeat split; auto; lia. Qed.

Lemma sends_raise {A} (n : nat) (x : exn) : sends P n (@raise env A x).
Proof. intros e. exists []. simpl. rewrite app_nil_r. repeat split; auto; lia. Qed.

Lemma sends_lift {A} (n : nat) (r : result A) : sends P n (lift r).
Proof. intros e. exists []. simpl. rewrite app_nil_r. repeat split; auto; lia. Qed.

Lemma sends_write_picking (n : nat) (pid : Z) (p : picking) : sends P n (write_picking pid p).
Proof. intros e. exists []. simpl. rewrite app_nil_r. repeat split; auto; lia. Qed.

Lemma sends_mbind {A B} (n k : nat) (m : M A) (f : A -> M B) :
  sends P n m -> (forall a, sends P k (f a)) -> sends P (n + k) (mbind m f).
Proof.
  intros Hm Hf e. unfold mbind. destruct (Hm e) as (new & Hsent & Hall & Hlen & Hself).
  destruct (m e) as [[a|x] e1]; simpl in *.
  - destruct (Hf a e1) as (new' & Hsent' & Hall' & Hlen' & Hself').
    exists (new ++ new')%list. rewrite Hsent', Hsent, app_assoc, length_app, Hself', Hself.
    repeat split; auto; [apply Forall_app; auto|lia].
  - exists new. repeat split; auto. lia.
Qed.

Lemma sends_mbind_silent {A B} (n : nat) (m : M A) (f : A -> M B) :
  sends P 0 m -> (forall a, sends P n (f a)) -> sends P n (mbind m f).
Proof. intros Hm Hf. apply (sends_mbind 0 n); assumption. Qed.

Lemma sends_post (n : nat) (url : string) (headers : list (string * pyvalue))
    (json : pyvalue) :
  P {| req_url := url; req_headers := headers; req_json := json;
       req_timeout := BOBGO_API_TIMEOUT |} ->
  sends P (S n) (post url headers json).
Proof.
  intros Hp e. eexists. rewrite post_net. split; [reflexivity|].
  split; [repeat constructor; exact Hp|]. split; [simpl; lia|].
  unfold post, requests_post. destruct (pending (env_net e)); reflexivity.
Qed.

Lemma sends_mbind_post {B} (n : nat) (url : string) (headers : list (string * pyvalue))
    (json : pyvalue) (f : response -> M B) :
  P {| req_url := url; req_headers := headers; req_json := json;
       req_timeout := BOBGO_API_TIMEOUT |} ->
  (forall r, sends P n (f r)) -> sends P (S n) (mbind (post url headers json) f).
Proof. intros Hp Hf. apply (sends_mbind 1 n); [now apply sends_post|assumption]. Qed.

Lemma sends_try_except {A} (n : nat) (m : M A) (h : exn -> M A) :
  sends P n m -> (forall x, sends P 0 (h x)) -> sends P n (try_except m h).
Proof.
  intros Hm Hh e. unfold try_except. destruct (Hm e) as (new & Hsent & Hall & Hlen & Hself).
  destruct (m e) as [[a|x] e1]; simpl in *; [eauto 10|].
  destruct (Hh x e1) as (new' & Hsent' & Hall' & Hlen' & Hself').
  destruct new'; [|simpl in Hlen'; lia]. rewrite app_nil_r in Hsent'.
  exists new. rewrite Hsent', Hself'. auto.
Qed.

End Sends.

Ltac sends_steps :=
  repeat first
    [ apply sends_ret | apply sends_raise | apply sends_lift | apply sends_write_picking
    | apply sends_mbind_post; [|intros]
    | apply sends_mbind_silent; [|intros]
    | apply sends_try_except; [|intros]
    | match goal with |- sends _ _ (if ?b then _ else _) => destruct b end ].

Lemma api_urls (self : carrier) :
  urljoin (bobgo_get_api_base_url self) "/rates" = api_host self ++ "/rates"
  /\ urljoin (bobgo_get_api_base_url self) "/shipments" = api_host self ++ "/shipments"
  /\ urljoin (bobgo_get_api_base_url self) "/shipments/cancel"
     = api_host self ++ "/shipments/cancel"
  /\ urljoin (bobgo_get_api_base_url self) "/rates-at-checkout"
     = api_host self ++ "/rates-at-checkout".
Proof.
  unfold bobgo_get_api_base_url, api_host.
  destruct (bobgo_test_mode self); vm_compute; auto.
Qed.

Lemma validate_configuration_key (e e0 : env) (ok : bool) :
  validate_configuration e = (Ok ok, e0) -> api_key_empty (env_self e) = false.
Proof.
  unfold validate_configuration, bobgo_validate_configuration, api_key_empty.
  destruct (bobgo_api_key (env_self e)) as [key|]; [|discriminate].
  destruct (String.eqb key ""); [discriminate|reflexivity].
Qed.

(** The [try] block of [bobgo_send_shipping]: at most two requests, made
    by the carrier as the configuration check leaves it. *)
Lemma book_shipment_sends (py : builtins) (pid : Z) (p : picking) (e : env) :
  exists new,
    sent (env_net (snd (book_shipment py pid p e))) = (sent (env_net e) ++ new)%list
    /\ Forall (booking_request (validated (env_self e))) new
    /\ (List.length new <= 2)%nat
    /\ env_self (snd (book_shipment py pid p e)) = validated (env_self e)
    /\ (api_key_empty (env_self e) = true -> new = []).
Proof.
  remember (book_shipment py pid p e) as res eqn:Hres.
  unfold book_shipment, mbind at 1 in Hres.
  destruct (validate_configuration e) as [[ok|x] e0] eqn:Hval.
  - pose proof (validate_configuration_key _ _ _ Hval) as Hkey.
    apply validate_configuration_env in Hval as (Hnet & _ & _ & _ & _ & Hself).
    fold (validated (env_self e)) in Hself.
    cbv beta zeta in Hres.
    match type of Hres with
    | _ = ?body e0 => set (turn := body) in Hres
    end.
    assert (Hturn : sends (booking_request (env_self e0)) 2 turn).
    { subst turn. destruct (api_urls (env_self e0)) as (Hrates & Hship & _).
      rewrite Hrates, Hship.
      sends_steps; unfold booking_request; simpl; auto. }
    destruct (Hturn e0) as (new & Hsent & Hall & Hlen & Hself').
    exists new. subst res. rewrite Hsent, Hself', Hnet, <- Hself.
    repeat split; auto. congruence.
  - apply validate_configuration_env in Hval as (Hnet & _ & _ & _ & _ & Hself).
    fold (validated (env_self e)) in Hself.
    exists []. subst res. simpl. rewrite Hnet, app_nil_r, Hself. repeat split; auto.
Qed.

(** One turn of the loop of [bobgo_send_shipping]. *)
Lemma send_picking_sends (py : builtins) (pid : Z) (e : env) :
  exists new,
    sent (env_net (snd (send_picking py pid e))) = (sent (env_net e) ++ new)%list
    /\ Forall (booking_request (validated (env_self e))) new
    /\ (List.length new <= 2)%nat
    /\ validated (env_self (snd (send_picking py pid e))) = validated (env_self e)
    /\ (api_key_empty (env_self e) = true -> new = []).
Proof.
  unfold send_picking.
  destruct (env_pickings e !! pid) as [p|];
    [|exists []; simpl; rewrite app_nil_r; repeat split; auto].
  destruct (book_shipment_sends py pid p e) as (new & Hsent & Hall & Hlen & Hself & Hkey).
  exists new. unfold try_except.
  destruct (book_shipment py pid p e) as [[entry|x] e1]; simpl in *;
    rewrite Hself; auto using validated_idem.
Qed.

Lemma send_loop_sends (py : builtins) (pickings : list Z) :
  forall res e,
    exists new,
      sent (env_net (snd (send_loop py pickings res e))) = (sent (env_net e) ++ new)%list
      /\ Forall (booking_request (validated (env_self e))) new
      /\ (List.length new <= 2 * List.length pickings)%nat
      /\ (api_key_empty (env_self e) = true -> new = [])
      /\ validated (env_self (snd (send_loop py pickings res e))) = validated (env_self e).
Proof.
  induction pickings as [|pid rest IH]; intros res e; simpl send_loop.
  - exists []. simpl. rewrite app_nil_r. repeat split; auto.
  - unfold mbind.
    destruct (send_picking_sends py pid e) as (new & Hsent & Hall & Hlen & Hself & Hkey).
    destruct (send_picking py pid e) as [[entry|x] e1]; simpl in *.
    + destruct (IH (res ++ [entry])%list e1)
        as (new' & Hsent' & Hall' & Hlen' & Hkey' & Hself').
      exists (new ++ new')%list. rewrite Hsent', Hsent, app_assoc, length_app, Hself'.
      rewrite Hself in Hall'. repeat split; auto; [apply Forall_app; auto|lia|].
      intros Hempty. rewrite (Hkey Hempty). simpl. apply Hkey'.
      rewrite <- api_key_empty_validated, Hself, api_key_empty_validated. exact Hempty.
    + exists new. repeat split; auto. lia.
Qed.

(** X14: the requests of [bobgo_send_shipping].  A call sends at most
    two requests per picking.  Every request goes to [/rates] or to
    [/shipments] directly on the host of the API (the [/v2] of the base
    URL is not in the URL), with the timeout of the module and with the
    headers of the carrier as [bobgo_validate_configuration] leaves it:
    the key sent is the formatted one, from the first request on.  With an
    API key that is not configured nothing is sent. *)
Theorem bobgo_send_shipping_requests (py : builtins) (pickings : list Z) (e : env) :
  exists new,
    sent (env_net (snd (bobgo_send_shipping py pickings e))) = (sent (env_net e) ++ new)%list
    /\ Forall (booking_request (validated (env_self e))) new
    /\ Forall (fun rq => str_contains (req_url rq) "/v2" = false) new
    /\ (List.length new <= 2 * List.length pickings)%nat
    /\ (api_key_empty (env_self e) = true -> new = []).
Proof.
  destruct (send_loop_sends py pickings [] e) as (new & Hsent & Hall & Hlen & Hkey & _).
  exists new. repeat split; auto.
  eapply Forall_impl; [exact Hall|].
  intros rq ([Hurl|Hurl] & _); rewrite Hurl; unfold api_host;
    destruct (bobgo_test_mode _); vm_compute; reflexivity.
Qed.

(** The requests of the booking of the examples, made by a carrier whose
    key is stored without the prefix. *)
Example bobgo_send_shipping_requests_sample :
  List.map (fun rq => (req_url rq, dict_get (req_headers rq) "Authorization" PNone))
    (sent (env_net (snd (bobgo_send_shipping sample_runtime [1]
                           (set_self booking_env sample_carrier)))))
  = [("https://api.sandbox.bobgo.co.za/rates", PStr "Bearer abcdefghijklmnopqrstuvwxyz");
     ("https://api.sandbox.bobgo.co.za/shipments", PStr "Bearer abcdefghijklmnopqrstuvwxyz")].
Proof. vm_compute. reflexivity. Qed.

(** One turn of the loop of [bobgo_cancel_shipment]. *)
Lemma cancel_picking_sends (pid : Z) (e : env) :
  exists new,
    sent (env_net (snd (cancel_picking pid e))) = (sent (env_net e) ++ new)%list
    /\ Forall (cancel_request (env_self e)) new
    /\ (List.length new <= 1)%nat
    /\ env_self (snd (cancel_picking pid e)) = env_self e.
Proof.
  unfold cancel_picking.
  destruct (env_pickings e !! pid) as [p|];
    [|exists []; simpl; rewrite app_nil_r; repeat split; auto].
  destruct (negb (truthy (carrier_tracking_ref p))) eqn:Href;
    [exists []; simpl; rewrite app_nil_r; repeat split; auto|].
  apply negb_false_iff in Href.
  match goal with
  | |- context [sent (env_net (snd (?body e)))] =>
      assert (Hbody : sends (cancel_request (env_self e)) 1 body)
  end.
  { destruct (api_urls (env_self e)) as (_ & _ & Hcancel & _). rewrite Hcancel.
    cbv zeta. sends_steps. unfold cancel_request. simpl. eauto 10. }
  exact (Hbody e).
Qed.

Lemma cancel_loop_sends (pickings : list Z) :
  forall successful failed e,
    exists new,
      sent (env_net (snd (cancel_loop pickings successful failed e)))
      = (sent (env_net e) ++ new)%list
      /\ Forall (cancel_request (env_self e)) new
      /\ (List.length new <= List.length pickings)%nat
      /\ env_self (snd (cancel_loop pickings successful failed e)) = env_self e.
Proof.
  induction pickings as [|pid rest IH]; intros successful failed e; simpl cancel_loop.
  - exists []. simpl. rewrite app_nil_r. repeat split; auto.
  - unfold mbind.
    destruct (cancel_picking_sends pid e) as (new & Hsent & Hall & Hlen & Hself).
    destruct (cancel_picking pid e) as [[ok|x] e1]; simpl in *.
    + set (name := match env_pickings e !! pid with
                   | Some p => of_char (picking_name p)
                   | None => PNone
                   end).
      assert (Hrest : forall s f,
                exists new',
                  sent (env_net (snd (cancel_loop rest s f e1)))
                  = (sent (env_net e) ++ new ++ new')%list
                  /\ Forall (cancel_request (env_self e)) (new ++ new')
                  /\ (List.length (new ++ new') <= S (List.length rest))%nat
                  /\ env_self (snd (cancel_loop rest s f e1)) = env_self e).
      { intros s f. destruct (IH s f e1) as (new' & Hsent' & Hall' & Hlen' & Hself').
        exists new'. rewrite Hsent', Hsent, app_assoc, length_app, Hself', Hself.
        rewrite Hself in Hall'. repeat split; auto; [apply Forall_app; auto|lia]. }
      destruct ok; [destruct (Hrest (successful ++ [name])%list failed) as (new' & H)
                   |destruct (Hrest successful (failed ++ [name])%list) as (new' & H)];
        exists (new ++ new')%list; exact H.
    + exists new. repeat split; auto. lia.
Qed.

(** X15: the requests of [bobgo_cancel_shipment].  A call sends at most
    one request per picking, each to [/shipments/cancel] directly on the
    host of the API, with the timeout of the module and a tracking
    reference that counts as true.  The carrier is not touched: no
    configuration check is made, and the key is sent as it is stored. *)
Theorem bobgo_cancel_shipment_requests (pickings : list Z) (e : env) :
  exists new,
    sent (env_net (snd (bobgo_cancel_shipment pickings e))) = (sent (env_net e) ++ new)%list
    /\ Forall (cancel_request (env_self e)) new
    /\ Forall (fun rq => str_contains (req_url rq) "/v2" = false) new
    /\ (List.length new <= List.length pickings)%nat
    /\ env_self (snd (bobgo_cancel_shipment pickings e)) = env_self e.
Proof.
  destruct (cancel_loop_sends pickings [] [] e) as (new & Hsent & Hall & Hlen & Hself).
  exists new. unfold bobgo_cancel_shipment, mbind.
  destruct (cancel_loop pickings [] [] e) as [[lists|x] e1]; simpl in *;
    (repeat split; auto;
     eapply Forall_impl; [exact Hall|];
     intros rq (Hurl & _); rewrite Hurl; unfold api_host;
     destruct (bobgo_test_mode _); vm_compute; reflexivity).
Qed.

(** The request of a cancellation made by a carrier whose key is stored
    without the prefix: the key is sent as it is. *)
Example bobgo_cancel_shipment_requests_sample :
  List.map (fun rq => (req_url rq, dict_get (req_headers rq) "Authorization" PNone,
                       req_json rq))
    (sent (env_net (snd (bobgo_cancel_shipment [1] (set_self cancel_env sample_carrier)))))
  = [("https://api.sandbox.bobgo.co.za/shipments/cancel",
      PStr "abcdefghijklmnopqrstuvwxyz",
      PDict [("tracking_reference", PStr "BG123")])].
Proof. vm_compute. reflexivity. Qed.

(** ** What bookings and cancellations write *)

Section Changes.

Context (R : env -> env -> Prop).
Hypothesis R_refl : forall e, R e e.
Hypothesis R_trans : forall a b c, R a b -> R b c -> R a c.

Lemma changes_ret {A} (a : A) : changes R (ret a).
Proof. intros e. apply R_refl. Qed.

Lemma changes_raise {A} (x : exn) : changes R (@raise env A x).
Proof. intros e. apply R_refl. Qed.

Lemma changes_lift {A} (r : result A) : changes R (lift r).
Proof. intros e. apply R_refl. Qed.

Lemma changes_mbind {A B} (m : M A) (f : A -> M B) :
  changes R m -> (forall a, changes R (f a)) -> changes R (mbind m f).
Proof.
  intros Hm Hf e. unfold mbind. specialize (Hm e).
  destruct (m e) as [[a|x] e1]; simpl in *; [|assumption].
  eapply R_trans; [exact Hm|apply Hf].
Qed.

Lemma changes_try_except {A} (m : M A) (h : exn -> M A) :
  changes R m -> (forall x, changes R (h x)) -> changes R (try_except m h).
Proof.
  intros Hm Hh e. unfold try_except. specialize (Hm e).
  destruct (m e) as [[a|x] e1]; simpl in *; [assumption|].
  eapply R_trans; [exact Hm|apply Hh].
Qed.

End Changes.

Lemma written_refl (pid : Z) (p : picking) (e : env) : written pid p e e.
Proof. now left. Qed.

Lemma same_but_shipment_trans (p p' p'' : picking) :
  same_but_shipment p p' -> same_but_shipment p' p'' -> same_but_shipment p p''.
Proof. unfold same_but_shipment. intuition congruence. Qed.

Lemma same_but_shipment_write (p : picking) (sid ref : pyvalue) :
  same_but_shipment p (write_shipment p sid ref).
Proof. repeat split. Qed.

Lemma written_trans (pid : Z) (p : picking) (a b c : env) :
  written pid p a b -> written pid p b c -> written pid p a c.
Proof.
  intros [Hab|(p1 & Hab & H1)] [Hbc|(p2 & Hbc & H2)]; unfold written; rewrite Hbc, Hab.
  - now left.
  - right. eauto.
  - right. eauto.
  - right. exists p2. split; [apply insert_insert_eq|assumption].
Qed.

Lemma changes_post (pid : Z) (p : picking) (url : string)
    (headers : list (string * pyvalue)) (json : pyvalue) :
  changes (written pid p) (post url headers json).
Proof.
  intros e. unfold post, requests_post. destruct (pending (env_net e)); now left.
Qed.

Lemma changes_write (pid : Z) (p : picking) (sid ref : pyvalue) :
  changes (written pid p) (write_picking pid (write_shipment p sid ref)).
Proof. intros e. right. simpl. eauto using same_but_shipment_write. Qed.

Ltac changes_steps :=
  repeat first
    [ apply changes_ret; apply written_refl
    | apply changes_raise; apply written_refl
    | apply changes_lift; apply written_refl
    | apply changes_post | apply changes_write
    | apply changes_mbind; [apply written_trans| |intros]
    | apply changes_try_except; [apply written_trans| |intros]
    | match goal with |- changes _ (if ?b then _ else _) => destruct b end ].

Lemma shipment_fields_only_refl (pids : list Z) (t : gmap Z picking) :
  shipment_fields_only pids t t.
Proof. intros q. now left. Qed.

Lemma shipment_fields_only_trans (pids : list Z) (t1 t2 t3 : gmap Z picking) :
  shipment_fields_only pids t1 t2 -> shipment_fields_only pids t2 t3 ->
  shipment_fields_only pids t1 t3.
Proof.
  intros H12 H23 q.
  destruct (H12 q) as [E12|(Hq & p & p1 & Hp & E12 & S12)],
           (H23 q) as [E23|(Hq' & p' & p2 & Hp' & E23 & S23)].
  - left. congruence.
  - right. split; [assumption|]. exists p', p2.
    split; [congruence|split; [congruence|assumption]].
  - right. split; [assumption|]. exists p, p1.
    split; [congruence|split; [congruence|assumption]].
  - right. split; [assumption|]. exists p, p2.
    split; [assumption|split; [assumption|]].
    rewrite E12 in Hp'. injection Hp' as <-. eauto using same_but_shipment_trans.
Qed.

Lemma shipment_fields_only_more (pids pids' : list Z) (t t' : gmap Z picking) :
  (forall q, q ∈ pids -> q ∈ pids') ->
  shipment_fields_only pids t t' -> shipment_fields_only pids' t t'.
Proof.
  intros Hsub H q. destruct (H q) as [E|(Hq & Hw)]; [now left|right; auto].
Qed.

Lemma written_fields (pid : Z) (p : picking) (e e' : env) :
  env_pickings e !! pid = Some p -> written pid p e e' ->
  shipment_fields_only [pid] (env_pickings e) (env_pickings e').
Proof.
  intros Hp [->|(p' & -> & Hsame)] q; [now left|].
  destruct (decide (q = pid)) as [->|Hne].
  - right. split; [constructor|]. exists p, p'.
    split; [assumption|split; [apply lookup_insert_eq|assumption]].
  - left. now apply lookup_insert_ne.
Qed.

Lemma book_shipment_written (py : builtins) (pid : Z) (p : picking) (e : env) :
  written pid p e (snd (book_shipment py pid p e)).
Proof.
  remember (book_shipment py pid p e) as res eqn:Hres.
  unfold book_shipment, mbind at 1 in Hres.
  destruct (validate_configuration e) as [[ok|x] e0] eqn:Hval;
    apply validate_configuration_env in Hval as (_ & Hpick & _);
    [|subst res; left; exact Hpick].
  cbv beta zeta in Hres.
  match type of Hres with
  | _ = ?body e0 => set (turn := body) in Hres
  end.
  assert (Hturn : changes (written pid p) turn).
  { subst turn. changes_steps. }
  subst res. specialize (Hturn e0).
  destruct Hturn as [Ht|(p' & Ht & Hsame)]; unfold written; rewrite Ht, Hpick; eauto.
Qed.

Lemma send_picking_written (py : builtins) (pid : Z) (e : env) :
  shipment_fields_only [pid] (env_pickings e) (env_pickings (snd (send_picking py pid e))).
Proof.
  unfold send_picking.
  destruct (env_pickings e !! pid) as [p|] eqn:Hp; [|apply shipment_fields_only_refl].
  apply (written_fields pid p); [assumption|].
  pose proof (book_shipment_written py pid p e) as Hbook.
  unfold try_except. destruct (book_shipment py pid p e) as [[entry|x] e1]; simpl in *;
    assumption.
Qed.

Lemma send_loop_written (py : builtins) (pickings : list Z) :
  forall res e,
    shipment_fields_only pickings (env_pickings e)
      (env_pickings (snd (send_loop py pickings res e))).
Proof.
  induction pickings as [|pid rest IH]; intros res e; simpl send_loop.
  - apply shipment_fields_only_refl.
  - unfold mbind. pose proof (send_picking_written py pid e) as Hturn.
    apply (shipment_fields_only_more [pid] (pid :: rest)) in Hturn;
      [|intros q Hq; apply list_elem_of_singleton in Hq as ->; constructor].
    destruct (send_picking py pid e) as [[entry|x] e1]; simpl in *; [|assumption].
    eapply shipment_fields_only_trans; [exact Hturn|].
    eapply shipment_fields_only_more; [|apply IH]. intros q Hq. now constructor.
Qed.

Lemma cancel_picking_written (pid : Z) (e : env) :
  shipment_fields_only [pid] (env_pickings e) (env_pickings (snd (cancel_picking pid e))).
Proof.
  unfold cancel_picking.
  destruct (env_pickings e !! pid) as [p|] eqn:Hp; [|apply shipment_fields_only_refl].
  destruct (negb (truthy (carrier_tracking_ref p))); [apply shipment_fields_only_refl|].
  apply (written_fields pid p); [assumption|].
  match goal with
  | |- written pid p e (snd (?body e)) => assert (Hbody : changes (written pid p) body)
  end.
  { cbv zeta. changes_steps. }
  exact (Hbody e).
Qed.

Lemma cancel_loop_written (pickings : list Z) :
  forall successful failed e,
    shipment_fields_only pickings (env_pickings e)
      (env_pickings (snd (cancel_loop pickings successful failed e))).
Proof.
  induction pickings as [|pid rest IH]; intros successful failed e; simpl cancel_loop.
  - apply shipment_fields_only_refl.
  - unfold mbind. pose proof (cancel_picking_written pid e) as Hturn.
    apply (shipment_fields_only_more [pid] (pid :: rest)) in Hturn;
      [|intros q Hq; apply list_elem_of_singleton in Hq as ->; constructor].
    destruct (cancel_picking pid e) as [[ok|x] e1]; simpl in *; [|assumption].
    assert (Hrest : forall s f,
              shipment_fields_only (pid :: rest) (env_pickings e)
                (env_pickings (snd (cancel_loop rest s f e1)))).
    { intros s f. eapply shipment_fields_only_trans; [exact Hturn|].
      eapply shipment_fields_only_more; [|apply IH]. intros q Hq. now constructor. }
    destruct ok; apply Hrest.
Qed.

(** X16: what bookings and cancellations write.  After a call of
    [bobgo_send_shipping] or of [bobgo_cancel_shipment], whether it
    returns or raises, every picking of the table is as it was, or, when
    it is one of the pickings of the call, as it was but for its shipment
    id and its tracking reference; no record is added or removed. *)
Theorem shipping_writes_shipment_fields (py : builtins) (pickings : list Z) (e : env) :
  shipment_fields_only pickings (env_pickings e)
    (env_pickings (snd (bobgo_send_shipping py pickings e)))
  /\ shipment_fields_only pickings (env_pickings e)
       (env_pickings (snd (bobgo_cancel_shipment pickings e))).
Proof.
  split; [apply send_loop_written|].
  pose proof (cancel_loop_written pickings [] [] e) as H.
  unfold bobgo_cancel_shipment, mbind.
  destruct (cancel_loop pickings [] [] e) as [[lists|x] e1]; exact H.
Qed.

(** ** Successful cancellations *)

Lemma cancel_picking_true (pid : Z) (e e' : env) :
  cancel_picking pid e = (Ok true, e') <-> cancelled pid e e'.
Proof.
  unfold cancel_picking, cancelled. split.
  - destruct (env_pickings e !! pid) as [p|] eqn:Hp; [|discriminate].
    destruct (truthy (carrier_tracking_ref p)) eqn:Href; simpl; [|discriminate].
    destruct (api_urls (env_self e)) as (_ & _ & Hcancel & _). rewrite Hcancel.
    unfold try_except, mbind, post, requests_post.
    destruct (pending (env_net e)) as [|[r|x] rest] eqn:Hpend; simpl; try discriminate.
    destruct (Z.eqb_spec (status_code r) 200) as [Hs|Hs]; simpl; [|discriminate].
    intros H; injection H as <-. exists p, r, rest. auto.
  - intros (p & r & rest & Hp & Href & Hpend & Hs & ->).
    rewrite Hp, Href. simpl.
    destruct (api_urls (env_self e)) as (_ & _ & Hcancel & _). rewrite Hcancel.
    unfold try_except, mbind, post, requests_post. rewrite Hpend. simpl.
    rewrite Hs. reflexivity.
Qed.

Lemma cancel_loop_failed (pickings : list Z) :
  forall successful failed e lists e',
    cancel_loop pickings successful failed e = (Ok lists, e') ->
    (List.length failed <= List.length (snd lists))%nat.
Proof.
  induction pickings as [|pid rest IH]; intros successful failed e lists e' H;
    simpl in H.
  - injection H as <- _. simpl. lia.
  - unfold mbind in H.
    destruct (cancel_picking pid e) as [[[|]|x] e1]; [| |discriminate];
      apply IH in H; [assumption|].
    rewrite length_app in H. simpl in H. lia.
Qed.

(** A call in which no picking fails is a row of successful turns. *)
Lemma cancel_loop_cancellations (pickings : list Z) :
  forall successful failed e lists e',
    cancel_loop pickings successful failed e = (Ok lists, e') ->
    List.length (snd lists) = List.length failed ->
    cancellations pickings e e'.
Proof.
  induction pickings as [|pid rest IH]; intros successful failed e lists e' H Hlen;
    simpl in H.
  - injection H as _ <-. constructor.
  - unfold mbind in H.
    destruct (cancel_picking pid e) as [[[|]|x] e1] eqn:Hturn; [| |discriminate].
    + apply cancel_picking_true in Hturn. econstructor; eauto.
    + apply cancel_loop_failed in H. rewrite length_app in H. simpl in H. lia.
Qed.

Lemma cancellations_loop (pickings : list Z) (e e' : env) :
  cancellations pickings e e' ->
  forall successful failed,
    exists successful',
      cancel_loop pickings successful failed e = (Ok (successful', failed), e').
Proof.
  induction 1 as [e|pid rest e e1 e' Hturn _ IH]; intros successful failed; simpl.
  - unfold ret. eauto.
  - apply cancel_picking_true in Hturn. unfold mbind. rewrite Hturn. apply IH.
Qed.

(** After a row of successful turns: no picking was listed twice, every
    picking listed had a tracking reference and is cleared, the others
    are untouched, and the outcomes used up are responses with status
    200, one per picking. *)
Lemma cancellations_cleared (pickings : list Z) (e e' : env) :
  cancellations pickings e e' ->
  NoDup pickings
  /\ (forall pid, pid ∈ pickings ->
        exists p, env_pickings e !! pid = Some p
                  /\ truthy (carrier_tracking_ref p) = true
                  /\ env_pickings e' !! pid = Some (cleared p))
  /\ (forall q, q ∉ pickings -> env_pickings e' !! q = env_pickings e !! q)
  /\ exists answers,
       pending (env_net e) = (List.map Ok answers ++ pending (env_net e'))%list
       /\ List.length answers = List.length pickings
       /\ Forall (fun r => status_code r = 200) answers.
Proof.
  induction 1 as [e|pid rest e e1 e' Hturn _ IH].
  - split; [constructor|]. split; [intros pid Hpid; now apply elem_of_nil in Hpid|].
    split; [reflexivity|]. exists []. repeat split. constructor.
  - destruct IH as (Hnd & Hlisted & Hother & answers & Hpend & Hlen & Hall).
    destruct Hturn as (p & r & others & Hp & Href & Hpend1 & Hs & ->). simpl in *.
    assert (Hfresh : pid ∉ rest).
    { intros Hin. destruct (Hlisted pid Hin) as (p' & Hp' & Href' & _).
      rewrite lookup_insert_eq in Hp'. injection Hp' as <-. discriminate. }
    split; [constructor; assumption|]. split; [|split].
    + intros q Hq. apply elem_of_cons in Hq as [->|Hq].
      * exists p. repeat split; auto. rewrite Hother by assumption.
        apply lookup_insert_eq.
      * destruct (Hlisted q Hq) as (p' & Hp' & Href' & Hfinal).
        assert (q <> pid) by congruence.
        rewrite lookup_insert_ne in Hp' by congruence. eauto.
    + intros q Hq. apply not_elem_of_cons in Hq as [Hne Hq].
      rewrite Hother by assumption. now apply lookup_insert_ne.
    + exists (r :: answers). simpl. rewrite Hpend1, Hpend, Hlen.
      repeat split. now constructor.
Qed.

(** X17: what a [True] of [bobgo_cancel_shipment] means.  When the call
    returns [True], no picking was listed twice; every picking listed had
    a tracking reference that counts as true, and has [False] as its
    tracking reference and as its shipment id afterwards, the rest of it
    and the other pickings being untouched; and the call used up one
    outcome per picking, each a response with status 200. *)
Theorem bobgo_cancel_shipment_true (pickings : list Z) (e e' : env) :
  bobgo_cancel_shipment pickings e = (Ok true, e') ->
  NoDup pickings
  /\ (forall pid, pid ∈ pickings ->
        exists p, env_pickings e !! pid = Some p
                  /\ truthy (carrier_tracking_ref p) = true
                  /\ env_pickings e' !! pid = Some (cleared p))
  /\ (forall q, q ∉ pickings -> env_pickings e' !! q = env_pickings e !! q)
  /\ exists answers,
       pending (env_net e) = (List.map Ok answers ++ pending (env_net e'))%list
       /\ List.length answers = List.length pickings
       /\ Forall (fun r => status_code r = 200) answers.
Proof.
  unfold bobgo_cancel_shipment, mbind, ret.
  destruct (cancel_loop pickings [] [] e) as [[lists|x] e1] eqn:Hloop; [|discriminate].
  intros H. injection H as Hlen <-.
  apply cancellations_cleared.
  apply (cancel_loop_cancellations pickings [] [] e lists e1 Hloop).
  simpl. destruct (List.length (snd lists)); [reflexivity|discriminate].
Qed.

(** A picking listed twice: the second turn finds no tracking reference,
    and the call returns [False] although both requests would have been
    answered with status 200. *)
Example bobgo_cancel_shipment_twice :
  (fun run => (fst run, List.length (sent (env_net (snd run))),
               List.length (pending (env_net (snd run)))))
    (bobgo_cancel_shipment [1; 1]
       (sample_env [Ok response_200; Ok response_200] {[ 1 := tracked_picking ]}))
  = (Ok false, 1%nat, 1%nat).
Proof. vm_compute. reflexivity. Qed.

Lemma bobgo_cancel_shipment_true_witness :
  NoDup [1]
  /\ (forall pid, pid ∈ [1] ->
        exists p, env_pickings (sample_env [Ok response_200] {[ 1 := tracked_picking ]}) !! pid
                  = Some p
                  /\ truthy (carrier_tracking_ref p) = true
                  /\ env_pickings
                       (snd (bobgo_cancel_shipment [1]
                               (sample_env [Ok response_200] {[ 1 := tracked_picking ]})))
                     !! pid = Some (cleared p))
  /\ (forall q, q ∉ [1] ->
        env_pickings
          (snd (bobgo_cancel_shipment [1]
                  (sample_env [Ok response_200] {[ 1 := tracked_picking ]}))) !! q
        = env_pickings (sample_env [Ok response_200] {[ 1 := tracked_picking ]}) !! q)
  /\ exists answers,
       pending (env_net (sample_env [Ok response_200] {[ 1 := tracked_picking ]}))
       = (List.map Ok answers
          ++ pending (env_net
                        (snd (bobgo_cancel_shipment [1]
                                (sample_env [Ok response_200]
                                   {[ 1 := tracked_picking ]})))))%list
       /\ List.length answers = 1%nat
       /\ Forall (fun r => status_code r = 200) answers.
Proof.
  apply (bobgo_cancel_shipment_true [1]
           (sample_env [Ok response_200] {[ 1 := tracked_picking ]})).
  vm_compute. reflexivity.
Defined.

Lemma cancellations_total (pickings : list Z) :
  forall e answers rest,
    NoDup pickings ->
    (forall pid, pid ∈ pickings ->
       exists p, env_pickings e !! pid = Some p /\ truthy (carrier_tracking_ref p) = true) ->
    pending (env_net e) = (List.map Ok answers ++ rest)%list ->
    List.length answers = List.length pickings ->
    Forall (fun r => status_code r = 200) answers ->
    exists e', cancellations pickings e e' /\ pending (env_net e') = rest.
Proof.
  induction pickings as [|pid others IH]; intros e answers rest Hnd Hall Hpend Hlen Hok.
  - destruct answers; [|discriminate]. exists e. split; [constructor|assumption].
  - destruct answers as [|r answers]; [discriminate|].
    apply NoDup_cons in Hnd as [Hfresh Hnd].
    apply Forall_cons in Hok as [Hr Hok].
    destruct (Hall pid) as (p & Hp & Href); [constructor|].
    set (e1 := set_pickings
                 (set_net e {| pending := (List.map Ok answers ++ rest)%list;
                               sent := (sent (env_net e)
                                        ++ [cancellation_of (env_self e) p])%list |})
                 (<[pid := cleared p]> (env_pickings e))).
    destruct (IH e1 answers rest Hnd) as (e' & Hrun & Hrest); auto.
    + intros q Hq. destruct (Hall q) as (pq & Hpq & Hrefq); [now constructor|].
      exists pq. split; [|assumption]. simpl.
      rewrite lookup_insert_ne by congruence. assumption.
    + exists e'. split; [|assumption].
      econstructor; [|exact Hrun]. exists p, r, (List.map Ok answers ++ rest)%list. auto.
Qed.

(** X18: when [bobgo_cancel_shipment] returns [True].  For pickings
    that are listed once each and have a tracking reference that counts
    as true, when the coming outcomes are responses with status 200, one
    per picking, the call returns [True], uses up these outcomes, and
    leaves every picking listed without tracking reference and shipment
    id. *)
Theorem bobgo_cancel_shipment_all (pickings : list Z) (e : env)
    (answers : list response) (rest : list (result response)) :
  NoDup pickings ->
  (forall pid, pid ∈ pickings ->
     exists p, env_pickings e !! pid = Some p /\ truthy (carrier_tracking_ref p) = true) ->
  pending (env_net e) = (List.map Ok answers ++ rest)%list ->
  List.length answers = List.length pickings ->
  Forall (fun r => status_code r = 200) answers ->
  exists e',
    bobgo_cancel_shipment pickings e = (Ok true, e')
    /\ pending (env_net e') = rest
    /\ forall pid, pid ∈ pickings ->
         exists p, env_pickings e !! pid = Some p
                   /\ env_pickings e' !! pid = Some (cleared p).
Proof.
  intros Hnd Hall Hpend Hlen Hok.
  destruct (cancellations_total pickings e answers rest Hnd Hall Hpend Hlen Hok)
    as (e' & Hrun & Hrest).
  exists e'. split; [|split; [assumption|]].
  - destruct (cancellations_loop pickings e e' Hrun [] []) as [successful Hloop].
    unfold bobgo_cancel_shipment, mbind. now rewrite Hloop.
  - destruct (cancellations_cleared pickings e e' Hrun) as (_ & Hlisted & _).
    intros pid Hpid. destruct (Hlisted pid Hpid) as (p & Hp & _ & Hfinal). eauto.
Qed.

Lemma bobgo_cancel_shipment_all_witness :
  exists e',
    bobgo_cancel_shipment [1] (sample_env [Ok response_200] {[ 1 := tracked_picking ]})
    = (Ok true, e')
    /\ pending (env_net e') = []
    /\ forall pid, pid ∈ [1] ->
         exists p, env_pickings (sample_env [Ok response_200] {[ 1 := tracked_picking ]}) !! pid
                   = Some p
                   /\ env_pickings e' !! pid = Some (cleared p).
Proof.
  apply (bobgo_cancel_shipment_all [1]
           (sample_env [Ok response_200] {[ 1 := tracked_picking ]}) [response_200] []).
  - repeat constructor. intros H. now apply elem_of_nil in H.
  - intros pid Hpid. apply list_elem_of_singleton in Hpid as ->.
    exists tracked_picking. split; reflexivity.
  - reflexivity.
  - reflexivity.
  - repeat constructor.
Defined.

(** ** Tracking links *)

Lemma tracking_link_cases (py : builtins) (self : carrier) (p : picking) :
  bobgo_get_tracking_link py self p
  = if truthy (carrier_tracking_ref p)
    then PStr (tracking_site self ++ py_str py (carrier_tracking_ref p))
    else PBool false.
Proof.
  unfold bobgo_get_tracking_link, tracking_site.
  destruct (truthy (carrier_tracking_ref p)); [|reflexivity].
  now destruct (bobgo_test_mode self).
Qed.

(** After successful bookings of pickings listed once each, every picking
    has the tracking number of its entry as its tracking reference. *)
Lemma bookings_tracking (py : builtins) (pickings : list Z) (e e' : env)
    (res : list pyvalue) :
  bookings py pickings e res e' ->
  NoDup pickings ->
  Forall2 (fun pid entry =>
             exists p', env_pickings e' !! pid = Some p'
                        /\ carrier_tracking_ref p' = entry_tracking entry)
    pickings res.
Proof.
  induction 1 as [|pid rest e e1 e' entry res Hturn Hrest IH]; intros Hnd; [constructor|].
  apply NoDup_cons in Hnd as [Hfresh Hnd].
  constructor; [|auto].
  rewrite (bookings_other py rest pid e1 e' res Hrest Hfresh).
  destruct Hturn as (p & p' & r1 & r2 & rd & rate & others & sd & price & rq1 & rq2 & H).
  destruct H as (_ & _ & _ & _ & _ & _ & _ & _ & _ & _ & -> & -> & _ & Href & _).
  rewrite lookup_insert_eq. eexists. split; [reflexivity|]. now rewrite Href.
Qed.

(** X19: the tracking link after a booking.  After a call of
    [bobgo_send_shipping] that returns, for pickings listed once each,
    every picking has the tracking number of its entry as its tracking
    reference, and [bobgo_get_tracking_link] gives
    [https://sandbox.bobgo.co.za/tracking/] (in test mode, else
    [https://bobgo.co.za/tracking/]) followed by that number; it gives
    [False] when the number counts as false, as it does when the answer
    to the shipment request has no [tracking_reference]. *)
Theorem tracking_link_after_booking (py : builtins) (pickings : list Z) (e e' : env)
    (entries : list pyvalue) :
  bobgo_send_shipping py pickings e = (Ok entries, e') ->
  NoDup pickings ->
  Forall2 (fun pid entry =>
             exists p',
               env_pickings e' !! pid = Some p'
               /\ carrier_tracking_ref p' = entry_tracking entry
               /\ bobgo_get_tracking_link py (env_self e') p'
                  = if truthy (entry_tracking entry)
                    then PStr (tracking_site (env_self e)
                               ++ py_str py (entry_tracking entry))
                    else PBool false)
    pickings entries.
Proof.
  intros Hrun Hnd. unfold bobgo_send_shipping in Hrun.
  destruct (send_loop_trace py pickings [] e) as (ids & res & e0 & Hb & Hend).
  destruct Hend as [[<- Hok]|(pid & rest & x & e1 & _ & _ & Hraise)];
    [|rewrite Hraise in Hrun; discriminate].
  rewrite Hok in Hrun. injection Hrun as <- <-.
  destruct (send_loop_sends py pickings [] e) as (_ & _ & _ & _ & _ & Hself).
  rewrite Hok in Hself. simpl in Hself.
  assert (Hmode : bobgo_test_mode (env_self e0) = bobgo_test_mode (env_self e)).
  { destruct (validated_fields (env_self e0)) as (_ & _ & _ & <- & _).
    destruct (validated_fields (env_self e)) as (_ & _ & _ & <- & _).
    now rewrite Hself. }
  eapply Forall2_impl; [exact (bookings_tracking py pickings e e0 res Hb Hnd)|].
  intros pid entry (p' & Hp' & Href). exists p'. repeat split; auto.
  rewrite tracking_link_cases, Href. unfold tracking_site. now rewrite Hmode.
Qed.

Lemma tracking_link_after_booking_witness :
  Forall2 (fun pid entry =>
             exists p',
               env_pickings (snd (bobgo_send_shipping sample_runtime [1] booking_env)) !! pid
               = Some p'
               /\ carrier_tracking_ref p' = entry_tracking entry
               /\ bobgo_get_tracking_link sample_runtime
                    (env_self (snd (bobgo_send_shipping sample_runtime [1] booking_env))) p'
                  = if truthy (entry_tracking entry)
                    then PStr (tracking_site (env_self booking_env)
                               ++ py_str sample_runtime (entry_tracking entry))
                    else PBool false)
    [1]
    [PDict [("exact_price", PFloat (S754_finite false 5981343255101440 (-46)));
            ("tracking_number", PStr "BG123")]].
Proof.
  apply (tracking_link_after_booking sample_runtime [1] booking_env).
  - vm_compute. reflexivity.
  - repeat constructor. intros H. now apply elem_of_nil in H.
Defined.

(** X20: the tracking link after a cancellation.  After a call of
    [bobgo_cancel_shipment] that returns [True], [bobgo_get_tracking_link]
    gives [False] for every picking of the call, whatever the carrier. *)
Theorem tracking_link_after_cancel (pickings : list Z) (e e' : env) :
  bobgo_cancel_shipment pickings e = (Ok true, e') ->
  forall pid, pid ∈ pickings ->
    exists p',
      env_pickings e' !! pid = Some p'
      /\ forall py self, bobgo_get_tracking_link py self p' = PBool false.
Proof.
  unfold bobgo_cancel_shipment, mbind, ret.
  destruct (cancel_loop pickings [] [] e) as [[lists|x] e1] eqn:Hloop; [|discriminate].
  intros H. injection H as Hlen <-.
  assert (Hrun : cancellations pickings e e1).
  { apply (cancel_loop_cancellations pickings [] [] e lists e1 Hloop).
    simpl. destruct (List.length (snd lists)); [reflexivity|discriminate]. }
  destruct (cancellations_cleared pickings e e1 Hrun) as (_ & Hlisted & _).
  intros pid Hpid. destruct (Hlisted pid Hpid) as (p & _ & _ & Hfinal).
  exists (cleared p). split; [assumption|]. intros py self. reflexivity.
Qed.

Lemma tracking_link_after_cancel_witness :
  exists p',
    env_pickings
      (snd (bobgo_cancel_shipment [1]
              (sample_env [Ok response_200] {[ 1 := tracked_picking ]}))) !! 1
    = Some p'
    /\ forall py self, bobgo_get_tracking_link py self p' = PBool false.
Proof.
  apply (tracking_link_after_cancel [1]
           (sample_env [Ok response_200] {[ 1 := tracked_picking ]})
           (snd (bobgo_cancel_shipment [1]
                   (sample_env [Ok response_200] {[ 1 := tracked_picking ]})))).
  - vm_compute. reflexivity.
  - constructor.
Defined.

Lemma cleared_same (p p' : picking) : same_but_shipment p p' -> cleared p' = cleared p.
Proof. intros (H1 & H2 & H3 & H4). unfold cleared. now rewrite H1, H2, H3, H4. Qed.

(** X21: a booking followed by a cancellation.  When
    [bobgo_send_shipping] returns for some pickings, and afterwards, on
    the table as the booking left it, [bobgo_cancel_shipment] returns
    [True] for the same pickings, every one of these pickings is as it
    was before the booking, but for a shipment id and a tracking
    reference of [False]; every other picking of the table is as it
    was. *)
Theorem booking_then_cancellation (py : builtins) (pickings : list Z) (e e1 later e2 : env)
    (entries : list pyvalue) :
  bobgo_send_shipping py pickings e = (Ok entries, e1) ->
  env_pickings later = env_pickings e1 ->
  bobgo_cancel_shipment pickings later = (Ok true, e2) ->
  forall q,
    env_pickings e2 !! q
    = if bool_decide (q ∈ pickings)
      then cleared <$> env_pickings e !! q
      else env_pickings e !! q.
Proof.
  intros Hsend Htable Hcancel q.
  pose proof (send_loop_written py pickings [] e) as Hbooked.
  unfold bobgo_send_shipping in Hsend. rewrite Hsend in Hbooked. simpl in Hbooked.
  unfold bobgo_cancel_shipment, mbind, ret in Hcancel.
  destruct (cancel_loop pickings [] [] later) as [[lists|x] e3] eqn:Hloop; [|discriminate].
  injection Hcancel as Hlen <-.
  assert (Hrun : cancellations pickings later e3).
  { apply (cancel_loop_cancellations pickings [] [] later lists e3 Hloop).
    simpl. destruct (List.length (snd lists)); [reflexivity|discriminate]. }
  destruct (cancellations_cleared pickings later e3 Hrun) as (_ & Hlisted & Hother & _).
  rewrite Htable in Hlisted, Hother.
  case_bool_decide as Hq.
  - destruct (Hlisted q Hq) as (p1 & Hp1 & _ & ->).
    destruct (Hbooked q) as [Hsame|(_ & p & p' & Hp & Hw & Hs)].
    + rewrite <- Hsame, Hp1. reflexivity.
    + rewrite Hp. rewrite Hw in Hp1. injection Hp1 as <-. simpl.
      now rewrite (cleared_same p p' Hs).
  - rewrite (Hother q Hq).
    destruct (Hbooked q) as [Hsame|(Hin & _)]; [assumption|contradiction].
Qed.

Lemma booking_then_cancellation_witness :
  env_pickings (snd (bobgo_cancel_shipment [1] (booked_env sample_runtime))) !! 1
  = cleared <$> env_pickings booking_env !! 1.
Proof.
  apply (booking_then_cancellation sample_runtime [1] booking_env
           (snd (bobgo_send_shipping sample_runtime [1] booking_env))
           (booked_env sample_runtime)
           (snd (bobgo_cancel_shipment [1] (booked_env sample_runtime)))
           [PDict [("exact_price", PFloat (S754_finite false 5981343255101440 (-46)));
                   ("tracking_number", PStr "BG123")]]).
  - vm_compute. reflexivity.
  - reflexivity.
  - vm_compute. reflexivity.
Defined.

(** ** The constraints of the carrier *)

Lemma for_each_ok {A} (body : A -> result unit) (self : list A) :
  for_each body self = Ok tt <-> Forall (fun a => body a = Ok tt) self.
Proof.
  induction self as [|a rest IH]; simpl.
  - split; [constructor|reflexivity].
  - destruct (body a) as [[]|x] eqn:Ha; simpl.
    + rewrite IH. split; [now constructor|]. intros H. now inversion H.
    + split; [discriminate|]. intros H. inversion H. congruence.
Qed.

Lemma for_each_raises {A} (body : A -> result unit) (self : list A) (x : exn) :
  for_each body self = Raise x -> exists a, In a self /\ body a = Raise x.
Proof.
  induction self as [|a rest IH]; simpl; [discriminate|].
  destruct (body a) as [[]|y] eqn:Ha; simpl.
  - intros H. destruct (IH H) as (b & Hb & Hx). eauto.
  - intros H. injection H as <-. eauto.
Qed.

Lemma api_key_constraint_ok (c : carrier) :
  api_key_constraint c = Ok tt <-> api_key_long_enough c.
Proof.
  unfold api_key_constraint, api_key_long_enough, api_key_empty.
  destruct (String.eqb_spec (delivery_type c) "bobgo") as [Htype|Htype]; simpl;
    [|split; [intros _ H; contradiction|reflexivity]].
  destruct (bobgo_api_key c) as [key|]; simpl;
    [|split; [intros _ _ H; discriminate|reflexivity]].
  destruct (String.eqb key "") eqn:Hkey; simpl;
    [split; [intros _ _ H; discriminate|reflexivity]|].
  destruct (Z.ltb_spec (Z.of_nat (String.length (strip key))) 20).
  - split; [discriminate|]. intros H'. specialize (H' Htype eq_refl). lia.
  - split; [auto|reflexivity].
Qed.

(** X22: the constraint on the API key and the configuration check.
    [_check_bobgo_api_key] passes exactly when every Bobgo carrier of the
    recordset that has a key has one of at least 20 characters once
    stripped.  For a Bobgo carrier with a key that passes the constraint,
    [bobgo_validate_configuration] returns [True] and leaves a key that
    starts with ["Bearer "], so that is what the requests carry; and the
    carrier still passes the constraint afterwards. *)
Theorem api_key_constraint_validated (self : list carrier) :
  (_check_bobgo_api_key self = Ok tt <-> Forall api_key_long_enough self)
  /\ (forall x, _check_bobgo_api_key self = Raise x ->
        x = ValidationError "API Key seems too short. Please check your Bobgo API key.")
  /\ forall c,
       c ∈ self -> _check_bobgo_api_key self = Ok tt ->
       delivery_type c = "bobgo" -> api_key_empty c = false ->
       fst (bobgo_validate_configuration c) = Ok true
       /\ (exists key, bobgo_api_key (validated c) = Some key
                       /\ startswith key "Bearer " = true
                       /\ dict_get (api_headers (validated c)) "Authorization" PNone
                          = PStr key)
       /\ _check_bobgo_api_key [validated c] = Ok tt.
Proof.
  unfold _check_bobgo_api_key. split; [|split].
  - rewrite for_each_ok. split; intros H; (eapply Forall_impl; [exact H|]);
      intros c; apply api_key_constraint_ok.
  - intros x H. apply for_each_raises in H as (c & _ & Hc).
    unfold api_key_constraint in Hc.
    destruct (_ && _); [|discriminate]. destruct (_ <? 20); [|discriminate].
    now injection Hc as <-.
  - intros c Hc Hall Htype Hkey.
    apply for_each_ok in Hall. rewrite Forall_forall in Hall.
    specialize (Hall c Hc). apply api_key_constraint_ok in Hall.
    specialize (Hall Htype Hkey).
    rewrite for_each_ok.
    assert (Hgoal : fst (bobgo_validate_configuration c) = Ok true
                    /\ (exists key, bobgo_api_key (validated c) = Some key
                                    /\ startswith key "Bearer " = true
                                    /\ 20 <= Z.of_nat (String.length (strip key)))).
    { rewrite bobgo_validate_configuration_result, Hkey, validated_cases.
      unfold api_key_refused, api_key_rewritten, api_key_empty in *.
      destruct (bobgo_api_key c) as [key|] eqn:Hk; [|discriminate].
      unfold char_or in *. rewrite Hkey in *.
      destruct (startswith key "Bearer ") eqn:Hpre; simpl negb; simpl andb.
      - rewrite andb_false_r. split; [reflexivity|]. exists key. auto.
      - destruct (Z.ltb_spec 10 (Z.of_nat (String.length (strip key)))); [|lia].
        destruct (Z.ltb_spec (Z.of_nat (String.length (strip key))) 13); [lia|].
        rewrite andb_false_r. split; [reflexivity|]. eexists. split; [reflexivity|].
        split; [unfold startswith; simpl; now destruct (strip key)|].
        rewrite bearer_key_length; [lia|]. apply strip_not_empty. lia. }
    destruct Hgoal as (Hok & key & Hvk & Hpre & Hlen).
    split; [assumption|]. split.
    + exists key. repeat split; auto. simpl. now rewrite Hvk.
    + repeat constructor. apply api_key_constraint_ok.
      intros _ Hnonempty. rewrite Hvk. unfold char_or.
      unfold api_key_empty in Hnonempty. rewrite Hvk in Hnonempty. now rewrite Hnonempty.
Qed.

(** A key of 26 characters passes the constraint and is formatted; a short
    key does not pass. *)
Example api_key_constraint_sample :
  _check_bobgo_api_key [sample_carrier] = Ok tt
  /\ bobgo_api_key (validated sample_carrier) = Some "Bearer abcdefghijklmnopqrstuvwxyz"
  /\ _check_bobgo_api_key [sample_carrier; set_api_key sample_carrier (Some "  too short  ")]
     = Raise (ValidationError "API Key seems too short. Please check your Bobgo API key.").
Proof. repeat split; vm_compute; reflexivity. Qed.

(** X23: a blank before the prefix.  [bobgo_validate_configuration]
    looks for ["Bearer "] at the very start of the key as it is stored,
    but puts the prefix before the stripped key: a key of more than 10
    characters that has the prefix only after leading blanks gets a second
    prefix. *)
Theorem bearer_prefix_twice (c : carrier) (key : string) :
  bobgo_api_key c = Some key ->
  startswith key "Bearer " = false ->
  startswith (strip key) "Bearer " = true ->
  10 < Z.of_nat (String.length (strip key)) ->
  exists key',
    bobgo_api_key (validated c) = Some key'
    /\ startswith key' "Bearer Bearer " = true
    /\ key' = "Bearer " ++ strip key.
Proof.
  intros Hkey Hpre Hstrip Hlen.
  rewrite validated_cases. unfold api_key_rewritten, char_or. rewrite Hkey, Hpre.
  destruct (String.eqb_spec key "") as [->|Hne]; [discriminate|].
  destruct (Z.ltb_spec 10 (Z.of_nat (String.length (strip key)))); [|lia].
  simpl. eexists. split; [reflexivity|]. split; [|reflexivity].
  unfold startswith in *. exact Hstrip.
Qed.

Lemma bearer_prefix_twice_witness :
  exists key',
    bobgo_api_key (validated blank_bearer_carrier) = Some key'
    /\ startswith key' "Bearer Bearer " = true
    /\ key' = "Bearer " ++ strip " Bearer abcdefghijklmnopqrstuvwxyz".
Proof.
  apply (bearer_prefix_twice blank_bearer_carrier " Bearer abcdefghijklmnopqrstuvwxyz");
    [reflexivity|reflexivity|reflexivity|vm_compute; reflexivity].
Defined.

Lemma handling_time_constraint_ok (c : carrier) :
  handling_time_constraint c = Ok tt <-> handling_time_not_negative c.
Proof.
  unfold handling_time_constraint, handling_time_not_negative.
  destruct (String.eqb_spec (delivery_type c) "bobgo") as [Htype|Htype]; simpl;
    [|split; [intros _ H; contradiction|reflexivity]].
  destruct (Z.ltb_spec (bobgo_handling_time c) 0).
  - split; [discriminate|]. intros H'. specialize (H' Htype). lia.
  - split; [auto|reflexivity].
Qed.

(** X24: the constraint on the handling time and the payload.
    [_check_handling_time] passes exactly when no Bobgo carrier of the
    recordset has a negative handling time, and raises a validation error
    otherwise.  For a Bobgo carrier that passes it, the handling time of
    the payload of a rate request is the handling time of the carrier:
    the lower bound of zero in the payload changes nothing. *)
Theorem handling_time_constraint_payload (self : list carrier) :
  (_check_handling_time self = Ok tt <-> Forall handling_time_not_negative self)
  /\ (forall x, _check_handling_time self = Raise x ->
        x = ValidationError "Handling time cannot be negative.")
  /\ forall c collection delivery items dv,
       c ∈ self -> _check_handling_time self = Ok tt -> delivery_type c = "bobgo" ->
       exists d,
         rate_payload c collection delivery items dv = PDict d
         /\ dict_get d "handling_time" PNone = PInt (bobgo_handling_time c).
Proof.
  unfold _check_handling_time. split; [|split].
  - rewrite for_each_ok. split; intros H; (eapply Forall_impl; [exact H|]);
      intros c; apply handling_time_constraint_ok.
  - intros x H. apply for_each_raises in H as (c & _ & Hc).
    unfold handling_time_constraint in Hc.
    destruct (_ && _); [|discriminate]. now injection Hc as <-.
  - intros c collection delivery items dv Hc Hall Htype.
    apply for_each_ok in Hall. rewrite Forall_forall in Hall.
    specialize (Hall c Hc). apply handling_time_constraint_ok in Hall.
    specialize (Hall Htype).
    eexists. split; [reflexivity|]. simpl. unfold max_int.
    destruct (Z.ltb_spec 0 (bobgo_handling_time c)); [reflexivity|].
    f_equal. lia.
Qed.

Example handling_time_constraint_sample :
  _check_handling_time [sample_carrier] = Ok tt
  /\ _check_handling_time
       [sample_carrier;
        {| carrier_id := 8; carrier_name := Some "Bobgo"; delivery_type := "bobgo";
           bobgo_api_key := None; bobgo_test_mode := true;
           bobgo_handling_time := -1; bobgo_connection_status := false |}]
     = Raise (ValidationError "Handling time cannot be negative.").
Proof. split; vm_compute; reflexivity. Qed.

(** ** The connection test *)

Lemma first_error_field_raises (py : builtins) (fields : list string) (v : pyvalue)
    (x : exn) :
  first_error_field py fields v = Raise x -> exists msg, x = TypeError msg.
Proof.
  induction fields as [|field rest IH]; simpl; [discriminate|].
  destruct (py_contains v field) as [[|]|y] eqn:Hin; simpl.
  - destruct v; simpl in *; try discriminate;
      try (intros H; injection H as <-; eauto; fail).
    injection Hin as Hin. rewrite Hin. discriminate.
  - exact IH.
  - intros H. injection H as <-. destruct v; simpl in Hin; try discriminate;
      injection Hin as <-; eauto.
Qed.

Lemma extract_error_detail_raises (py : builtins) (r : response) (x : exn) :
  _extract_error_detail py r = Raise x -> exists msg, x = TypeError msg.
Proof.
  unfold _extract_error_detail, response_json.
  destruct (json_body r) as [v|]; [|discriminate].
  change (bind (Ok v) ?k) with (k v). cbv beta.
  destruct (first_error_field py ["detail"; "error"; "message"; "description"] v)
    as [s|y] eqn:Hfield; [discriminate|].
  apply first_error_field_raises in Hfield as [msg ->].
  intros H. injection H as <-. eauto.
Qed.

Lemma format_test_failed (py : builtins) (s : string) :
  py_format py "Connection test failed: %s" [PStr s] = Ok ("Connection test failed: " ++ s).
Proof.
  simpl. destruct (py_format py "" []) eqn:H; simpl in H; [|discriminate].
  injection H as <-. simpl. now rewrite append_empty_r.
Qed.

Lemma format_test_http (py : builtins) (status : Z) (detail : string) :
  py_format py "Connection test failed (HTTP %s): %s" [PInt status; PStr detail]
  = Ok ("Connection test failed (HTTP " ++ str_of_int status ++ "): " ++ detail).
Proof.
  simpl. destruct (py_format py "" []) eqn:H; simpl in H; [|discriminate].
  injection H as <-. simpl. now rewrite append_empty_r.
Qed.

Lemma format_test_timeout (py : builtins) :
  py_format py "Connection test timed out after %s seconds. Please try again."
    [PInt BOBGO_API_TIMEOUT]
  = Ok "Connection test timed out after 30 seconds. Please try again.".
Proof. vm_compute. reflexivity. Qed.

(** The [except] clauses of [bobgo_test_connection]: the status is
    written as [False], and a user error is raised. *)
Lemma test_connection_handler (py : builtins) (x : exn) (t : tested_env) :
  (do _ <- write_connection_test false;
   do msg <- lift (py_format py "Connection test failed: %s" [PStr (exn_str x)]);
   raise (UserError msg)) t
  = (Raise (UserError ("Connection test failed: " ++ exn_str x)) : result pyvalue,
     snd (write_connection_test false t)).
Proof.
  unfold mbind at 1. simpl write_connection_test.
  unfold mbind, lift, raise. now rewrite format_test_failed.
Qed.

Opaque py_format.

(** [bobgo_test_connection], outcome by outcome. *)
Lemma bobgo_test_connection_run (py : builtins) (response_time : float)
    (format_2f : float -> string) (t : tested_env) :
  let self := env_self (the_env t) in
  let n := env_net (the_env t) in
  bobgo_test_connection py response_time format_2f t
  = if api_key_empty self then
      (Raise (UserError "Connection test failed: Bobgo API Key is not configured. Please set it in the delivery method configuration."),
       after_test t n false)
    else if api_key_refused self then
      (Raise (UserError "Connection test failed: API Key seems too short. Please check your Bobgo API key."),
       after_test t n false)
    else
      (match next_outcome n with
       | Ok resp =>
           if status_code resp =? 200
           then Ok (connection_successful response_time format_2f)
           else Raise (UserError (connection_failure py (Ok resp)))
       | Raise x => Raise (UserError (connection_failure py (Raise x)))
       end,
       after_test t (after_request n (test_request (validated self)))
         (connection_test_passes self n)).
Proof.
  intros self n.
  assert (Hhost : api_host (validated self) = api_host self).
  { unfold api_host. destruct (validated_fields self) as (_ & _ & _ & -> & _).
    reflexivity. }
  assert (Hval : in_env validate_configuration t
                 = (fst (bobgo_validate_configuration self),
                    {| the_env := set_self (the_env t) (validated self);
                       bobgo_last_connection_test := bobgo_last_connection_test t |})).
  { unfold in_env. rewrite validate_configuration_run. reflexivity. }
  unfold bobgo_test_connection, try_except, connection_attempt, mbind at 1.
  rewrite Hval, bobgo_validate_configuration_result.
  unfold connection_test_passes, configured. fold self n.
  destruct (api_key_empty self) eqn:Hkey.
  - rewrite test_connection_handler. reflexivity.
  - destruct (api_key_refused self) eqn:Hrefused.
    + rewrite test_connection_handler. reflexivity.
    + cbv beta zeta iota. simpl the_env. simpl env_self.
      destruct (api_urls (validated self)) as (_ & _ & _ & Hurl). rewrite Hurl, Hhost.
      unfold mbind at 1, in_env at 1, post, requests_post, next_outcome, after_test,
        after_request, test_request. simpl env_net. fold n. fold self. rewrite Hhost.
      destruct (pending n) as [|[resp|x] rest] eqn:Hpend.
      * rewrite test_connection_handler. reflexivity.
      * cbv iota beta. simpl List.tl. simpl negb. cbv iota.
        destruct (status_code resp =? 200) eqn:Hs; [reflexivity|].
        unfold mbind at 1, write_connection_test at 1. cbv beta iota zeta.
        unfold mbind at 1, lift at 1. unfold connection_failure.
        destruct (_extract_error_detail py resp) as [detail|y] eqn:Hdetail.
        -- unfold mbind at 1, lift at 1. rewrite format_test_http.
           unfold raise at 1. cbv beta iota zeta.
           rewrite test_connection_handler. reflexivity.
        -- destruct (extract_error_detail_raises py resp y Hdetail) as [msg ->].
           cbv beta iota zeta. rewrite test_connection_handler. reflexivity.
      * cbv iota beta. simpl List.tl.
        destruct x; try (rewrite test_connection_handler; reflexivity).
        unfold mbind at 1, write_connection_test at 1. cbv beta iota zeta.
        unfold mbind, lift, raise. rewrite format_test_timeout. reflexivity.
Qed.

Transparent py_format.

(** X25: the result of [bobgo_test_connection], outcome by outcome.  The
    method returns the notification of success exactly when the
    configuration check passes and the request is answered with status
    200.  In every other case it raises a user error: for a key that is
    not configured, the message of the configuration check after
    ["Connection test failed: "]; for a key that the check writes and the
    constraint on the key refuses, the message of the constraint after
    the same words; for a timeout, the message of the timeout; for any
    other exception of the request, its text after ["Connection test
    failed: "]; for a response with another status, the message with the
    status and the error detail, which passes through the last [except]
    clause and so carries ["Connection test failed: "] twice. *)
Theorem bobgo_test_connection_result (py : builtins) (response_time : float)
    (format_2f : float -> string) (t : tested_env) :
  fst (bobgo_test_connection py response_time format_2f t)
  = if api_key_empty (env_self (the_env t)) then
      Raise (UserError "Connection test failed: Bobgo API Key is not configured. Please set it in the delivery method configuration.")
    else if api_key_refused (env_self (the_env t)) then
      Raise (UserError "Connection test failed: API Key seems too short. Please check your Bobgo API key.")
    else
      match next_outcome (env_net (the_env t)) with
      | Ok resp =>
          if status_code resp =? 200
          then Ok (PDict
                     [("type", PStr "ir.actions.client");
                      ("tag", PStr "display_notification");
                      ("params",
                       PDict [("title", PStr "Connection Successful");
                              ("message",
                               PStr ("Bobgo API connection test passed successfully! Response time: "
                                     ++ format_2f response_time ++ "s"));
                              ("type", PStr "success");
                              ("sticky", PBool false)])])
          else Raise (UserError (connection_failure py (Ok resp)))
      | Raise x => Raise (UserError (connection_failure py (Raise x)))
      end.
Proof.
  pose proof (bobgo_test_connection_run py response_time format_2f t) as Hrun.
  cbv zeta in Hrun. rewrite Hrun.
  destruct (api_key_empty (env_self (the_env t))); [reflexivity|].
  now destruct (api_key_refused (env_self (the_env t))).
Qed.

(** A connection test answered with status 500 and a JSON error. *)
Example bobgo_test_connection_500 :
  fst (bobgo_test_connection sample_runtime f_0_1 sample_format_2f (test_env [Ok response_500]))
  = Raise (UserError "Connection test failed: Connection test failed (HTTP 500): database is down").
Proof. vm_compute. reflexivity. Qed.

(** A connection test with a key of 11 characters: the key is written
    with its prefix, the constraint on the key refuses it, and no request
    is sent. *)
Example bobgo_test_connection_short_key :
  (fun r => (fst r,
             bobgo_api_key (env_self (the_env (snd r))),
             bobgo_connection_status (env_self (the_env (snd r))),
             sent (env_net (the_env (snd r)))))
    (bobgo_test_connection sample_runtime f_0_1 sample_format_2f
       {| the_env := set_self (sample_env [Ok response_200] ∅) short_key_carrier;
          bobgo_last_connection_test := None |})
  = (Raise (UserError "Connection test failed: API Key seems too short. Please check your Bobgo API key."),
     Some "Bearer abcdefghijk", false, []).
Proof. vm_compute. reflexivity. Qed.

(** X26: what [bobgo_test_connection] leaves behind.  The connection
    status of the carrier is [True] exactly when the test passes, that is
    when the method returns; the time of the last test is set to the time
    of the call, whatever the outcome; the key of the carrier is as
    [bobgo_validate_configuration] leaves it.  When the configuration
    check fails, for a key that is not configured or for a key that the
    constraint refuses, no request is sent; otherwise exactly one request
    is sent, with the test payload, to [/rates-at-checkout] directly on
    the host of the API (without the [/v2] of the base URL).  Pickings,
    wizards and the cache are not touched. *)
Theorem bobgo_test_connection_state (py : builtins) (response_time : float)
    (format_2f : float -> string) (t : tested_env) :
  let self := env_self (the_env t) in
  let n := env_net (the_env t) in
  let r := fst (bobgo_test_connection py response_time format_2f t) in
  let t' := snd (bobgo_test_connection py response_time format_2f t) in
  bobgo_connection_status (env_self (the_env t')) = connection_test_passes self n
  /\ match r with Ok _ => true | Raise _ => false end = connection_test_passes self n
  /\ bobgo_last_connection_test t' = Some (env_clock (the_env t))
  /\ env_self (the_env t')
     = set_connection_status (validated self) (connection_test_passes self n)
  /\ env_net (the_env t')
     = (if api_key_empty self || api_key_refused self then n
        else after_request n (test_request (validated self)))
  /\ str_contains (req_url (test_request (validated self))) "/v2" = false
  /\ env_pickings (the_env t') = env_pickings (the_env t)
  /\ env_wizards (the_env t') = env_wizards (the_env t)
  /\ env_cache (the_env t') = env_cache (the_env t).
Proof.
  intros self n r t'. subst r t'.
  pose proof (bobgo_test_connection_run py response_time format_2f t) as Hrun.
  cbv zeta in Hrun. fold self n in Hrun. rewrite Hrun.
  assert (Hurl : str_contains (req_url (test_request (validated self))) "/v2" = false).
  { unfold test_request, api_host. simpl.
    destruct (bobgo_test_mode (validated self)); vm_compute; reflexivity. }
  unfold connection_test_passes, configured.
  destruct (api_key_empty self); simpl; [repeat split; auto|].
  destruct (api_key_refused self); simpl; [repeat split; auto|].
  destruct (next_outcome n) as [resp|x]; [|repeat split; auto].
  destruct (status_code resp =? 200); repeat split; auto.
Qed.

(** A connection test that passes. *)
Example bobgo_test_connection_passes :
  (fun t' => (bobgo_connection_status (env_self (the_env t')),
              bobgo_last_connection_test t',
              bobgo_api_key (env_self (the_env t')),
              List.map req_url (sent (env_net (the_env t')))))
    (snd (bobgo_test_connection sample_runtime f_0_1 sample_format_2f
            {| the_env := set_self (sample_env [Ok response_200] ∅) sample_carrier;
               bobgo_last_connection_test := None |}))
  = (true, Some 1000, Some "Bearer abcdefghijklmnopqrstuvwxyz",
     ["https://api.sandbox.bobgo.co.za/rates-at-checkout"]).
Proof. vm_compute. reflexivity. Qed.

(** ** Applying a rate *)

Lemma service_description_named (py : builtins) (self : rate_line) (c : carrier)
    (l : sale_order_line) :
  line_name l = PStr (service_description py self c) -> named_after self c l.
Proof.
  unfold service_description, named_after, printed_name. intros ->.
  assert (Hname : py_str py (of_char (carrier_name c))
                  = match carrier_name c with Some s => s | None => "False" end)
    by now destruct (carrier_name c).
  rewrite Hname. split.
  - intros n -> Hne Hunknown.
    destruct (String.eqb_spec n ""); [contradiction|].
    destruct (String.eqb_spec n "Unknown Service"); [contradiction|reflexivity].
  - intros [->|[->| ->]]; reflexivity.
Qed.

(** X27: the outcomes of [action_apply_rate].  The action returns the
    window-close action, [{'type': 'ir.actions.act_window_close'}], or
    raises a user error, nothing else.  When it returns, exactly one
    record has been logged, an [INFO] record named
    ["Bobgo Rate Selected"], and every delivery line of the order has the
    price of the rate and, as its name, the name of the carrier, followed
    by [" - "] and the name of the service unless that name is missing,
    empty or ["Unknown Service"].  When it raises, nothing has been
    logged. *)
Theorem action_apply_rate_outcome (py : builtins)
    (set_delivery_line : carrier -> float -> sale_order -> result pyvalue * sale_order)
    (self : rate_line) (w : wstate) :
  let '(r, w') := action_apply_rate py set_delivery_line self w in
  match r with
  | Ok v =>
      v = PDict [("type", PStr "ir.actions.act_window_close")]
      /\ exists o2 c record,
           ws_order w' = Some o2 /\ rl_carrier self = Some c
           /\ ws_logging w' = (ws_logging w ++ [record])%list
           /\ logs_selection record
           /\ Forall (fun l =>
                        is_delivery l = true ->
                        price_unit l = rl_total_price self /\ named_after self c l)
                (order_line o2)
  | Raise x => (exists msg, x = UserError msg) /\ ws_logging w' = ws_logging w
  end
  /\ ws_dbname w' = ws_dbname w.
Proof.
  unfold action_apply_rate.
  destruct (ws_order w) as [o|]; [|simpl; eauto].
  destruct (rl_carrier self) as [c|]; [|simpl; eauto].
  unfold try_except, apply_rate.
  destruct (set_delivery_line c (rl_total_price self) o) as [[v|x] o1].
  - destruct (negb (truthy v)).
    + unfold mbind, lift, raise. rewrite apply_error_message. simpl. eauto.
    + split; [|reflexivity]. split; [reflexivity|].
      eexists. exists c. eexists. split; [reflexivity|]. split; [reflexivity|].
      split; [reflexivity|]. split; [eexists; repeat split|].
      destruct (existsb is_delivery (order_line o1)) eqn:Hex.
      * eapply Forall_impl; [apply write_delivery_lines_prices|].
        simpl. intros l Hl Hd. destruct (Hl Hd) as [Hprice Hname].
        eauto using service_description_named.
      * destruct (no_delivery_lines _ Hex) as [_ Hnone].
        eapply Forall_impl; [exact Hnone|]. simpl. congruence.
  - unfold mbind, lift, raise. rewrite apply_error_message. simpl. eauto.
Qed.

(** The name of the delivery line in the example, and the name it gets
    for a rate without a service. *)
Example action_apply_rate_names :
  (fun w => option_map (fun o => List.map line_name (List.filter is_delivery (order_line o)))
              (ws_order w))
    (snd (action_apply_rate sample_runtime sample_set_delivery_line
            {| rl_service_name := Some "Unknown Service"; rl_total_price := f_ten;
               rl_carrier := Some bearer_carrier |} sample_wstate))
  = Some [PStr "Bobgo"].
Proof. vm_compute. reflexivity. Qed.

(** ** A booking that fails after the shipment *)

Lemma format_booking_failed (py : builtins) (name : option string) (s : string) :
  py_format py "Failed to book shipment for %s: %s" [of_char name; PStr s]
  = Ok ("Failed to book shipment for " ++ py_str py (of_char name) ++ ": " ++ s).
Proof.
  simpl. destruct (py_format py "" []) eqn:H; simpl in H; [|discriminate].
  injection H as <-. simpl. now rewrite append_empty_r.
Qed.

Opaque py_format.

(** X28: a booking can fail after the shipment is created.  In
    [bobgo_send_shipping] the price of the selected rate is converted to a
    float only after the shipment request and the write on the picking.
    So when both requests of a picking are answered without an error
    status, but the [total_price] of the first rate does not convert to a
    float, the call of a carrier whose configuration check passes raises
    a user error although the shipment request was sent and answered and
    the record of the picking holds the [id] of the answer in
    [bobgo_shipment_id] and its [tracking_reference] in
    [carrier_tracking_ref]. *)
Theorem booking_fails_after_shipment (py : builtins) (pid : Z) (more : list Z)
    (p : picking) (e : env) (payload : list (string * pyvalue))
    (r1 r2 : response) (rest : list (result response))
    (rd rate sd : list (string * pyvalue)) (others : list pyvalue) (x : exn) :
  env_pickings e !! pid = Some p ->
  configured (env_self e) = true ->
  _prepare_shipment_rate_payload py p = Ok payload ->
  pending (env_net e) = Ok r1 :: Ok r2 :: rest ->
  status_ok r1 = true -> status_ok r2 = true ->
  json_body r1 = Some (PDict rd) ->
  dict_get rd "rates" PNone = PList (PDict rate :: others) ->
  json_body r2 = Some (PDict sd) ->
  py_float py (dict_get rate "total_price" (PFloat f_zero)) = Raise x ->
  exists e' rq1 rq2 p',
    bobgo_send_shipping py (pid :: more) e
    = (Raise (UserError ("Failed to book shipment for "
                         ++ py_str py (of_char (picking_name p)) ++ ": " ++ exn_str x)),
       e')
    /\ sent (env_net e') = (sent (env_net e) ++ [rq1; rq2])%list
    /\ req_url rq2 = api_host (env_self e) ++ "/shipments"
    /\ pending (env_net e') = rest
    /\ env_pickings e' = <[pid := p']> (env_pickings e)
    /\ bobgo_shipment_id p' = dict_get sd "id" PNone
    /\ carrier_tracking_ref p' = dict_get sd "tracking_reference" PNone
    /\ same_but_shipment p p'.
Proof.
  intros Hp Hkey Hpayload Hpend Hs1 Hs2 Hj1 Hrates Hj2 Hprice.
  destruct (validate_configuration_ok e Hkey) as [Hval _].
  assert (Hship : exists sp, _prepare_shipment_payload py p (PDict rate) = Ok sp).
  { unfold _prepare_shipment_payload. rewrite Hpayload. simpl. eauto. }
  destruct Hship as [sp Hship].
  destruct (api_urls (validated (env_self e))) as (Hurl1 & Hurl2 & _).
  assert (Hhost : api_host (validated (env_self e)) = api_host (env_self e)).
  { unfold api_host. destruct (validated_fields (env_self e)) as (_ & _ & _ & -> & _).
    reflexivity. }
  do 3 eexists.
  exists (write_shipment p (dict_get sd "id" PNone) (dict_get sd "tracking_reference" PNone)).
  unfold bobgo_send_shipping. simpl send_loop. unfold mbind at 1, send_picking.
  rewrite Hp. unfold try_except, book_shipment, mbind at 1. rewrite Hval.
  cbv beta zeta. simpl env_self. rewrite Hurl1, Hurl2, Hhost.
  unfold mbind at 1, lift at 1. rewrite Hpayload.
  unfold mbind at 1, post at 1, requests_post. simpl env_net. rewrite Hpend.
  unfold mbind at 1, lift at 1. rewrite (raise_for_status_pass _ _ Hs1).
  unfold mbind at 1, lift at 1. unfold response_json at 1. rewrite Hj1.
  unfold mbind at 1, lift at 1. simpl py_get. cbv iota.
  rewrite (dict_get_listed rd "rates" _ (PList []) Hrates).
  unfold mbind at 1, lift at 1. simpl py_len. cbv iota.
  unfold mbind at 1, lift at 1. rewrite Hrates.
  change (negb (truthy (PList (PDict rate :: others)))) with false. cbv iota.
  unfold mbind at 1, lift at 1.
  change (py_first (PList (PDict rate :: others))) with (Ok (PDict rate)). cbv iota.
  unfold mbind at 1, lift at 1. simpl py_get. cbv iota.
  unfold mbind at 1, lift at 1. rewrite Hship.
  unfold mbind at 1, post at 1, requests_post. simpl env_net. simpl pending. cbv iota.
  unfold mbind at 1, lift at 1. rewrite (raise_for_status_pass _ _ Hs2).
  unfold mbind at 1, lift at 1. unfold response_json at 1. rewrite Hj2.
  unfold mbind at 1, lift at 1. simpl py_get. cbv iota.
  unfold mbind at 1, lift at 1.
  unfold mbind at 1, write_picking at 1. cbv beta iota zeta.
  unfold mbind at 1, lift at 1.
  unfold mbind at 1, lift at 1. rewrite Hprice. cbv beta iota zeta.
  unfold mbind at 1, lift at 1. rewrite format_booking_failed.
  unfold raise. cbv beta iota zeta.
  split; [reflexivity|]. unfold same_but_shipment. simpl. rewrite <- app_assoc.
  repeat split.
Qed.

Transparent py_format.

Lemma booking_fails_after_shipment_witness :
  exists e' rq1 rq2 p',
    bobgo_send_shipping sample_runtime [1]
      (sample_env [Ok unpriced_rates_response; Ok shipment_response] {[ 1 := sample_picking ]})
    = (Raise (UserError ("Failed to book shipment for "
                         ++ py_str sample_runtime (of_char (picking_name sample_picking))
                         ++ ": "
                         ++ exn_str (TypeError "float() argument must be a string or a real number, not 'NoneType'"))),
       e')
    /\ sent (env_net e') = ([] ++ [rq1; rq2])%list
    /\ req_url rq2 = api_host bearer_carrier ++ "/shipments"
    /\ pending (env_net e') = []
    /\ env_pickings e' = <[1 := p']> {[ 1 := sample_picking ]}
    /\ bobgo_shipment_id p' = PInt 9001
    /\ carrier_tracking_ref p' = PStr "BG123"
    /\ same_but_shipment sample_picking p'.
Proof.
  exact (booking_fails_after_shipment sample_runtime 1 [] sample_picking
           (sample_env [Ok unpriced_rates_response; Ok shipment_response]
              {[ 1 := sample_picking ]})
           _ unpriced_rates_response shipment_response [] _ _ _ [] _
           eq_refl eq_refl eq_refl eq_refl eq_refl eq_refl eq_refl eq_refl eq_refl eq_refl).
Defined.

(** ** The exceptions of a rate request *)

Lemma map_result_raise {A B} (f : A -> result B) (l : list A) (x : exn) :
  map_result f l = Raise x -> exists a, In a l /\ f a = Raise x.
Proof.
  induction l as [|a l IH]; simpl; [discriminate|].
  destruct (f a) as [b|y] eqn:Ha; simpl.
  - destruct (map_result f l) as [bs|y]; simpl; [discriminate|].
    intros H. injection H as <-. destruct (IH eq_refl) as (a' & Hin & Ha'). eauto.
  - intros H. injection H as <-. eauto.
Qed.

Lemma py_float_raises (py : builtins) (v : pyvalue) (x : exn) :
  py_float py v = Raise x -> malformed x = true.
Proof.
  destruct v as [| |z| |s| |]; simpl; try discriminate;
    try (intros H; injection H as <-; reflexivity).
  - intros H. apply float_of_int_raises in H as ->. reflexivity.
  - destruct (float_of_str py s); [discriminate|]. intros H. injection H as <-. reflexivity.
Qed.

Lemma rate_line_vals_raises (py : builtins) (zar_id : Z) (r : pyvalue) (x : exn) :
  rate_line_vals py zar_id r = Raise x -> malformed x = true.
Proof.
  destruct r as [| | | | | |rd]; try (intros H; injection H as <-; reflexivity).
  unfold rate_line_vals. simpl.
  destruct (py_float py (dict_get rd "total_price" (PFloat f_zero))) as [price|y] eqn:Hp;
    simpl; [discriminate|].
  intros H. injection H as <-. eauto using py_float_raises.
Qed.

(** For rates that count as true, [_create_rate_selection_wizard] raises
    nothing but the exceptions of a malformed answer. *)
Lemma create_wizard_raises (py : builtins) (order : sale_order) (rates : pyvalue)
    (e e' : env) (x : exn) :
  truthy rates = true ->
  _create_rate_selection_wizard py order rates e = (Raise x, e') ->
  malformed x = true.
Proof.
  intros Ht. unfold _create_rate_selection_wizard.
  destruct rates as [|b|z|f|s|l|d]; simpl py_iter;
    try (simpl; intros H; injection H as <- _; reflexivity).
  - destruct s as [|c s]; [discriminate|]. simpl. intros H. injection H as <- _. reflexivity.
  - change (bind (Ok l) ?k) with (k l). cbv beta.
    destruct (map_result (rate_line_vals py (env_zar_id e)) l) as [lines|y] eqn:Hlines.
    + apply map_result_ok in Hlines.
      destruct lines as [|line lines]; [|discriminate].
      inversion Hlines; subst. discriminate.
    + intros H. injection H as <- _.
      apply map_result_raise in Hlines as (r & _ & Hr). eauto using rate_line_vals_raises.
  - destruct d as [|[k v] d]; [discriminate|]. simpl. intros H. injection H as <- _.
    reflexivity.
Qed.

(** What the [except] clauses of [bobgo_rate_shipment] make of an
    exception of the library or of a malformed answer. *)
Lemma rate_handler_kinds (py : builtins) (y x : exn) (e e' : env) :
  requests_outcome (Raise y) = true \/ malformed y = true
  \/ (exists msg, y = UserError msg) ->
  rate_shipment_handler py y e = (Raise x, e') ->
  match x with
  | UserError _ | TypeError _ | AttributeError _ | OverflowError _ => True
  | _ => False
  end.
Proof.
  intros Hy. destruct y; simpl in Hy;
    try (destruct Hy as [Hy|[Hy|[msg' Hy]]]; discriminate);
    simpl; unfold mbind, lift, raise;
    try (intros H; injection H as <- _; exact I).
  destruct (_extract_error_detail py resp) as [detail|z] eqn:Hd.
  - rewrite format_http_error_cases.
    destruct (bool_decide _); intros H; injection H as <- _; exact I.
  - apply extract_error_detail_raises in Hd as [m ->].
    intros H; injection H as <- _; exact I.
Qed.

Lemma py_get_raises (v : pyvalue) (k : string) (dflt : pyvalue) (x : exn) :
  py_get v k dflt = Raise x -> malformed x = true.
Proof. destruct v; simpl; try discriminate; intros H; injection H as <-; reflexivity. Qed.

Lemma py_len_raises (v : pyvalue) (x : exn) : py_len v = Raise x -> malformed x = true.
Proof. destruct v; simpl; try discriminate; intros H; injection H as <-; reflexivity. Qed.

Lemma request_rates_raises (py : builtins) (order : sale_order) (self : carrier)
    (payload : pyvalue) (e e' : env) (x : exn) :
  requests_outcome (next_outcome (env_net e)) = true ->
  request_rates py order self payload e = (Raise x, e') ->
  match x with
  | UserError _ | TypeError _ | AttributeError _ | OverflowError _ => True
  | _ => False
  end.
Proof.
  intros Hnet Hrun. unfold request_rates, try_except, mbind at 1 in Hrun.
  unfold post, requests_post, next_outcome in *.
  destruct (pending (env_net e)) as [|o rest].
  { simpl in Hrun. injection Hrun as <- _. exact I. }
  destruct o as [r|y]; [|eapply rate_handler_kinds; [left; exact Hnet|exact Hrun]].
  unfold mbind at 1, lift at 1 in Hrun.
  destruct (raise_for_status _ r) as [[]|y] eqn:Hstatus.
  2:{ eapply rate_handler_kinds; [|exact Hrun]. left.
      unfold raise_for_status in Hstatus.
      destruct (_ && _); [injection Hstatus as <-; reflexivity|].
      destruct (_ && _); [injection Hstatus as <-; reflexivity|discriminate]. }
  unfold mbind at 1, lift at 1 in Hrun.
  destruct (response_json r) as [data|y] eqn:Hjson.
  2:{ eapply rate_handler_kinds; [|exact Hrun]. left.
      unfold response_json in Hjson. destruct (json_body r); [discriminate|].
      injection Hjson as <-. reflexivity. }
  unfold mbind at 1, lift at 1 in Hrun.
  destruct (py_get data "rates" (PList [])) as [listed|y] eqn:Hlisted.
  2:{ eapply rate_handler_kinds; [|exact Hrun]. right. left. eauto using py_get_raises. }
  unfold mbind at 1, lift at 1 in Hrun.
  destruct (py_len listed) as [n|y] eqn:Hlen.
  2:{ eapply rate_handler_kinds; [|exact Hrun]. right. left. eauto using py_len_raises. }
  unfold mbind at 1, lift at 1 in Hrun.
  destruct (py_get data "rates" PNone) as [rates|y] eqn:Hrates.
  2:{ eapply rate_handler_kinds; [|exact Hrun]. right. left. eauto using py_get_raises. }
  destruct (negb (truthy rates)) eqn:Ht.
  { unfold raise in Hrun. eapply rate_handler_kinds; [|exact Hrun]. right. right. eauto. }
  apply negb_false_iff in Ht.
  destruct (_create_rate_selection_wizard py order rates _) as [[action|y] e1] eqn:Hcreate;
    [discriminate|].
  eapply rate_handler_kinds; [|exact Hrun]. right. left.
  eauto using create_wizard_raises.
Qed.

Lemma order_items_loop_raises (py : builtins) (lines : list sale_order_line) :
  forall items dv x,
    order_items_loop py lines items dv = Raise x ->
    exists msg, x = OverflowError msg \/ x = ValueError msg.
Proof.
  induction lines as [|line rest IH]; intros items dv x; simpl; [discriminate|].
  destruct (product_id line) as [p|]; [|apply IH].
  destruct (order_item py line p) as [[[item price] quantity]|y] eqn:Hitem; simpl;
    [apply IH|].
  intros H. injection H as <-.
  unfold order_item in Hitem. rewrite !safe_float_of_float in Hitem. simpl in Hitem.
  destruct (int_of_float _) as [q|z] eqn:Hq; simpl in Hitem; [discriminate|].
  injection Hitem as <-.
  unfold int_of_float in Hq.
  destruct (if SFleb (product_uom_qty line) f_zero then f_one else product_uom_qty line);
    try discriminate; injection Hq as <-; eauto.
Qed.

(** X29: the exceptions that leave [bobgo_rate_shipment].  When the
    request returns a response or raises an exception of the [requests]
    library, no exception of the library leaves the method: what it
    raises is a user error, or [TypeError], [AttributeError] or
    [OverflowError] (from an answer that is not shaped as expected, or
    from the formatting of the message of an HTTP error), or the
    [ValueError] of a quantity that is not a number, raised while the
    items are prepared; a [ValueError] met after the request becomes a
    user error. *)
Theorem bobgo_rate_shipment_raises (py : builtins) (order : sale_order) (e : env) (x : exn) :
  requests_outcome (next_outcome (env_net e)) = true ->
  fst (bobgo_rate_shipment py order e) = Raise x ->
  leaves_rating py order x.
Proof.
  intros Hnet. unfold bobgo_rate_shipment.
  destruct (order_line order) as [|l ls]; [intros H; injection H as <-; exact I|].
  destruct (_prepare_collection_address order) as [collection|y] eqn:Hc.
  2:{ intros H. injection H as <-. unfold _prepare_collection_address in Hc.
      destruct (warehouse_partner order); [discriminate|]. injection Hc as <-. exact I. }
  destruct (_prepare_delivery_address order) as [delivery|y] eqn:Hd.
  2:{ intros H. injection H as <-. unfold _prepare_delivery_address in Hd.
      destruct (partner_shipping_id order); [discriminate|]. injection Hd as <-. exact I. }
  destruct (_prepare_order_items py order) as [[items dv]|y] eqn:Hitems.
  2:{ intros H. injection H as <-. unfold _prepare_order_items in Hitems.
      destruct (order_items_loop_raises py _ _ _ _ Hitems) as [msg [->| ->]];
        [exact I|exact Hitems]. }
  destruct items as [|item items]; [intros H; injection H as <-; exact I|].
  destruct (request_rates py order (env_self e) _ e) as [r e'] eqn:Hrun.
  simpl. intros ->.
  pose proof (request_rates_raises py order _ _ e e' x Hnet Hrun) as Hx.
  destruct x; try contradiction; exact I.
Qed.

Lemma bobgo_rate_shipment_raises_witness :
  leaves_rating sample_runtime sample_order
    (UserError "Shipping rate request timed out. Please try again.").
Proof.
  apply (bobgo_rate_shipment_raises sample_runtime sample_order timeout_env);
    vm_compute; reflexivity.
Defined.
